(** * easyprompt backend: credit accounting and access-tier enforcement

    A shallow embedding of the credit logic of [userHelpers.js] and of
    the request handlers of [server.js] ([handlePromptImprovement] and
    [GET /api/me]), with the properties the specification states about
    them.

    Modelling conventions.
    - Credits, counters and HTTP statuses are JavaScript integers,
      embedded as [Z].
    - The [users] table is a finite map from the primary key [id] to a
      row; a nullable column is an [option].  Timestamps are
      milliseconds since the epoch.
    - The in-memory [anonymousCredits] Map is a finite map from the
      client address to the remaining credits.
    - Effects are threaded through a state-and-exception monad [M] over
      the record [World]; a JavaScript [throw] is the result [Throw].
      Every statement sent to the store and every access to the
      anonymous pool is appended to [trace], so that "is never
      consulted" is a statement about the trace.
    - A single-row query on a missing row yields the PostgREST error
      PGRST116, as in the store's client; other storage failures
      (network, row-level security) are outside the model.
    - Strings are JavaScript strings in their UTF-8 encoding, as Rocq
      string literals are; the string operations used here give the
      same result on the bytes as on the UTF-16 code units.  [trim]
      removes the white space of ECMAScript, ASCII or not (U+180E is
      no white space since Unicode 6.3). *)

From Stdlib Require Import ZArith String Ascii List Bool Lia.
From stdpp Require Import base option gmap strings.

Local Open Scope string_scope.
Local Open Scope list_scope.

(** ** JavaScript string primitives *)

Module Js.

(** Truthiness of a string: only the empty string is falsy. *)
Definition truthy (s : string) : bool :=
  match s with EmptyString => false | String _ _ => true end.

(** [a || b] on possibly-undefined strings. *)
Definition or_else (a : option string) (b : option string) : option string :=
  match a with
  | Some s => if truthy s then Some s else b
  | None => b
  end.

(** The white space that [String.prototype.trim] removes (WhiteSpace
    and LineTerminator of ECMAScript), as it appears in UTF-8.  One
    byte: TAB, LF, VT, FF, CR, SP. *)
Definition is_white_space (c : ascii) : bool :=
  let n := N_of_ascii c in
  (N.eqb n 9 || N.eqb n 10 || N.eqb n 11 || N.eqb n 12
   || N.eqb n 13 || N.eqb n 32)%N%bool.

(** Two bytes: U+00A0 (C2 A0). *)
Definition is_white_space2 (c d : ascii) : bool :=
  (N.eqb (N_of_ascii c) 194 && N.eqb (N_of_ascii d) 160)%N%bool.

(** Three bytes: U+1680 (E1 9A 80); U+2000 to U+200A, U+2028, U+2029
    and U+202F (E2 80 80..8A, A8, A9, AF); U+205F (E2 81 9F); U+3000
    (E3 80 80); U+FEFF (EF BB BF). *)
Definition is_white_space3 (c d e : ascii) : bool :=
  let x := N_of_ascii c in
  let y := N_of_ascii d in
  let z := N_of_ascii e in
  ((N.eqb x 225 && N.eqb y 154 && N.eqb z 128)
   || (N.eqb x 226 && N.eqb y 128
       && ((N.leb 128 z && N.leb z 138) || N.eqb z 168 || N.eqb z 169
           || N.eqb z 175))
   || (N.eqb x 226 && N.eqb y 129 && N.eqb z 159)
   || (N.eqb x 227 && N.eqb y 128 && N.eqb z 128)
   || (N.eqb x 239 && N.eqb y 187 && N.eqb z 191))%N%bool.

(** Whether the bytes begin with a white space character, whose bytes
    are tested by [w1], [w2] and [w3]. *)
Definition starts_blank (w1 : ascii → bool) (w2 : ascii → ascii → bool)
    (w3 : ascii → ascii → ascii → bool) (l : list ascii) : bool :=
  match l with
  | c :: d :: e :: _ => w1 c || w2 c d || w3 c d e
  | [c; d] => w1 c || w2 c d
  | [c] => w1 c
  | [] => false
  end.

(** The bytes without the white space characters they begin with. *)
Fixpoint strip (w1 : ascii → bool) (w2 : ascii → ascii → bool)
    (w3 : ascii → ascii → ascii → bool) (l : list ascii) : list ascii :=
  match l with
  | [] => []
  | c :: r =>
      if w1 c then strip w1 w2 w3 r
      else
        match r with
        | [] => l
        | d :: r' =>
            if w2 c d then strip w1 w2 w3 r'
            else
              match r' with
              | [] => l
              | e :: r'' => if w3 c d e then strip w1 w2 w3 r'' else l
              end
        end
  end.

Definition stripStart : list ascii → list ascii :=
  strip is_white_space is_white_space2 is_white_space3.

(** The same from the end, on the reversed bytes.  In UTF-8 the first
    byte of a character is no continuation byte, so that the bytes of
    a white space character at the end of the text are that character. *)
Definition stripEnd : list ascii → list ascii :=
  strip is_white_space (fun d c => is_white_space2 c d)
        (fun e d c => is_white_space3 c d e).

Definition trimStart (s : string) : string :=
  string_of_list_ascii (stripStart (list_ascii_of_string s)).

Definition trimEnd (s : string) : string :=
  string_of_list_ascii (List.rev (stripEnd (List.rev (list_ascii_of_string s)))).

Definition trim (s : string) : string := trimEnd (trimStart s).

(** [s.split(',')[0]]: the text before the first comma. *)
Fixpoint split_comma_first (s : string) : string :=
  match s with
  | EmptyString => EmptyString
  | String c r =>
      if Ascii.eqb c ","%char then EmptyString
      else String c (split_comma_first r)
  end.

(** [s.includes(p)]. *)
Definition includes (p s : string) : bool :=
  match String.index 0 p s with Some _ => true | None => false end.

Definition startsWith (p s : string) : bool := String.prefix p s.

(** [s.replace(p, r)] with a string pattern: the first occurrence. *)
Definition replace (p r s : string) : string :=
  match String.index 0 p s with
  | Some i =>
      String.substring 0 i s +:+ r +:+
      String.substring (i + String.length p)
                       (String.length s - (i + String.length p)) s
  | None => s
  end.

Definition truthy_opt (s : option string) : bool :=
  match s with Some s => truthy s | None => false end.

(** Truthiness of an object reference: only [null] is falsy. *)
Definition non_null {A} (o : option A) : bool :=
  match o with Some _ => true | None => false end.

Definition endsWith (p s : string) : bool :=
  let n := String.length s in
  let k := String.length p in
  (Nat.leb k n && String.eqb (String.substring (n - k) k s) p)%bool.

(** [s.slice(a, -b)] (and [s.slice(a)] when [b] is 0): without the
    first [a] and the last [b] characters; empty when fewer remain. *)
Definition slice_off (a b : nat) (s : string) : string :=
  String.substring a (String.length s - a - b) s.

(** The class [\w]. *)
Definition is_word_char (c : ascii) : bool :=
  let n := N_of_ascii c in
  ((N.leb 48 n && N.leb n 57) || (N.leb 65 n && N.leb n 90)
   || (N.leb 97 n && N.leb n 122) || N.eqb n 95)%N%bool.

Fixpoint skip_word_chars (s : string) : string :=
  match s with
  | EmptyString => EmptyString
  | String c r => if is_word_char c then skip_word_chars r else s
  end.

Definition newline : string := String "010"%char EmptyString.
Definition fence : string := "```".

(** [s.replace(/^```[\w]*\n?/g, '')] *)
Definition strip_opening_fence (s : string) : string :=
  if startsWith fence s then
    match skip_word_chars (slice_off 3 0 s) with
    | String c r => if Ascii.eqb c "010"%char then r else String c r
    | EmptyString => EmptyString
    end
  else s.

(** [s.replace(/\n?```$/g, '')] *)
Definition strip_closing_fence (s : string) : string :=
  if endsWith fence s then
    let r := slice_off 0 3 s in
    if endsWith newline r then slice_off 0 1 r else r
  else s.

End Js.

Local Open Scope Z_scope.

(** ** The persisted store and the process state *)

(** A row of the [users] table (the columns this code reads or writes). *)
Record UserRow : Type := mkUserRow {
  email : option string;
  is_pro : option bool;
  credits : option Z;
  daily_credits_used : option Z;
  daily_reset_at : option Z;
  signup_bonus_given : option bool
}.

(** A row of the [prompts] table. *)
Record PromptRow : Type := mkPromptRow {
  user_id : string;
  input_text : string;
  output_text : option string;
  created_at : Z
}.

Inductive Column : Type :=
| col_email | col_is_pro | col_credits | col_daily_credits_used
| col_daily_reset_at | col_signup_bonus_given.

Inductive Event : Type :=
| EvSelect (id : string) (cols : list Column)
| EvUpdate (id : string) (cols : list Column)
| EvInsertPrompt (id : string)
| EvPoolHas (ip : string)
| EvPoolGet (ip : string)
| EvPoolSet (ip : string).

Record World : Type := mkWorld {
  users : gmap string UserRow;
  prompts : list PromptRow;
  anonymousCredits : gmap string Z;
  clock : Z;
  trace : list Event
}.

Definition set_users (f : gmap string UserRow → gmap string UserRow) (w : World) : World :=
  mkWorld (f (users w)) (prompts w) (anonymousCredits w) (clock w) (trace w).

Definition set_prompts (f : list PromptRow → list PromptRow) (w : World) : World :=
  mkWorld (users w) (f (prompts w)) (anonymousCredits w) (clock w) (trace w).

Definition set_anonymousCredits (f : gmap string Z → gmap string Z) (w : World) : World :=
  mkWorld (users w) (prompts w) (f (anonymousCredits w)) (clock w) (trace w).

Definition add_event (e : Event) (w : World) : World :=
  mkWorld (users w) (prompts w) (anonymousCredits w) (clock w) (trace w ++ [e]).

(** ** The state-and-exception monad *)

Inductive Res (A : Type) : Type :=
| Ok (a : A)
| Throw (msg : string).
Arguments Ok {A} a.
Arguments Throw {A} msg.

Definition M (A : Type) : Type := World → Res A * World.

Definition throw {A} (msg : string) : M A := fun w => (Throw msg, w).

#[global] Instance M_ret : MRet M := fun A a w => (Ok a, w).
#[global] Instance M_bind : MBind M := fun A B k m w =>
  match m w with
  | (Ok a, w') => k a w'
  | (Throw msg, w') => (Throw msg, w')
  end.

(** [new Date().getTime()]. *)
Definition Date_now : M Z := fun w => (Ok (clock w), w).

(** ** The store client *)

Record DbError : Type := mkDbError { code : string; message : string }.

Definition PGRST116 : DbError :=
  mkDbError "PGRST116" "JSON object requested, multiple (or no) rows returned".

(** [from('users').select(cols).eq('id', id).single()]. *)
Definition users_select_single (cols : list Column) (id : string)
  : M (UserRow + DbError) :=
  fun w =>
    let w' := add_event (EvSelect id cols) w in
    match users w !! id with
    | Some row => (Ok (inl row), w')
    | None => (Ok (inr PGRST116), w')
    end.

(** [from('users').update(patch).eq('id', id)]: a statement that matches
    no row is not an error. *)
Definition users_update (cols : list Column) (patch : UserRow → UserRow)
    (id : string) : M (option DbError) :=
  fun w =>
    let w' := add_event (EvUpdate id cols) w in
    match users w !! id with
    | Some row => (Ok None, set_users (insert id (patch row)) w')
    | None => (Ok None, w')
    end.

(** [from('users').update(patch).eq('id', id).select(..).single()]. *)
Definition users_update_select_single (cols : list Column)
    (patch : UserRow → UserRow) (id : string) : M (UserRow + DbError) :=
  fun w =>
    let w' := add_event (EvUpdate id cols) w in
    match users w !! id with
    | Some row => (Ok (inl (patch row)), set_users (insert id (patch row)) w')
    | None => (Ok (inr PGRST116), w')
    end.

(** [from('prompts').insert(row)]. *)
Definition prompts_insert (row : PromptRow) : M (option DbError) :=
  fun w =>
    (Ok None, set_prompts (fun l => l ++ [row]) (add_event (EvInsertPrompt (user_id row)) w)).

(** ** userHelpers.js *)

(** The per-request store client made by [createClient]; it is
    identified by the bearer token it was created with. *)
Definition Client : Type := string.

(** [getUserProStatus({ authenticatedClient, userId })] *)
Definition getUserProStatus (authenticatedClient : option Client)
    (userId : string) : M bool :=
  match authenticatedClient with
  | None => throw "Authenticated Supabase client is required"
  | Some _ =>
      if negb (Js.truthy userId) then throw "User ID is required"
      else
        r ← users_select_single [col_is_pro] userId;
        match r with
        | inr error =>
            if String.eqb (code error) "PGRST116" then mret false
            else throw ("Failed to get user Pro status: " +:+ message error)
        | inl data =>
            mret (match is_pro data with Some true => true | _ => false end)
        end
  end.

Record CreditInfo : Type := mkCreditInfo {
  info_credits : Z;
  dailyCreditsUsed : Z;
  dailyResetAt : option Z;
  signupBonusGiven : bool
}.

(** [getUserCreditInfo({ authenticatedClient, userId })] *)
Definition getUserCreditInfo (authenticatedClient : option Client)
    (userId : string) : M CreditInfo :=
  match authenticatedClient with
  | None => throw "Authenticated Supabase client is required"
  | Some _ =>
      if negb (Js.truthy userId) then throw "User ID is required"
      else
        r ← users_select_single
              [col_credits; col_daily_credits_used; col_daily_reset_at;
               col_signup_bonus_given] userId;
        match r with
        | inr error =>
            if String.eqb (code error) "PGRST116" then
              mret (mkCreditInfo 0 0 None false)
            else throw ("Failed to get user credit info: " +:+ message error)
        | inl data =>
            mret (mkCreditInfo (default 0 (credits data))
                               (default 0 (daily_credits_used data))
                               (daily_reset_at data)
                               (default false (signup_bonus_given data)))
        end
  end.

Definition MS_PER_DAY : Z := 24 * 60 * 60 * 1000.

(** The patch [{ daily_credits_used: 0, daily_reset_at: nextReset }]. *)
Definition patch_reset (nextReset : Z) (row : UserRow) : UserRow :=
  mkUserRow (email row) (is_pro row) (credits row) (Some 0) (Some nextReset)
            (signup_bonus_given row).

(** [resetDailyCreditsIfNeeded({ authenticatedClient, userId })] *)
Definition resetDailyCreditsIfNeeded (authenticatedClient : option Client)
    (userId : string) : M bool :=
  match authenticatedClient with
  | None => throw "Authenticated Supabase client is required"
  | Some _ =>
      if negb (Js.truthy userId) then throw "User ID is required"
      else
        creditInfo ← getUserCreditInfo authenticatedClient userId;
        now ← Date_now;
        let resetAt := dailyResetAt creditInfo in
        if match resetAt with None => true | Some t => t <=? now end then
          let nextReset := now + MS_PER_DAY in
          error ← users_update [col_daily_credits_used; col_daily_reset_at]
                    (patch_reset nextReset) userId;
          match error with
          | Some e => throw ("Failed to reset daily credits: " +:+ message e)
          | None => mret true
          end
        else mret false
  end.

Record DeductResult : Type := mkDeductResult {
  remainingCredits : Z;
  dailyCreditsRemaining : Z;
  creditSource : string
}.

Definition DAILY_CREDITS : Z := 3.

(** The patch [{ daily_credits_used: d, credits: c }]. *)
Definition patch_deduct (d c : Z) (row : UserRow) : UserRow :=
  mkUserRow (email row) (is_pro row) (Some c) (Some d) (daily_reset_at row)
            (signup_bonus_given row).

(** [deductFreeUserCredits({ authenticatedClient, userId, amount, accessToken })].
    The call of [auth.setSession] touches neither the store nor the
    pool and its failure is swallowed; it is left out. *)
Definition deductFreeUserCredits (authenticatedClient : option Client)
    (userId : string) (amount : Z) (accessToken : option string)
  : M DeductResult :=
  match authenticatedClient with
  | None => throw "Authenticated Supabase client is required"
  | Some _ =>
      if negb (Js.truthy userId) then throw "User ID is required"
      else if amount <=? 0 then throw "Deduction amount must be positive"
      else
        _ ← resetDailyCreditsIfNeeded authenticatedClient userId;
        creditInfo ← getUserCreditInfo authenticatedClient userId;
        let dailyCreditsAvailable := DAILY_CREDITS - dailyCreditsUsed creditInfo in
        let bonusCredits := info_credits creditInfo in
        let totalAvailable := dailyCreditsAvailable + bonusCredits in
        if totalAvailable <? amount then throw "Insufficient credits"
        else
          let '(newDailyCreditsUsed, newBonusCredits, creditSource) :=
            if amount <=? dailyCreditsAvailable then
              (dailyCreditsUsed creditInfo + amount, bonusCredits, "daily")
            else
              let bonusNeeded := amount - dailyCreditsAvailable in
              (DAILY_CREDITS, bonusCredits - bonusNeeded, "mixed") in
          r ← users_update_select_single [col_daily_credits_used; col_credits]
                (patch_deduct newDailyCreditsUsed newBonusCredits) userId;
          match r with
          | inr error => throw ("Failed to deduct credits: " +:+ message error)
          | inl _ =>
              mret (mkDeductResult newBonusCredits
                                   (DAILY_CREDITS - newDailyCreditsUsed)
                                   creditSource)
          end
  end.

Definition SIGNUP_BONUS : Z := 10.

(** The patch [{ credits: c, signup_bonus_given: true }]. *)
Definition patch_bonus (c : Z) (row : UserRow) : UserRow :=
  mkUserRow (email row) (is_pro row) (Some c) (daily_credits_used row)
            (daily_reset_at row) (Some true).

(** [grantSignupBonus({ authenticatedClient, userId })] *)
Definition grantSignupBonus (authenticatedClient : option Client)
    (userId : string) : M unit :=
  match authenticatedClient with
  | None => throw "Authenticated Supabase client is required"
  | Some _ =>
      if negb (Js.truthy userId) then throw "User ID is required"
      else
        creditInfo ← getUserCreditInfo authenticatedClient userId;
        if signupBonusGiven creditInfo then mret tt
        else
          let newCredits := info_credits creditInfo + SIGNUP_BONUS in
          error ← users_update [col_credits; col_signup_bonus_given]
                    (patch_bonus newCredits) userId;
          match error with
          | Some e => throw ("Failed to grant signup bonus: " +:+ message e)
          | None => mret tt
          end
  end.

(** ** historyHelpers.js *)

(** [savePrompt({ authenticatedClient, userId, inputText, outputText })] *)
Definition savePrompt (authenticatedClient : option Client) (userId : string)
    (inputText outputText : string) : M unit :=
  match authenticatedClient with
  | None => throw "Authenticated Supabase client is required"
  | Some _ =>
      if negb (Js.truthy userId) then throw "User ID is required"
      else if negb (Js.truthy inputText) then throw "Input text is required"
      else
        now ← Date_now;
        error ← prompts_insert
                  (mkPromptRow userId inputText
                     (if Js.truthy outputText then Some outputText else None)
                     now);
        match error with
        | Some e => throw ("Failed to save prompt: " +:+ message e)
        | None => mret tt
        end
  end.

(** ** External collaborators of server.js *)

(** The identity provider's user object. *)
Record AuthUser : Type := mkAuthUser {
  auth_id : string;
  auth_email : option string
}.

Inductive SystemPrompt : Type :=
| SYSTEM_PROMPT_IMPROVE | SYSTEM_PROMPT_REFINE | SYSTEM_PROMPT_FOLLOWUP.

(** The argument of [openai.chat.completions.create]; the temperature
    is in hundredths. *)
Record ChatRequest : Type := mkChatRequest {
  model : string;
  systemMessage : SystemPrompt;
  userMessage : string;
  max_tokens : Z;
  temperature : Z
}.

(** The environment of the process: the identity provider
    ([supabase.auth.getUser], [None] when it reports an error or no
    user) and the completion client ([openai], [None] when no API key is
    configured; a call yields [choices[0]?.message?.content] or throws). *)
Record Env : Type := mkEnv {
  supabase_auth_getUser : string → option AuthUser;
  openai : option (ChatRequest → Res (option string))
}.

(** authHelpers.js: [verifyUserFromToken(token)] *)
Definition verifyUserFromToken (env : Env) (token : string) : M AuthUser :=
  if negb (Js.truthy token) then throw "Invalid or expired token"
  else
    match supabase_auth_getUser env token with
    | None => throw "Invalid or expired token"
    | Some user => mret user
    end.

(** ** server.js: the anonymous credit pool *)

Definition ANONYMOUS_FREE_CREDITS : Z := 5.

Definition anonymousCredits_has (ip : string) : M bool :=
  fun w => (Ok (bool_decide (is_Some (anonymousCredits w !! ip))),
            add_event (EvPoolHas ip) w).

Definition anonymousCredits_set (ip : string) (v : Z) : M unit :=
  fun w => (Ok tt, set_anonymousCredits (insert ip v) (add_event (EvPoolSet ip) w)).

Definition anonymousCredits_get (ip : string) : M (option Z) :=
  fun w => (Ok (anonymousCredits w !! ip), add_event (EvPoolGet ip) w).

(** [getAnonymousCredits(ip)].  After the insertion the key is present,
    so the [undefined] branch of [get] is never taken (lemma
    [getAnonymousCredits_run]). *)
Definition getAnonymousCredits (ip : string) : M Z :=
  has ← anonymousCredits_has ip;
  _ ← (if negb has then anonymousCredits_set ip ANONYMOUS_FREE_CREDITS
       else mret tt);
  v ← anonymousCredits_get ip;
  match v with
  | Some n => mret n
  | None => throw "undefined"
  end.

(** [deductAnonymousCredits(ip, amount)] *)
Definition deductAnonymousCredits (ip : string) (amount : Z) : M Z :=
  current ← getAnonymousCredits ip;
  if current <? amount then throw "Insufficient credits"
  else
    let remaining := current - amount in
    _ ← anonymousCredits_set ip remaining;
    mret remaining.

(** ** server.js: requests and responses *)

Record Request : Type := mkRequest {
  body_token : option string;
  body_original_prompt : option string;
  body_previous_prompt : option string;
  headers_authorization : option string;
  headers_x_forwarded_for : option string;
  headers_x_real_ip : option string;
  connection_remoteAddress : option string;
  socket_remoteAddress : option string
}.

Inductive Mode : Type := improve | refine | followup.

Inductive Body : Type :=
| JsonError (error : string) (creditsRemaining : option Z) (details : option string)
| JsonSuccess (output : string) (creditsRemaining : Z)
| JsonMe (email : option string) (plan : string) (credits_remaining : Z)
         (credits : Z) (is_pro : bool).

Record Response : Type := mkResponse { status : Z; body : Body }.

(** [getClientIP(req)] *)
Definition getClientIP (req : Request) : string :=
  default "unknown"
    (Js.or_else
       ((fun s => Js.trim (Js.split_comma_first s)) <$> headers_x_forwarded_for req)
       (Js.or_else (headers_x_real_ip req)
          (Js.or_else (connection_remoteAddress req)
             (Js.or_else (socket_remoteAddress req) (Some "unknown"))))).

(** Handler computations: a value, an early
    [return res.status(..).json(..)], or an exception on its way to the
    handler's outer [catch]. *)
Inductive HRes (A : Type) : Type :=
| Val (a : A)
| Return (r : Response)
| Raise (msg : string).
Arguments Val {A} a.
Arguments Return {A} r.
Arguments Raise {A} msg.

Definition H (A : Type) : Type := World → HRes A * World.

#[global] Instance H_ret : MRet H := fun A a w => (Val a, w).
#[global] Instance H_bind : MBind H := fun A B k m w =>
  match m w with
  | (Val a, w') => k a w'
  | (Return r, w') => (Return r, w')
  | (Raise msg, w') => (Raise msg, w')
  end.

(** [return res.status(st).json(b)] *)
Definition respond {A} (st : Z) (b : Body) : H A :=
  fun w => (Return (mkResponse st b), w).

(** A call outside of any inner [try]. *)
Definition call {A} (m : M A) : H A :=
  fun w => match m w with
           | (Ok a, w') => (Val a, w')
           | (Throw msg, w') => (Raise msg, w')
           end.

(** A call inside a [try]: the exception, if any, is handed to the
    code that follows as a value. *)
Definition attempt {A} (m : M A) : H (Res A) :=
  fun w => match m w with (r, w') => (Val r, w') end.

(** The outer [try { .. } catch (error) { .. }] shared by the handlers. *)
Definition run_handler (h : H Response) : World → Response * World :=
  fun w => match h w with
           | (Val r, w') => (r, w')
           | (Return r, w') => (r, w')
           | (Raise msg, w') =>
               if (Js.includes "token" msg || Js.includes "Invalid" msg)%bool then
                 (mkResponse 401 (JsonError "Invalid or expired token" None None), w')
               else (mkResponse 500 (JsonError msg None None), w')
           end.

(** ** server.js: [handlePromptImprovement] *)

Definition creditCosts (mode : Mode) : Z :=
  match mode with improve => 1 | refine => 1 | followup => 2 end.

Definition dquote : string := String "034"%char EmptyString.

(** The response clean-up after the completion call. *)
Definition clean_completion (content : string) : string :=
  let p := Js.trim content in
  let p := if ((Js.startsWith dquote p && Js.endsWith dquote p)
               || (Js.startsWith "'" p && Js.endsWith "'" p))%bool
           then Js.slice_off 1 1 p else p in
  let p := Js.strip_closing_fence (Js.strip_opening_fence p) in
  Js.trim p.

(** The [try] block around [openai.chat.completions.create]. *)
Definition complete (create : ChatRequest → Res (option string))
    (rq : ChatRequest) : M string :=
  match create rq with
  | Throw msg => throw msg
  | Ok content =>
      let improvedPrompt := clean_completion (default "" content) in
      if negb (Js.truthy improvedPrompt) then
        throw "No improved prompt received from OpenAI"
      else mret improvedPrompt
  end.

Definition msg_no_credits_anonymous : string :=
  "No credits remaining. Sign up to get more credits.".
Definition msg_no_credits_free : string :=
  "No credits remaining. You've used your 3 daily credits. Sign up to get 10 bonus credits or go Pro for unlimited access.".

(** The second half of [handlePromptImprovement], from "Check if OpenAI
    is configured" to the final [res.json]: the completion call, the
    history append and the reply. *)
Definition complete_and_reply (env : Env) (req : Request) (mode : Mode)
    (userId : option string) (authenticatedClient : option Client)
    (isAnonymous : bool) (remainingCredits : Z) : H Response :=
  let original_prompt := body_original_prompt req in
  let previous_prompt := body_previous_prompt req in
  let uid := default "" userId in
  (* Check if OpenAI is configured *)
  match openai env with
  | None => respond 500 (JsonError "OpenAI API not configured" None None)
  | Some create =>
      let prompt := Js.trim (default "" original_prompt) in
      let rq :=
        match mode with
        | improve => mkChatRequest "gpt-4o-mini" SYSTEM_PROMPT_IMPROVE prompt 250 35
        | refine => mkChatRequest "gpt-4o-mini" SYSTEM_PROMPT_REFINE prompt 250 35
        | followup =>
            let userMessage :=
              if Js.truthy_opt previous_prompt
                 && Js.truthy (Js.trim (default "" previous_prompt))
              then "Previous user message: " +:+ dquote
                   +:+ Js.trim (default "" previous_prompt) +:+ dquote
                   +:+ Js.newline +:+ Js.newline
                   +:+ "Current user input: " +:+ dquote +:+ prompt +:+ dquote
              else "Current user input: " +:+ dquote +:+ prompt +:+ dquote in
            mkChatRequest "gpt-4o-mini" SYSTEM_PROMPT_FOLLOWUP userMessage 300 35
        end in
      r ← attempt (complete create rq);
      match r with
      | Throw msg =>
          respond 500 (JsonError ("OpenAI API error: " +:+ msg) None None)
      | Ok improvedPrompt =>
          (* Save prompt to database (only for authenticated users) *)
          _ ← (if negb isAnonymous && Js.non_null authenticatedClient
                  && Js.truthy_opt userId
               then
                 _ ← attempt (savePrompt authenticatedClient uid prompt improvedPrompt);
                 mret tt
               else mret tt);
          mret (mkResponse 200 (JsonSuccess improvedPrompt remainingCredits))
      end
  end.

(** [handlePromptImprovement(req, res, mode)]; [mode] is one of the
    three route constants, so the [validModes] test always passes. *)
Definition handlePromptImprovement (env : Env) (req : Request) (mode : Mode)
  : World → Response * World :=
  run_handler (
    let token := Js.or_else (body_token req)
                   (Js.replace "Bearer " "" <$> headers_authorization req) in
    let original_prompt := body_original_prompt req in
    let previous_prompt := body_previous_prompt req in
    (* Validate required fields *)
    if negb (Js.truthy_opt original_prompt)
       || negb (Js.truthy (Js.trim (default "" original_prompt)))
    then respond 400 (JsonError "original_prompt is required" None None)
    else
    (* Follow-up REQUIRES authentication *)
    _ ← (match mode with
         | followup =>
             if negb (Js.truthy_opt token) then
               respond 401 (JsonError "Authentication required. Please log in." None None)
             else mret tt
         | _ => mret tt
         end);
    (* For improve and refine, token is optional *)
    '(userId, authenticatedClient, isAnonymous) ←
      (if Js.truthy_opt token then
         r ← attempt (verifyUserFromToken env (default "" token));
         match r with
         | Ok user => mret (Some (auth_id user), token, false)
         | Throw _ =>
             match mode with
             | followup =>
                 respond 401 (JsonError "Invalid or expired token" None None)
             | _ => mret (None, None, true)
             end
         end
       else mret (None, None, true));
    (* a null userId is falsy like the empty string *)
    let uid := default "" userId in
    (* Enforce Pro-only access for follow-up mode *)
    _ ← (match mode with
         | followup =>
             if negb (Js.non_null authenticatedClient) || negb (Js.truthy_opt userId)
             then respond 401 (JsonError "Authentication required. Please log in." None None)
             else
               r ← attempt (getUserProStatus authenticatedClient uid);
               match r with
               | Ok isPro =>
                   if negb isPro then
                     respond 403 (JsonError "Follow-up is a Pro feature. Upgrade to Pro to use this feature." None None)
                   else mret tt
               | Throw _ =>
                   respond 500 (JsonError "Failed to verify Pro status" None None)
               end
         | _ => mret tt
         end);
    (* Determine credit cost based on mode *)
    let creditCost := creditCosts mode in
    (* Handle credits: authenticated users vs anonymous users *)
    remainingCredits ←
      (if isAnonymous : bool then
         let clientIP := getClientIP req in
         currentCredits ← call (getAnonymousCredits clientIP);
         if currentCredits <=? 0 then
           respond 402 (JsonError msg_no_credits_anonymous (Some currentCredits) None)
         else if currentCredits <? creditCost then
           respond 402 (JsonError msg_no_credits_anonymous (Some currentCredits) None)
         else
           r ← attempt (deductAnonymousCredits clientIP creditCost);
           match r with
           | Ok remaining => mret remaining
           | Throw msg =>
               if String.eqb msg "Insufficient credits" then
                 respond 402 (JsonError msg_no_credits_anonymous (Some currentCredits) None)
               else
                 respond 500 (JsonError "Failed to process credits" None (Some msg))
           end
       else
         (* Check if user is Pro first - Pro users have unlimited usage *)
         r ← attempt (getUserProStatus authenticatedClient uid);
         let isPro := match r with Ok b => b | Throw _ => false end in
         if isPro then mret (-1)
         else
           match mode with
           | followup => mret (-1)
           | _ =>
               r ← attempt (resetDailyCreditsIfNeeded authenticatedClient uid);
               match r with
               | Throw _ => respond 500 (JsonError "Failed to check credits" None None)
               | Ok wasReset =>
               r ← attempt (getUserCreditInfo authenticatedClient uid);
               match r with
               | Throw _ => respond 500 (JsonError "Failed to check credits" None None)
               | Ok creditInfo =>
                   let dailyCreditsAvailable := DAILY_CREDITS - dailyCreditsUsed creditInfo in
                   let bonusCredits := info_credits creditInfo in
                   let totalAvailable := dailyCreditsAvailable + bonusCredits in
                   if totalAvailable <? creditCost then
                     respond 402 (JsonError msg_no_credits_free (Some totalAvailable) None)
                   else
                     r ← attempt (deductFreeUserCredits authenticatedClient uid creditCost token);
                     match r with
                     | Ok result => mret (remainingCredits result)
                     | Throw msg =>
                         if String.eqb msg "Insufficient credits" then
                           respond 402 (JsonError msg_no_credits_free (Some totalAvailable) None)
                         else
                           respond 500 (JsonError "Failed to process credits" None (Some msg))
                     end
               end
               end
           end);
    complete_and_reply env req mode userId authenticatedClient isAnonymous
                       remainingCredits).

(** ** server.js: [GET /api/me] *)

Definition me_columns : list Column :=
  [col_email; col_is_pro; col_credits; col_daily_credits_used;
   col_daily_reset_at; col_signup_bonus_given].

Definition me_refresh_columns : list Column :=
  [col_email; col_is_pro; col_credits; col_daily_credits_used;
   col_daily_reset_at].

Definition api_me (env : Env) (req : Request) : World → Response * World :=
  run_handler (
    let authHeader := headers_authorization req in
    if negb (Js.truthy_opt authHeader)
       || negb (Js.startsWith "Bearer " (default "" authHeader))
    then respond 401 (JsonError "Missing or invalid Authorization header" None None)
    else
    let token := Js.replace "Bearer " "" (default "" authHeader) in
    user ← call (verifyUserFromToken env token);
    let userId := auth_id user in
    let userEmail := auth_email user in
    let authenticatedClient := Some token in
    r ← call (users_select_single me_columns userId);
    match r with
    | inr error =>
        if String.eqb (code error) "PGRST116" then
          respond 200 (JsonMe userEmail "free" 0 0 false)
        else call (throw ("Failed to get user data: " +:+ message error))
    | inl userData =>
        (* Grant signup bonus if user exists but hasn't received it yet *)
        userData ←
          (if negb (default false (signup_bonus_given userData)) then
             r ← attempt (
                   _ ← grantSignupBonus authenticatedClient userId;
                   users_select_single me_refresh_columns userId);
             match r with
             | Ok (inl updatedUserData) =>
                 mret (mkUserRow
                         (Js.or_else (email updatedUserData) (email userData))
                         (is_pro updatedUserData)
                         (credits updatedUserData)
                         (daily_credits_used updatedUserData)
                         (daily_reset_at updatedUserData)
                         (signup_bonus_given userData))
             | Ok (inr _) => mret userData
             | Throw _ => mret userData
             end
           else mret userData);
        let isPro := match is_pro userData with Some true => true | _ => false end in
        let plan := if isPro then "pro" else "free" in
        credits_remaining ←
          (if isPro then mret 999999
           else
             now ← call Date_now;
             let dailyResetAt := daily_reset_at userData in
             let dailyCreditsUsed := default 0 (daily_credits_used userData) in
             let dailyCreditsAvailable :=
               if match dailyResetAt with None => true | Some t => t <=? now end
               then DAILY_CREDITS
               else Z.max 0 (DAILY_CREDITS - dailyCreditsUsed) in
             let bonusCredits := default 0 (credits userData) in
             mret (dailyCreditsAvailable + bonusCredits));
        mret (mkResponse 200
                (JsonMe (Js.or_else (email userData) userEmail) plan
                        credits_remaining credits_remaining isPro))
    end).

(** ** The event loop: requests as interleaved tasks *)

(** An [async] function as the event loop runs it.  [Sync m k] is
    synchronous code: it runs on within the current turn.  [Await stmt k]
    sends a statement to the store and awaits it: the statement executes
    atomically, and the rest [k] runs in a later turn, after turns of
    other requests may have run. *)
Inductive Task (A : Type) : Type :=
| Done (r : Res A)
| Sync {B : Type} (m : M B) (k : B → Task A)
| Await {B : Type} (stmt : M B) (k : B → Task A).
Arguments Done {A} r.
Arguments Sync {A B} m k.
Arguments Await {A B} stmt k.

Fixpoint task_bind {A B} (t : Task A) (k : A → Task B) : Task B :=
  match t with
  | Done (Ok a) => k a
  | Done (Throw msg) => Done (Throw msg)
  | Sync m k' => Sync m (fun b => task_bind (k' b) k)
  | Await stmt k' => Await stmt (fun b => task_bind (k' b) k)
  end.

#[global] Instance Task_ret : MRet Task := fun A a => Done (Ok a).
#[global] Instance Task_bind : MBind Task := fun A B k t => task_bind t k.

(** One turn of a task: its synchronous code up to and including the
    next awaited statement. *)
Fixpoint step {A} (t : Task A) (w : World) : Task A * World :=
  match t with
  | Done r => (Done r, w)
  | Sync m k =>
      match m w with
      | (Ok b, w') => step (k b) w'
      | (Throw msg, w') => (Done (Throw msg), w')
      end
  | Await stmt k =>
      match stmt w with
      | (Ok b, w') => (k b, w')
      | (Throw msg, w') => (Done (Throw msg), w')
      end
  end.

(** A task run to its end with no other request in between. *)
Fixpoint run_alone {A} (t : Task A) (w : World) : Res A * World :=
  match t with
  | Done r => (r, w)
  | Sync m k | Await m k =>
      match m w with
      | (Ok b, w') => run_alone (k b) w'
      | (Throw msg, w') => (Throw msg, w')
      end
  end.

(** Two requests under a schedule: [true] gives the next turn to the
    first, [false] to the second; when the schedule is used up, what is
    left of the first runs to its end, then what is left of the second. *)
Fixpoint interleave {A B} (sched : list bool) (t1 : Task A) (t2 : Task B)
    (w : World) : Res A * Res B * World :=
  match sched with
  | [] =>
      let '(r1, w1) := run_alone t1 w in
      let '(r2, w2) := run_alone t2 w1 in
      (r1, r2, w2)
  | true :: s => let '(t1', w') := step t1 w in interleave s t1' t2 w'
  | false :: s => let '(t2', w') := step t2 w in interleave s t1 t2' w'
  end.

(** [deductAnonymousCredits] is not [async]: a call is synchronous code. *)
Definition deductAnonymousCredits_task (ip : string) (amount : Z) : Task Z :=
  Sync (deductAnonymousCredits ip amount) (fun remaining => Done (Ok remaining)).

(** [getUserCreditInfo] with its [await]. *)
Definition getUserCreditInfo_task (authenticatedClient : option Client)
    (userId : string) : Task CreditInfo :=
  match authenticatedClient with
  | None => Done (Throw "Authenticated Supabase client is required")
  | Some _ =>
      if negb (Js.truthy userId) then Done (Throw "User ID is required")
      else
        Await (users_select_single
                 [col_credits; col_daily_credits_used; col_daily_reset_at;
                  col_signup_bonus_given] userId)
          (fun r =>
             match r with
             | inr error =>
                 if String.eqb (code error) "PGRST116" then
                   Done (Ok (mkCreditInfo 0 0 None false))
                 else Done (Throw ("Failed to get user credit info: " +:+ message error))
             | inl data =>
                 Done (Ok (mkCreditInfo (default 0 (credits data))
                                        (default 0 (daily_credits_used data))
                                        (daily_reset_at data)
                                        (default false (signup_bonus_given data))))
             end)
  end.

(** [resetDailyCreditsIfNeeded] with its [await]s. *)
Definition resetDailyCreditsIfNeeded_task (authenticatedClient : option Client)
    (userId : string) : Task bool :=
  match authenticatedClient with
  | None => Done (Throw "Authenticated Supabase client is required")
  | Some _ =>
      if negb (Js.truthy userId) then Done (Throw "User ID is required")
      else
        creditInfo ← getUserCreditInfo_task authenticatedClient userId;
        Sync Date_now (fun now =>
          let resetAt := dailyResetAt creditInfo in
          if match resetAt with None => true | Some t => t <=? now end then
            let nextReset := now + MS_PER_DAY in
            Await (users_update [col_daily_credits_used; col_daily_reset_at]
                     (patch_reset nextReset) userId)
              (fun error =>
                 match error with
                 | Some e => Done (Throw ("Failed to reset daily credits: " +:+ message e))
                 | None => Done (Ok true)
                 end)
          else Done (Ok false))
  end.

(** [deductFreeUserCredits] with its [await]s; the awaited
    [auth.setSession] is a turn that touches neither store nor pool. *)
Definition deductFreeUserCredits_task (authenticatedClient : option Client)
    (userId : string) (amount : Z) (accessToken : option string)
  : Task DeductResult :=
  match authenticatedClient with
  | None => Done (Throw "Authenticated Supabase client is required")
  | Some _ =>
      if negb (Js.truthy userId) then Done (Throw "User ID is required")
      else if amount <=? 0 then Done (Throw "Deduction amount must be positive")
      else
        _ ← (if Js.truthy_opt accessToken
             then Await (mret tt : M unit) (fun _ => Done (Ok tt))
             else Done (Ok tt));
        _ ← resetDailyCreditsIfNeeded_task authenticatedClient userId;
        creditInfo ← getUserCreditInfo_task authenticatedClient userId;
        let dailyCreditsAvailable := DAILY_CREDITS - dailyCreditsUsed creditInfo in
        let bonusCredits := info_credits creditInfo in
        let totalAvailable := dailyCreditsAvailable + bonusCredits in
        if totalAvailable <? amount then Done (Throw "Insufficient credits")
        else
          let '(newDailyCreditsUsed, newBonusCredits, creditSource) :=
            if amount <=? dailyCreditsAvailable then
              (dailyCreditsUsed creditInfo + amount, bonusCredits, "daily")
            else
              let bonusNeeded := amount - dailyCreditsAvailable in
              (DAILY_CREDITS, bonusCredits - bonusNeeded, "mixed") in
          Await (users_update_select_single [col_daily_credits_used; col_credits]
                   (patch_deduct newDailyCreditsUsed newBonusCredits) userId)
            (fun r =>
               match r with
               | inr error => Done (Throw ("Failed to deduct credits: " +:+ message error))
               | inl _ =>
                   Done (Ok (mkDeductResult newBonusCredits
                                            (DAILY_CREDITS - newDailyCreditsUsed)
                                            creditSource))
               end)
  end.

(** * Specification vocabulary *)

(** ** Views of the ledger *)

Definition credit_columns : list Column :=
  [col_credits; col_daily_credits_used; col_daily_reset_at; col_signup_bonus_given].

(** The view [getUserCreditInfo] gives of a row, and of a missing row. *)
Definition info_of_row (row : UserRow) : CreditInfo :=
  mkCreditInfo (default 0 (credits row)) (default 0 (daily_credits_used row))
               (daily_reset_at row) (default false (signup_bonus_given row)).

Definition info_of (o : option UserRow) : CreditInfo :=
  match o with
  | Some row => info_of_row row
  | None => mkCreditInfo 0 0 None false
  end.

(** [!resetAt || now >= resetAt] *)
Definition expired (now : Z) (resetAt : option Z) : bool :=
  match resetAt with None => true | Some t => t <=? now end.

(** The world after [resetDailyCreditsIfNeeded]. *)
Definition after_reset (uid : string) (w : World) : World :=
  let w1 := add_event (EvSelect uid credit_columns) w in
  if expired (clock w) (dailyResetAt (info_of (users w !! uid))) then
    snd (users_update [col_daily_credits_used; col_daily_reset_at]
           (patch_reset (clock w + MS_PER_DAY)) uid w1)
  else w1.

(** The row a reset leaves behind. *)
Definition row_after_reset (now : Z) (row : UserRow) : UserRow :=
  if expired now (daily_reset_at row) then patch_reset (now + MS_PER_DAY) row
  else row.

(** The two-source draw: new daily counter, new bonus credits, source. *)
Definition draw (u b a : Z) : Z * Z * string :=
  if a <=? DAILY_CREDITS - u then (u + a, b, "daily")
  else (DAILY_CREDITS, b - (a - (DAILY_CREDITS - u)), "mixed").

Definition deduct_columns : list Column := [col_daily_credits_used; col_credits].

(** ** Sample data *)

Module Sample.

Definition token : string := "tok-1".
Definition uid : string := "user-1".

(** A free account: 2 of the 3 daily credits used, 5 bonus credits,
    window open until t = 1000. *)
Definition row : UserRow :=
  mkUserRow (Some "a@example.org") (Some false) (Some 5) (Some 2) (Some 1000)
            (Some true).

(** A freshly registered account: nothing used, no bonus granted yet. *)
Definition fresh_uid : string := "user-2".
Definition fresh_row : UserRow :=
  mkUserRow (Some "b@example.org") (Some false) (Some 0) (Some 0) (Some 1000)
            (Some false).

(** A Pro account. *)
Definition pro_uid : string := "user-3".
Definition pro_token : string := "tok-3".
Definition pro_row : UserRow :=
  mkUserRow (Some "c@example.org") (Some true) (Some 0) (Some 0) (Some 1000)
            (Some true).

(** A free account whose stored daily counter exceeds the allowance:
    5 used, 1 bonus credit, window open. *)
Definition over_uid : string := "user-4".
Definition over_token : string := "tok-4".
Definition over_row : UserRow :=
  mkUserRow (Some "d@example.org") (Some false) (Some 1) (Some 5) (Some 1000)
            (Some true).

(** A free account with exactly one credit left: the daily allowance
    is used up and 1 bonus credit remains. *)
Definition last_uid : string := "user-5".
Definition last_token : string := "tok-5".
Definition last_row : UserRow :=
  mkUserRow (Some "e@example.org") (Some false) (Some 1) (Some 3) (Some 1000)
            (Some true).

(** The process at time 500: four accounts that satisfy the ledger
    invariants, an empty pool, no history. *)
Definition world : World :=
  mkWorld (<[ uid := row ]> (<[ fresh_uid := fresh_row ]>
            (<[ pro_uid := pro_row ]> {[ last_uid := last_row ]})))
          [] ∅ 500 [].

(** The same with the account [over_row] in the store. *)
Definition over_world : World := set_users (insert over_uid over_row) world.

(** The identity provider knows four tokens; the completion client
    echoes the user message. *)
Definition env : Env :=
  mkEnv (fun t =>
           if String.eqb t token then Some (mkAuthUser uid (Some "a@example.org"))
           else if String.eqb t pro_token then Some (mkAuthUser pro_uid (Some "c@example.org"))
           else if String.eqb t over_token then Some (mkAuthUser over_uid (Some "d@example.org"))
           else if String.eqb t last_token then Some (mkAuthUser last_uid (Some "e@example.org"))
           else None)
        (Some (fun rq => Ok (Some ("Improved: " +:+ userMessage rq)))).

Definition client_ip : string := "203.0.113.7".

(** A prompt request from [client_ip] with the given body token. *)
Definition request (tok : option string) : Request :=
  mkRequest tok (Some "write a poem") None None (Some client_ip) None None None.

(** A [GET /api/me] request with the given bearer token. *)
Definition me_request (tok : string) : Request :=
  mkRequest None None None (Some ("Bearer " +:+ tok)) (Some client_ip) None
            None None.

End Sample.

(** ** The anonymous pool and the signup bonus *)

(** The balance [getAnonymousCredits] reports. *)
Definition peek (ip : string) (w : World) : Z :=
  default ANONYMOUS_FREE_CREDITS (anonymousCredits w !! ip).

(** The world after [getAnonymousCredits]. *)
Definition after_get (ip : string) (w : World) : World :=
  let w1 := add_event (EvPoolHas ip) w in
  let w2 := if bool_decide (is_Some (anonymousCredits w !! ip)) then w1
            else set_anonymousCredits (insert ip ANONYMOUS_FREE_CREDITS)
                   (add_event (EvPoolSet ip) w1) in
  add_event (EvPoolGet ip) w2.

Definition bonus_columns : list Column := [col_credits; col_signup_bonus_given].

(** The world after [grantSignupBonus]. *)
Definition after_grant (uid : string) (w : World) : World :=
  let w1 := add_event (EvSelect uid credit_columns) w in
  let info := info_of (users w !! uid) in
  if signupBonusGiven info then w1
  else snd (users_update bonus_columns
              (patch_bonus (info_credits info + SIGNUP_BONUS)) uid w1).

(** ** Account invariants *)

Definition row_inv (row : UserRow) : Prop :=
  0 ≤ default 0 (credits row)
  ∧ 0 ≤ default 0 (daily_credits_used row) ≤ DAILY_CREDITS.

Definition ledger_inv (w : World) : Prop :=
  ∀ (uid : string) (row : UserRow), users w !! uid = Some row → row_inv row.

(** ** Requests, callers and outcomes *)

(** The token a request carries: [req.body.token], else the bearer
    header. *)
Definition request_token (req : Request) : option string :=
  Js.or_else (body_token req)
             (Js.replace "Bearer " "" <$> headers_authorization req).

(** [original_prompt] is present and not blank. *)
Definition prompt_valid (req : Request) : bool :=
  Js.truthy_opt (body_original_prompt req)
  && Js.truthy (Js.trim (default "" (body_original_prompt req))).

(** The same request with its credential removed. *)
Definition without_token (req : Request) : Request :=
  mkRequest None (body_original_prompt req) (body_previous_prompt req) None
            (headers_x_forwarded_for req) (headers_x_real_ip req)
            (connection_remoteAddress req) (socket_remoteAddress req).

(** The Pro flag [getUserProStatus] reads off the store. *)
Definition pro_of (o : option UserRow) : bool :=
  match o with
  | Some row => match is_pro row with Some true => true | _ => false end
  | None => false
  end.

Definition balance_column (c : Column) : bool :=
  match c with
  | col_credits | col_daily_credits_used => true
  | _ => false
  end.

(** A balance operation: a statement that reads or writes a balance
    column of an account, or any access to the anonymous pool. *)
Definition balance_op (e : Event) : bool :=
  match e with
  | EvSelect _ cols | EvUpdate _ cols => existsb balance_column cols
  | EvInsertPrompt _ => false
  | EvPoolHas _ | EvPoolGet _ | EvPoolSet _ => true
  end.

Definition no_balance_op (evs : list Event) : bool :=
  forallb (fun e => negb (balance_op e)) evs.

Definition deny (st : Z) (msg : string) : Response :=
  mkResponse st (JsonError msg None None).

Definition msg_auth_required : string := "Authentication required. Please log in.".
Definition msg_pro_required : string :=
  "Follow-up is a Pro feature. Upgrade to Pro to use this feature.".

(** Who a request speaks for, as the identity phase of the handler
    decides it. *)
Inductive Caller : Type :=
| Anonymous
| Account (tok : string) (user : AuthUser).

Definition caller (env : Env) (req : Request) : Caller :=
  match request_token req with
  | Some tok =>
      if Js.truthy tok then
        match supabase_auth_getUser env tok with
        | Some user => Account tok user
        | None => Anonymous
        end
      else Anonymous
  | None => Anonymous
  end.

Definition no_credits_anonymous (cur : Z) : Response :=
  mkResponse 402 (JsonError msg_no_credits_anonymous (Some cur) None).

Definition no_credits_free (total : Z) : Response :=
  mkResponse 402 (JsonError msg_no_credits_free (Some total) None).

(** The anonymous path of [handlePromptImprovement]. *)
Definition anonymous_outcome (env : Env) (req : Request) (mode : Mode)
    (w : World) : Response * World :=
  let ip := getClientIP req in
  let cur := peek ip w in
  if (cur <=? 0) || (cur <? creditCosts mode) then
    (no_credits_anonymous cur, after_get ip w)
  else
    run_handler
      (complete_and_reply env req mode None None true (cur - creditCosts mode))
      (set_anonymousCredits (insert ip (cur - creditCosts mode))
         (add_event (EvPoolSet ip) (after_get ip (after_get ip w)))).

(** The authenticated path of [handlePromptImprovement] for the modes
    improve and refine. *)
Definition account_outcome (env : Env) (req : Request) (mode : Mode)
    (tok uid : string) (w : World) : Response * World :=
  match getUserProStatus (Some tok) uid w with
  | (r, w1) =>
      if match r with Ok b => b | Throw _ => false end then
        run_handler
          (complete_and_reply env req mode (Some uid) (Some tok) false (-1)) w1
      else
        match resetDailyCreditsIfNeeded (Some tok) uid w1 with
        | (Throw _, w2) => (deny 500 "Failed to check credits", w2)
        | (Ok _, w2) =>
            match getUserCreditInfo (Some tok) uid w2 with
            | (Throw _, w3) => (deny 500 "Failed to check credits", w3)
            | (Ok info, w3) =>
                let total := DAILY_CREDITS - dailyCreditsUsed info + info_credits info in
                if total <? creditCosts mode then (no_credits_free total, w3)
                else
                  match deductFreeUserCredits (Some tok) uid (creditCosts mode)
                          (Some tok) w3 with
                  | (Ok res, w4) =>
                      run_handler
                        (complete_and_reply env req mode (Some uid) (Some tok)
                           false (remainingCredits res)) w4
                  | (Throw msg, w4) =>
                      (if String.eqb msg "Insufficient credits"
                       then no_credits_free total
                       else mkResponse 500
                              (JsonError "Failed to process credits" None (Some msg)),
                       w4)
                  end
            end
        end
  end.

(** ** Concurrent reservations *)

Definition succeeded {A} (r : Res A) : bool :=
  match r with Ok _ => true | Throw _ => false end.

(** Of two reservations exactly one succeeds and the other fails with
    "Insufficient credits". *)
Definition exactly_one_success {A} (r1 r2 : Res A) : Prop :=
  (succeeded r1 = true ∧ r2 = Throw "Insufficient credits")
  ∨ (r1 = Throw "Insufficient credits" ∧ succeeded r2 = true).

(** The two serial orders of two synchronous calls. *)
Definition first_then_second {A B} (m1 : M A) (m2 : M B) (w : World)
  : Res A * Res B * World :=
  let '(r1, w1) := m1 w in let '(r2, w2) := m2 w1 in (r1, r2, w2).

Definition second_then_first {A B} (m1 : M A) (m2 : M B) (w : World)
  : Res A * Res B * World :=
  let '(r2, w1) := m2 w in let '(r1, w2) := m1 w1 in (r1, r2, w2).

Definition sync_call {A} (m : M A) : Task A := Sync m (fun a => Done (Ok a)).

(** The specification's requirement on the account ledger: under every
    schedule, two deductions of 1 from an account with exactly one
    credit available do not both succeed. *)
Definition ledger_serialized_per_key : Prop :=
  ∀ (sched : list bool) (c : Client) (uid : string) (tok : option string)
    (w : World) (row : UserRow),
    Js.truthy uid = true →
    users w !! uid = Some row →
    expired (clock w) (daily_reset_at row) = false →
    DAILY_CREDITS - default 0 (daily_credits_used row) + default 0 (credits row) = 1 →
    exactly_one_success
      (fst (fst (interleave sched (deductFreeUserCredits_task (Some c) uid 1 tok)
                   (deductFreeUserCredits_task (Some c) uid 1 tok) w)))
      (snd (fst (interleave sched (deductFreeUserCredits_task (Some c) uid 1 tok)
                   (deductFreeUserCredits_task (Some c) uid 1 tok) w))).

(** The schedule of the race: both requests read the balance before
    either writes it. *)
Definition race_schedule : list bool := [true; true; false; false].

(** * Further vocabulary *)

(** ** Balances and locality *)

(** The balance the handlers compare with the cost:
    [DAILY_CREDITS - dailyCreditsUsed + credits], nulls read as 0. *)
Definition available (row : UserRow) : Z :=
  DAILY_CREDITS - default 0 (daily_credits_used row) + default 0 (credits row).

(** Every anonymous balance is non-negative. *)
Definition pool_inv (w : World) : Prop :=
  ∀ (ip : string) (v : Z), anonymousCredits w !! ip = Some v → 0 ≤ v.

(** [w'] differs from [w] at most in the row of account [uid], which is
    neither created nor deleted (and in the trace). *)
Definition touches_only (uid : string) (w w' : World) : Prop :=
  (∀ uid', uid' ≠ uid → users w' !! uid' = users w !! uid')
  ∧ (is_Some (users w' !! uid) ↔ is_Some (users w !! uid))
  ∧ anonymousCredits w' = anonymousCredits w
  ∧ prompts w' = prompts w
  ∧ clock w' = clock w.

(** A computation that, from every state, touches only account [uid]. *)
Definition account_local {A} (uid : string) (m : M A) : Prop :=
  ∀ w, touches_only uid w (snd (m w)).

(** ** Outcomes of a prompt request *)

(** The row [savePrompt] appends for a completed request. *)
Definition history_row (req : Request) (uid out : string) (now : Z) : PromptRow :=
  mkPromptRow uid (Js.trim (default "" (body_original_prompt req))) (Some out) now.

(** A request is admitted when it is answered with the completion or
    with a failure of the completion, i.e. not turned away. *)
Definition admitted (resp : Response) : Prop :=
  status resp = 200 ∨ status resp = 500.

(** The server handling prompt requests one after the other. *)
Fixpoint serve (env : Env) (reqs : list (Request * Mode)) (w : World)
  : list Response * World :=
  match reqs with
  | [] => ([], w)
  | (req, mode) :: rest =>
      let '(resp, w1) := handlePromptImprovement env req mode w in
      let '(resps, w2) := serve env rest w1 in
      (resp :: resps, w2)
  end.

(** An improve or refine request with a valid prompt that is treated as
    anonymous and comes from client identifier [ip]. *)
Definition anonymous_from (env : Env) (ip : string) (rm : Request * Mode) : Prop :=
  snd rm ≠ followup
  ∧ prompt_valid (fst rm) = true
  ∧ caller env (fst rm) = Anonymous
  ∧ getClientIP (fst rm) = ip.

(** What a piece of the handler may do to the state: the pool and the
    other accounts stay, the ledger invariant is kept, the history
    grows by [new]. *)
Definition handler_frame (uid : string) (new : list PromptRow) (w w' : World)
  : Prop :=
  anonymousCredits w' = anonymousCredits w
  ∧ (∀ uid', uid' ≠ uid → users w' !! uid' = users w !! uid')
  ∧ (ledger_inv w → ledger_inv w')
  ∧ clock w' = clock w
  ∧ prompts w' = prompts w ++ new.


(** ** Outcomes of [GET /api/me] *)

(** [userData.is_pro === true] *)
Definition row_is_pro (row : UserRow) : bool :=
  match is_pro row with Some true => true | _ => false end.

(** The [credits_remaining] that [GET /api/me] computes from a row. *)
Definition me_credits (now : Z) (row : UserRow) : Z :=
  if row_is_pro row then 999999
  else
    (if expired now (daily_reset_at row) then DAILY_CREDITS
     else Z.max 0 (DAILY_CREDITS - default 0 (daily_credits_used row)))
    + default 0 (credits row).

(** The reply of [GET /api/me] computed from a row. *)
Definition me_reply (now : Z) (userEmail : option string) (row : UserRow)
  : Response :=
  mkResponse 200
    (JsonMe (Js.or_else (email row) userEmail)
            (if row_is_pro row then "pro" else "free")
            (me_credits now row) (me_credits now row) (row_is_pro row)).

(** The row [GET /api/me] goes on with after the refresh that follows a
    grant: the refreshed columns, the old flag. *)
Definition me_merge (old new : UserRow) : UserRow :=
  mkUserRow (Js.or_else (email new) (email old)) (is_pro new) (credits new)
            (daily_credits_used new) (daily_reset_at new) (signup_bonus_given old).

(** [GET /api/me] once the bearer token is verified as [user]. *)
Definition me_outcome (tok : string) (user : AuthUser) (w : World)
  : Response * World :=
  let uid := auth_id user in
  let w1 := add_event (EvSelect uid me_columns) w in
  match users w !! uid with
  | None => (mkResponse 200 (JsonMe (auth_email user) "free" 0 0 false), w1)
  | Some row =>
      if default false (signup_bonus_given row) then
        (me_reply (clock w) (auth_email user) row, w1)
      else
        match grantSignupBonus (Some tok) uid w1 with
        | (Ok _, w2) =>
            (me_reply (clock w) (auth_email user)
               (match users w2 !! uid with
                | Some row2 => me_merge row row2
                | None => row
                end),
             add_event (EvSelect uid me_refresh_columns) w2)
        | (Throw _, w2) => (me_reply (clock w) (auth_email user) row, w2)
        end
  end.

(** The bearer token of a [GET /api/me] request with header [h]. *)
Definition bearer_of (h : string) : string := Js.replace "Bearer " "" h.

(** Who a [GET /api/me] request speaks for: the bearer token of the
    [Authorization] header and the user the identity provider knows it
    as. *)
Definition me_user (env : Env) (req : Request) : option (string * AuthUser) :=
  match headers_authorization req with
  | Some h =>
      if Js.startsWith "Bearer " h && Js.truthy (bearer_of h) then
        (fun user => (bearer_of h, user)) <$> supabase_auth_getUser env (bearer_of h)
      else None
  | None => None
  end.

(** ** server.js: [GET /api/pro/check] and [GET /extension-connect]

    Both read the access token from the [Authorization] header or from
    the query parameter [token], which is passed beside the request. *)

(** [req.headers.authorization?.replace('Bearer ', '') || req.query.token] *)
Definition header_or_query_token (req : Request) (query_token : option string)
  : option string :=
  Js.or_else (Js.replace "Bearer " "" <$> headers_authorization req) query_token.

Inductive ProCheckBody : Type :=
| JsonIsPro (isPro : bool)
| JsonProCheckError (error : string).

Record ProCheckResponse : Type := mkProCheckResponse {
  pro_check_status : Z;
  pro_check_body : ProCheckBody
}.

(** [app.get('/api/pro/check', ..)] *)
Definition api_pro_check (env : Env) (req : Request) (query_token : option string)
  : World → ProCheckResponse * World :=
  fun w =>
    let token := header_or_query_token req query_token in
    if negb (Js.truthy_opt token) then
      (mkProCheckResponse 401 (JsonProCheckError "Missing access token"), w)
    else
      let token := default "" token in
      match (user ← verifyUserFromToken env token;
             let userId := auth_id user in
             let authenticatedClient := Some token in
             getUserProStatus authenticatedClient userId) w with
      | (Ok isPro, w') => (mkProCheckResponse 200 (JsonIsPro isPro), w')
      | (Throw msg, w') =>
          if (Js.includes "token" msg || Js.includes "Invalid" msg)%bool then
            (mkProCheckResponse 401 (JsonProCheckError "Invalid or expired token"), w')
          else (mkProCheckResponse 500 (JsonProCheckError msg), w')
      end.

(** The targets of [res.redirect] in [/extension-connect]: ['/auth'],
    ['/upgrade'], and ['/extension-connect-success?token=' +
    encodeURIComponent(token)]. *)
Inductive Redirect : Type :=
| RedirectAuth
| RedirectUpgrade
| RedirectSuccess (extensionToken : string).

(** [app.get('/extension-connect', ..)] *)
Definition extension_connect (env : Env) (req : Request)
    (query_token : option string) : World → Redirect * World :=
  fun w =>
    let token := header_or_query_token req query_token in
    if negb (Js.truthy_opt token) then (RedirectAuth, w)
    else
      let token := default "" token in
      match verifyUserFromToken env token w with
      | (Throw _, w1) => (RedirectAuth, w1)
      | (Ok user, w1) =>
          let userId := auth_id user in
          let authenticatedClient := Some token in
          match getUserProStatus authenticatedClient userId w1 with
          | (Throw _, w2) => (RedirectAuth, w2)
          | (Ok isPro, w2) =>
              if negb isPro then (RedirectUpgrade, w2)
              else
                let extensionToken := token in
                (RedirectSuccess extensionToken, w2)
          end
      end.

(** The user the identity provider knows a token as; the empty token
    is refused before the provider is asked. *)
Definition token_user (env : Env) (token : option string) : option AuthUser :=
  match token with
  | Some tok => if Js.truthy tok then supabase_auth_getUser env tok else None
  | None => None
  end.

(** ** userHelpers.js: the earlier single-balance ledger *)

(** [getUserCredits({ authenticatedClient, userId })] *)
Definition getUserCredits (authenticatedClient : option Client)
    (userId : string) : M Z :=
  match authenticatedClient with
  | None => throw "Authenticated Supabase client is required"
  | Some _ =>
      if negb (Js.truthy userId) then throw "User ID is required"
      else
        r ← users_select_single [col_credits] userId;
        match r with
        | inr error =>
            if String.eqb (code error) "PGRST116" then mret 0
            else throw ("Failed to get user credits: " +:+ message error)
        | inl data => mret (default 0 (credits data))
        end
  end.

(** The patch [{ credits: c }]. *)
Definition patch_credits (c : Z) (row : UserRow) : UserRow :=
  mkUserRow (email row) (is_pro row) (Some c) (daily_credits_used row)
            (daily_reset_at row) (signup_bonus_given row).

(** [deductCredits({ authenticatedClient, userId, amount, accessToken })].
    The call of [auth.setSession] touches neither the store nor the
    pool and its failure is swallowed; it is left out.  The store
    returns no data only together with an error, so the test [!data]
    after the error branch never fires. *)
Definition deductCredits (authenticatedClient : option Client)
    (userId : string) (amount : Z) (accessToken : option string) : M Z :=
  match authenticatedClient with
  | None => throw "Authenticated Supabase client is required"
  | Some _ =>
      if negb (Js.truthy userId) then throw "User ID is required"
      else if amount <=? 0 then throw "Deduction amount must be positive"
      else
        currentCredits ← getUserCredits authenticatedClient userId;
        if currentCredits <? amount then throw "Insufficient credits"
        else
          let newCredits := currentCredits - amount in
          r ← users_update_select_single [col_credits] (patch_credits newCredits)
                userId;
          match r with
          | inr error =>
              if (String.eqb (code error) "42501"
                  || Js.includes "permission" (message error)
                  || Js.includes "policy" (message error))%bool
              then throw ("RLS policy blocked credit update: " +:+ message error
                          +:+ ". Please ensure users can update their own credits.")
              else throw ("Failed to deduct credits: " +:+ message error)
          | inl data => mret (default 0 (credits data))
          end
  end.

(** ** userHelpers.js: [ensureUserExists] *)

(** The unique violation of PostgreSQL. *)
Definition unique_violation : DbError :=
  mkDbError "23505" "duplicate key value violates unique constraint".

(** [from('users').insert(row)], the primary key being [id].  The trace
    keeps the statements on existing rows; an insert into [users] is
    not an event of it. *)
Definition users_insert (id : string) (row : UserRow) : M (option DbError) :=
  fun w =>
    match users w !! id with
    | Some _ => (Ok (Some unique_violation), w)
    | None => (Ok None, set_users (insert id row) w)
    end.

(** The row [ensureUserExists] inserts.  The statement does not name
    [is_pro]; the column takes the default of the schema, which is a
    parameter here.  The column [plan], which is set to ['free'], is
    read by no function of this development and is not part of
    [UserRow]. *)
Definition new_user_row (schema_is_pro : option bool) (userEmail : option string)
    (nextReset : Z) : UserRow :=
  mkUserRow userEmail schema_is_pro (Some 0) (Some 0) (Some nextReset) (Some false).

(** [ensureUserExists(user)]; it uses the service client of
    [supabaseClient.js].  Its first statement selects the key [id]
    only, which is no column of [UserRow]: the list of columns is
    empty. *)
Definition ensureUserExists (schema_is_pro : option bool) (user : option AuthUser)
  : M unit :=
  match user with
  | None => throw "User object with id is required"
  | Some user =>
      if negb (Js.truthy (auth_id user)) then
        throw "User object with id is required"
      else
        r ← users_select_single [] (auth_id user);
        match r with
        | inl existingUser => mret tt
        | inr selectError =>
            now ← Date_now;
            let nextReset := now + MS_PER_DAY in
            insertError ← users_insert (auth_id user)
                            (new_user_row schema_is_pro (auth_email user) nextReset);
            match insertError with
            | Some e =>
                if String.eqb (code e) "23505" then mret tt
                else throw ("Failed to create user: " +:+ message e)
            | None => mret tt
            end
        end
  end.

(** ** server.js: [POST /api/credits/add] *)

(** The body of the request: [email] when it is a string, [credits]
    when it is a number with an integer value (that value), [secret]
    when it is a string. *)
Record AddCreditsRequest : Type := mkAddCreditsRequest {
  body_email : option string;
  body_credits : option Z;
  body_secret : option string
}.

Inductive AddCreditsBody : Type :=
| JsonCreditsAdded (email : string) (creditsAdded totalCredits : Z)
| JsonAddCreditsError (error : string).

Record AddCreditsResponse : Type := mkAddCreditsResponse {
  add_credits_status : Z;
  add_credits_body : AddCreditsBody
}.

Definition unauthorized : AddCreditsResponse :=
  mkAddCreditsResponse 401 (JsonAddCreditsError "Unauthorized").

(** [from('users').select('id, credits').eq('email', e).single()]: the
    row whose e-mail address is [e], when there is exactly one.  The
    statement is not keyed by an id and is not an event of the trace. *)
Definition users_select_single_by_email (e : string)
  : M ((string * UserRow) + DbError) :=
  fun w =>
    match map_to_list (filter (fun kv => email kv.2 = Some e) (users w)) with
    | [(id, row)] => (Ok (inl (id, row)), w)
    | _ => (Ok (inr PGRST116), w)
    end.

(** The JavaScript number (an IEEE 754 double) nearest to an integer:
    an integer of magnitude below 2^53 is a number; beyond, the 53
    leading bits are kept, rounding to nearest, ties to even.  This is
    what reading an integer from JSON gives.  Numbers are finite up to
    a magnitude just below 2^1024; what lies beyond (Infinity) is
    outside this definition. *)
Definition to_number (z : Z) : Z :=
  let a := Z.abs z in
  if a <? 2 ^ 53 then z
  else
    let e := Z.log2 a - 52 in
    let q := a / 2 ^ e in
    let r := a mod 2 ^ e in
    let half := 2 ^ (e - 1) in
    let q' := if r <? half then q
              else if half <? r then q + 1
              else if Z.even q then q else q + 1 in
    Z.sgn z * (q' * 2 ^ e).

(** [a + b] on numbers that are integers: the exact sum, rounded. *)
Definition number_add (a b : Z) : Z := to_number (a + b).

(** The error of a store that cannot hold the value in the column. *)
Definition out_of_range : DbError :=
  mkDbError "22003" "value out of range".

(** [from('users').update({ credits: c }).eq('id', id).select('credits')
    .single()] with a value that comes from the request: the column
    holds the values that [credits_fits] accepts (the schema is not
    part of the sources), and the statement fails on any other. *)
Definition users_update_credits (credits_fits : Z → bool) (c : Z) (id : string)
  : M (UserRow + DbError) :=
  if credits_fits c then
    users_update_select_single [col_credits] (patch_credits c) id
  else
    fun w => (Ok (inr out_of_range), add_event (EvUpdate id [col_credits]) w).

(** [app.post('/api/credits/add', ..)].  [toLowerCase] is
    [String.prototype.toLowerCase] and [ADMIN_SECRET] is
    [process.env.ADMIN_SECRET], undefined when the variable is not
    set.  [credits] of the body is a JavaScript number: the amount is
    added to the balance as numbers are. *)
Definition api_credits_add (toLowerCase : string → string)
    (ADMIN_SECRET : option string) (credits_fits : Z → bool)
    (req : AddCreditsRequest)
  : World → AddCreditsResponse * World :=
  fun w =>
    if negb (Js.truthy_opt (body_secret req))
       || negb (bool_decide (body_secret req = ADMIN_SECRET))
    then (unauthorized, w)
    else
    match body_email req with
    | None => (unauthorized, w)
    | Some email_ =>
    if negb (Js.truthy email_) || negb (Js.truthy (Js.trim email_))
    then (unauthorized, w)
    else
    match body_credits req with
    | None => (unauthorized, w)
    | Some credits_ =>
    if credits_ <=? 0 then (unauthorized, w)
    else
      let normalizedEmail := toLowerCase (Js.trim email_) in
      match users_select_single_by_email normalizedEmail w with
      | (Ok (inl (id, userData)), w1) =>
          if negb (Js.truthy id) then (unauthorized, w1)
          else
            let currentCredits := to_number (default 0 (credits userData)) in
            let newCredits := number_add currentCredits credits_ in
            match users_update_credits credits_fits newCredits id w1 with
            | (Ok (inl updatedUser), w2) =>
                let updatedCredits :=
                  to_number (default newCredits (credits updatedUser)) in
                (mkAddCreditsResponse 200
                   (JsonCreditsAdded normalizedEmail credits_ updatedCredits), w2)
            | (_, w2) =>
                (mkAddCreditsResponse 500
                   (JsonAddCreditsError "Internal server error"), w2)
            end
      | (Ok (inr findError), w1) => (unauthorized, w1)
      | (Throw _, w1) =>
          (mkAddCreditsResponse 500 (JsonAddCreditsError "Internal server error"), w1)
      end
    end
    end.

(** Exactly one account has the e-mail address [e], namely [id]. *)
Definition only_account_with_email (e : string) (id : string) (row : UserRow)
    (w : World) : Prop :=
  users w !! id = Some row
  ∧ email row = Some e
  ∧ ∀ id' row', users w !! id' = Some row' → email row' = Some e → id' = id.

(** [toLowerCase] on ASCII text, for the examples. *)
Definition lower_ascii (c : ascii) : ascii :=
  let n := N_of_ascii c in
  if (N.leb 65 n && N.leb n 90)%bool then ascii_of_N (n + 32) else c.

Fixpoint toLowerCase_ascii (s : string) : string :=
  match s with
  | EmptyString => EmptyString
  | String c r => String (lower_ascii c) (toLowerCase_ascii r)
  end.

(** ** Concurrent grants of the signup bonus *)

(** [grantSignupBonus] with its [await]s. *)
Definition grantSignupBonus_task (authenticatedClient : option Client)
    (userId : string) : Task unit :=
  match authenticatedClient with
  | None => Done (Throw "Authenticated Supabase client is required")
  | Some _ =>
      if negb (Js.truthy userId) then Done (Throw "User ID is required")
      else
        creditInfo ← getUserCreditInfo_task authenticatedClient userId;
        if signupBonusGiven creditInfo then Done (Ok tt)
        else
          let newCredits := info_credits creditInfo + SIGNUP_BONUS in
          Await (users_update [col_credits; col_signup_bonus_given]
                   (patch_bonus newCredits) userId)
            (fun error =>
               match error with
               | Some e => Done (Throw ("Failed to grant signup bonus: " +:+ message e))
               | None => Done (Ok tt)
               end)
  end.

(** Where a running grant stands: before its read, between its read
    (which found the flag not set and computed [newCredits]) and its
    write, or at its end. *)
Inductive GrantPhase : Type := GrantStart | GrantWrite | GrantDone.

Definition grant_at (c : Client) (uid : string) (newCredits : Z)
    (p : GrantPhase) : Task unit :=
  match p with
  | GrantStart => grantSignupBonus_task (Some c) uid
  | GrantWrite =>
      Await (users_update [col_credits; col_signup_bonus_given]
               (patch_bonus newCredits) uid)
        (fun error =>
           match error with
           | Some e => Done (Throw ("Failed to grant signup bonus: " +:+ message e))
           | None => Done (Ok tt)
           end)
  | GrantDone => Done (Ok tt)
  end.

(** The bonus credits of an account once the signup bonus is granted,
    and the accounts once it is granted to [row], the row of [uid]. *)
Definition bonus_total (row : UserRow) : Z :=
  default 0 (credits row) + SIGNUP_BONUS.

Definition users_granted (uid : string) (row : UserRow) (w : World)
  : gmap string UserRow :=
  <[uid := patch_bonus (bonus_total row) row]> (users w).

(** ** What a handler answers *)

(** Every response of the handler computation [h], early or final,
    satisfies [P]; a value it yields satisfies [Q]. *)
Definition answers_with (P : Response → Prop) {A} (Q : A → Prop) (h : H A)
  : Prop :=
  ∀ w, match fst (h w) with
       | Val a => Q a
       | Return r => P r
       | Raise _ => True
       end.

(** [out] is what the completion client returned for this request,
    after the clean-up. *)
Definition from_completion (env : Env) (req : Request) (mode : Mode)
    (out : string) : Prop :=
  ∃ create rq content,
    openai env = Some create
    ∧ create rq = Ok content
    ∧ out = clean_completion (default "" content)
    ∧ Js.truthy out = true
    ∧ (mode ≠ followup →
       userMessage rq = Js.trim (default "" (body_original_prompt req))).

Definition success_from_completion (env : Env) (req : Request) (mode : Mode)
    (resp : Response) : Prop :=
  ∀ out cr, body resp = JsonSuccess out cr → from_completion env req mode out.


(** ** The completion of a request *)

(** The request [handlePromptImprovement] sends to the completion
    client. *)
Definition chat_request (req : Request) (mode : Mode) : ChatRequest :=
  let original_prompt := body_original_prompt req in
  let previous_prompt := body_previous_prompt req in
  let prompt := Js.trim (default "" original_prompt) in
  match mode with
  | improve => mkChatRequest "gpt-4o-mini" SYSTEM_PROMPT_IMPROVE prompt 250 35
  | refine => mkChatRequest "gpt-4o-mini" SYSTEM_PROMPT_REFINE prompt 250 35
  | followup =>
      let userMessage :=
        if Js.truthy_opt previous_prompt
           && Js.truthy (Js.trim (default "" previous_prompt))
        then "Previous user message: " +:+ dquote
             +:+ Js.trim (default "" previous_prompt) +:+ dquote
             +:+ Js.newline +:+ Js.newline
             +:+ "Current user input: " +:+ dquote +:+ prompt +:+ dquote
        else "Current user input: " +:+ dquote +:+ prompt +:+ dquote in
      mkChatRequest "gpt-4o-mini" SYSTEM_PROMPT_FOLLOWUP userMessage 300 35
  end.

(** What the completion client returns for a request, after the
    clean-up; [None] when no client is configured, when the call
    throws and when nothing is left of the answer. *)
Definition completion_of (env : Env) (req : Request) (mode : Mode)
  : option string :=
  match openai env with
  | None => None
  | Some create =>
      match create (chat_request req mode) with
      | Ok content =>
          let out := clean_completion (default "" content) in
          if Js.truthy out then Some out else None
      | Throw _ => None
      end
  end.

(** ** An account that draws on its daily allowance only *)

(** A free account with no bonus credits and nothing used of the daily
    allowance (the signup bonus being spent), and the sample process
    with that account as [Sample.uid]. *)
Definition daily_only_row : UserRow :=
  mkUserRow (Some "a@example.org") (Some false) (Some 0) (Some 0) (Some 1000)
            (Some true).

Definition daily_only_world : World :=
  set_users (insert Sample.uid daily_only_row) Sample.world.

(** * Properties *)

(** ** Run equations of the ledger *)

Ltac msimpl :=
  unfold mbind, mret, M_bind, M_ret, H_bind, H_ret, throw, Date_now in *;
  cbn [fst snd users prompts anonymousCredits clock trace
       add_event set_users set_prompts set_anonymousCredits] in *.

Lemma getUserCreditInfo_run (c : Client) (uid : string) (w : World) :
  Js.truthy uid = true →
  getUserCreditInfo (Some c) uid w
  = (Ok (info_of (users w !! uid)), add_event (EvSelect uid credit_columns) w).
Proof.
  intros Hu. unfold getUserCreditInfo. rewrite Hu. cbn [negb].
  msimpl. unfold users_select_single.
  destruct (users w !! uid) as [row|]; reflexivity.
Qed.

Lemma getUserProStatus_run (c : Client) (uid : string) (w : World) :
  Js.truthy uid = true →
  getUserProStatus (Some c) uid w
  = (Ok (match users w !! uid with
         | Some row => match is_pro row with Some true => true | _ => false end
         | None => false
         end),
     add_event (EvSelect uid [col_is_pro]) w).
Proof.
  intros Hu. unfold getUserProStatus. rewrite Hu. cbn [negb].
  msimpl. unfold users_select_single.
  destruct (users w !! uid) as [row|]; reflexivity.
Qed.

Lemma resetDailyCreditsIfNeeded_run (c : Client) (uid : string) (w : World) :
  Js.truthy uid = true →
  resetDailyCreditsIfNeeded (Some c) uid w
  = (Ok (expired (clock w) (dailyResetAt (info_of (users w !! uid)))),
     after_reset uid w).
Proof.
  intros Hu. unfold resetDailyCreditsIfNeeded, after_reset. rewrite Hu. cbn [negb].
  msimpl. rewrite getUserCreditInfo_run by assumption. msimpl.
  unfold expired.
  destruct (match dailyResetAt (info_of (users w !! uid)) with
            | Some t => t <=? clock w | None => true end); [|reflexivity].
  unfold users_update. msimpl.
  destruct (users w !! uid); reflexivity.
Qed.

Lemma after_reset_lookup (uid : string) (w : World) (row : UserRow) :
  users w !! uid = Some row →
  users (after_reset uid w) !! uid = Some (row_after_reset (clock w) row).
Proof.
  intros Hrow. unfold after_reset, row_after_reset. rewrite Hrow. cbn.
  destruct (expired (clock w) (daily_reset_at row)); cbn.
  - unfold users_update. cbn. rewrite Hrow. cbn. apply lookup_insert_eq.
  - exact Hrow.
Qed.

Lemma after_reset_lookup_None (uid : string) (w : World) :
  users w !! uid = None → users (after_reset uid w) = users w.
Proof.
  intros Hrow. unfold after_reset. rewrite Hrow. cbn.
  unfold users_update. cbn. rewrite Hrow. reflexivity.
Qed.

Lemma after_reset_lookup_ne (uid uid' : string) (w : World) :
  uid ≠ uid' → users (after_reset uid w) !! uid' = users w !! uid'.
Proof.
  intros Hne. unfold after_reset.
  destruct (expired _ _); cbn; [|reflexivity].
  unfold users_update. cbn.
  destruct (users w !! uid); cbn; [|reflexivity].
  by rewrite lookup_insert_ne.
Qed.

Lemma after_reset_frame (uid : string) (w : World) :
  anonymousCredits (after_reset uid w) = anonymousCredits w
  ∧ prompts (after_reset uid w) = prompts w
  ∧ clock (after_reset uid w) = clock w.
Proof.
  unfold after_reset. destruct (expired _ _); cbn; [|done].
  unfold users_update. cbn. destruct (users w !! uid); done.
Qed.

Lemma expired_after_reset (now : Z) (row : UserRow) :
  expired now (daily_reset_at (row_after_reset now row)) = false.
Proof.
  unfold row_after_reset.
  destruct (expired now (daily_reset_at row)) eqn:E; [|exact E].
  cbn. unfold MS_PER_DAY. apply Z.leb_gt. lia.
Qed.

Lemma deductFreeUserCredits_run (c : Client) (uid : string) (a : Z)
    (tok : option string) (w : World) (row : UserRow) :
  Js.truthy uid = true →
  users w !! uid = Some row →
  0 < a →
  let row1 := row_after_reset (clock w) row in
  let u := default 0 (daily_credits_used row1) in
  let b := default 0 (credits row1) in
  let w1 := add_event (EvSelect uid credit_columns) (after_reset uid w) in
  deductFreeUserCredits (Some c) uid a tok w
  = if (DAILY_CREDITS - u) + b <? a then (Throw "Insufficient credits", w1)
    else
      let '(d, nb, src) := draw u b a in
      (Ok (mkDeductResult nb (DAILY_CREDITS - d) src),
       set_users (insert uid (patch_deduct d nb row1))
                 (add_event (EvUpdate uid deduct_columns) w1)).
Proof.
  intros Hu Hrow Ha row1 u b w1.
  unfold deductFreeUserCredits. rewrite Hu. cbn [negb].
  destruct (a <=? 0) eqn:Ea; [apply Z.leb_le in Ea; lia|].
  msimpl. rewrite resetDailyCreditsIfNeeded_run by assumption. msimpl.
  rewrite getUserCreditInfo_run by assumption. msimpl.
  rewrite (after_reset_lookup uid w row Hrow).
  cbn [info_of info_of_row dailyCreditsUsed info_credits].
  fold row1. fold u. fold b.
  destruct (DAILY_CREDITS - u + b <? a); [reflexivity|].
  unfold draw.
  destruct (a <=? DAILY_CREDITS - u);
    unfold users_update_select_single; msimpl;
    rewrite (after_reset_lookup uid w row Hrow); reflexivity.
Qed.

(** ** C1: the two-source draw order *)

(** C1. A deduction of a positive amount [a] from an existing account
    whose daily usage in the current window is [u] (the deduction first
    rolls an expired window over, which zeroes the counter) and whose
    bonus credits are [b], with [(3 - u) + b >= a], succeeds; if
    [3 - u] covers [a] the persisted daily counter becomes [u + a], the
    bonus credits stay [b] and the source is "daily"; otherwise the
    counter becomes 3, the bonus credits lose the shortfall
    [a - (3 - u)] and the source is "mixed". *)
Theorem deduct_daily_first_then_bonus (c : Client) (uid : string)
    (tok : option string) (w : World) (row : UserRow) (a u b : Z) :
  Js.truthy uid = true →
  users w !! uid = Some row →
  u = (if expired (clock w) (daily_reset_at row) then 0
       else default 0 (daily_credits_used row)) →
  b = default 0 (credits row) →
  0 < a →
  (3 - u) + b >= a →
  ∃ res w' row',
    deductFreeUserCredits (Some c) uid a tok w = (Ok res, w')
    ∧ users w' !! uid = Some row'
    ∧ if a <=? 3 - u then
        daily_credits_used row' = Some (u + a)
        ∧ credits row' = Some b
        ∧ remainingCredits res = b
        ∧ creditSource res = "daily"
      else
        daily_credits_used row' = Some 3
        ∧ credits row' = Some (b - (a - (3 - u)))
        ∧ remainingCredits res = b - (a - (3 - u))
        ∧ creditSource res = "mixed".
Proof.
  intros Hu Hrow -> -> Ha Hsuff.
  rewrite (deductFreeUserCredits_run c uid a tok w row Hu Hrow Ha).
  cbv zeta.
  assert (Hused : default 0 (daily_credits_used (row_after_reset (clock w) row))
                  = if expired (clock w) (daily_reset_at row) then 0
                    else default 0 (daily_credits_used row)).
  { unfold row_after_reset. destruct (expired _ _); reflexivity. }
  assert (Hbonus : default 0 (credits (row_after_reset (clock w) row))
                   = default 0 (credits row)).
  { unfold row_after_reset. destruct (expired _ _); reflexivity. }
  rewrite Hused, Hbonus.
  set (u := if expired (clock w) (daily_reset_at row) then 0
            else default 0 (daily_credits_used row)) in *.
  set (b := default 0 (credits row)) in *.
  unfold DAILY_CREDITS in *.
  destruct (3 - u + b <? a) eqn:Elt; [apply Z.ltb_lt in Elt; lia|].
  unfold draw, DAILY_CREDITS.
  destruct (a <=? 3 - u); cbn [fst snd];
    eexists _, _, _; (split; [reflexivity|]);
    (split; [cbn; apply lookup_insert_eq|]); cbn; auto.
Qed.

(** The instance of the specification: [u = 2], [b = 5], [a = 2] gives
    source "mixed", bonus credits 4 and daily usage 3. *)
Lemma deduct_daily_first_then_bonus_witness :
  ∃ res w' row',
    deductFreeUserCredits (Some Sample.token) Sample.uid 2 None Sample.world
    = (Ok res, w')
    ∧ users w' !! Sample.uid = Some row'
    ∧ daily_credits_used row' = Some 3
    ∧ credits row' = Some 4
    ∧ remainingCredits res = 4
    ∧ creditSource res = "mixed".
Proof.
  destruct (deduct_daily_first_then_bonus Sample.token Sample.uid None
              Sample.world Sample.row 2 2 5)
    as (res & w' & row' & Hrun & Hrow & Hcase);
    [reflexivity | reflexivity | reflexivity | reflexivity | lia | lia |].
  exists res, w', row'. exact (conj Hrun (conj Hrow Hcase)).
Defined.

(** ** C4: the anonymous pool *)

Lemma getAnonymousCredits_run (ip : string) (w : World) :
  getAnonymousCredits ip w = (Ok (peek ip w), after_get ip w).
Proof.
  unfold getAnonymousCredits, peek, after_get, anonymousCredits_has,
    anonymousCredits_set, anonymousCredits_get.
  msimpl.
  destruct (anonymousCredits w !! ip) as [v|] eqn:E.
  - rewrite bool_decide_eq_true_2 by eauto. cbn. rewrite E. reflexivity.
  - rewrite bool_decide_eq_false_2 by (intros [? ?]; discriminate).
    cbn. rewrite lookup_insert_eq. reflexivity.
Qed.

Lemma after_get_lookup (ip : string) (w : World) :
  anonymousCredits (after_get ip w) !! ip = Some (peek ip w).
Proof.
  unfold after_get, peek.
  destruct (anonymousCredits w !! ip) as [v|] eqn:E.
  - rewrite bool_decide_eq_true_2 by eauto. cbn. exact E.
  - rewrite bool_decide_eq_false_2 by (intros [? ?]; discriminate).
    cbn. apply lookup_insert_eq.
Qed.

Lemma after_get_frame (ip : string) (w : World) :
  users (after_get ip w) = users w ∧ prompts (after_get ip w) = prompts w
  ∧ clock (after_get ip w) = clock w.
Proof. unfold after_get. destruct (bool_decide _); done. Qed.

Lemma deductAnonymousCredits_run (ip : string) (amount : Z) (w : World) :
  deductAnonymousCredits ip amount w
  = if peek ip w <? amount then (Throw "Insufficient credits", after_get ip w)
    else (Ok (peek ip w - amount),
          set_anonymousCredits (insert ip (peek ip w - amount))
            (add_event (EvPoolSet ip) (after_get ip w))).
Proof.
  unfold deductAnonymousCredits. msimpl. rewrite getAnonymousCredits_run.
  destruct (peek ip w <? amount); reflexivity.
Qed.

(** C4. For every anonymous identifier: the first observation creates
    an entry with 5 remaining credits, and an observation of an entry
    returns what is stored and leaves it.  With [remaining] the stored
    balance (5 for an identifier that has no entry yet), reserving a
    cost [c] not above [remaining] stores and returns [remaining - c];
    reserving more fails with "Insufficient credits" and leaves
    [remaining] stored.  No entry of another identifier changes. *)
Theorem anonymous_pool_reserve (ip : string) (w : World) :
  (anonymousCredits w !! ip = None →
   ∃ w', getAnonymousCredits ip w = (Ok 5, w')
         ∧ anonymousCredits w' !! ip = Some 5)
  ∧ ∀ remaining c : Z,
      anonymousCredits w !! ip = Some remaining
      ∨ (anonymousCredits w !! ip = None ∧ remaining = 5) →
      (∃ w', getAnonymousCredits ip w = (Ok remaining, w')
             ∧ anonymousCredits w' !! ip = Some remaining
             ∧ ∀ ip', ip' ≠ ip →
                 anonymousCredits w' !! ip' = anonymousCredits w !! ip')
      ∧ (c ≤ remaining →
         ∃ w', deductAnonymousCredits ip c w = (Ok (remaining - c), w')
               ∧ anonymousCredits w' !! ip = Some (remaining - c)
               ∧ ∀ ip', ip' ≠ ip →
                   anonymousCredits w' !! ip' = anonymousCredits w !! ip')
      ∧ (remaining < c →
         ∃ w', deductAnonymousCredits ip c w = (Throw "Insufficient credits", w')
               ∧ anonymousCredits w' !! ip = Some remaining
               ∧ ∀ ip', ip' ≠ ip →
                   anonymousCredits w' !! ip' = anonymousCredits w !! ip').
Proof.
  assert (Hother : ∀ ip', ip' ≠ ip →
            anonymousCredits (after_get ip w) !! ip' = anonymousCredits w !! ip').
  { intros ip' Hne. unfold after_get. destruct (bool_decide _); cbn; [done|].
    by rewrite lookup_insert_ne. }
  split.
  - intros Hnone. exists (after_get ip w). rewrite getAnonymousCredits_run.
    split.
    + unfold peek. rewrite Hnone. reflexivity.
    + rewrite after_get_lookup. unfold peek. rewrite Hnone. reflexivity.
  - intros remaining c Hstored.
    assert (Hpeek : peek ip w = remaining).
    { unfold peek. destruct Hstored as [->|[-> ->]]; reflexivity. }
    split; [|split; intros Hc]; rewrite ?getAnonymousCredits_run,
      ?deductAnonymousCredits_run, Hpeek.
    + eexists. split; [reflexivity|]. split; [|exact Hother].
      by rewrite after_get_lookup, Hpeek.
    + destruct (remaining <? c) eqn:E; [apply Z.ltb_lt in E; lia|].
      eexists. split; [reflexivity|]. cbn. split; [apply lookup_insert_eq|].
      intros ip' Hne. rewrite lookup_insert_ne by done. by apply Hother.
    + destruct (remaining <? c) eqn:E; [|apply Z.ltb_ge in E; lia].
      eexists. split; [reflexivity|]. split; [|exact Hother].
      by rewrite after_get_lookup, Hpeek.
Qed.

Lemma anonymous_pool_reserve_witness :
  (∃ w', getAnonymousCredits "10.0.0.1" Sample.world = (Ok 5, w')
         ∧ anonymousCredits w' !! "10.0.0.1" = Some 5)
  ∧ (∃ w', deductAnonymousCredits "10.0.0.1" 2 Sample.world = (Ok (5 - 2), w')
           ∧ anonymousCredits w' !! "10.0.0.1" = Some (5 - 2))
  ∧ (∃ w', deductAnonymousCredits "10.0.0.1" 6 Sample.world
           = (Throw "Insufficient credits", w')
           ∧ anonymousCredits w' !! "10.0.0.1" = Some 5)
  ∧ (∃ w', deductAnonymousCredits "10.0.0.1" 1
             (set_anonymousCredits (insert "10.0.0.1" 0) Sample.world)
           = (Throw "Insufficient credits", w')
           ∧ anonymousCredits w' !! "10.0.0.1" = Some 0).
Proof.
  pose proof (anonymous_pool_reserve "10.0.0.1" Sample.world) as [Hfirst Hres].
  pose proof (anonymous_pool_reserve "10.0.0.1"
                (set_anonymousCredits (insert "10.0.0.1" 0) Sample.world))
    as [_ Hspent].
  split; [apply Hfirst; reflexivity|].
  split; [|split].
  - destruct (Hres 5 2) as (_ & Hok & _); [by right|].
    destruct Hok as (w' & Hrun & Hst & _); [lia|]. by exists w'.
  - destruct (Hres 5 6) as (_ & _ & Hfail); [by right|].
    destruct Hfail as (w' & Hrun & Hst & _); [lia|]. by exists w'.
  - destruct (Hspent 0 1) as (_ & _ & Hfail); [by left|].
    destruct Hfail as (w' & Hrun & Hst & _); [lia|]. by exists w'.
Defined.

(** ** C6: the signup bonus *)

Lemma grantSignupBonus_run (c : Client) (uid : string) (w : World) :
  Js.truthy uid = true →
  grantSignupBonus (Some c) uid w = (Ok tt, after_grant uid w).
Proof.
  intros Hu. unfold grantSignupBonus, after_grant. rewrite Hu. cbn [negb].
  msimpl. rewrite getUserCreditInfo_run by assumption. msimpl.
  destruct (signupBonusGiven (info_of (users w !! uid))); [reflexivity|].
  unfold users_update. msimpl. destruct (users w !! uid); reflexivity.
Qed.

(** C6. The signup-bonus grant is idempotent.  For an existing account
    two calls in sequence both return normally; the second call, and
    any call that finds the flag set, changes no row; when the flag was
    not set the two calls together send exactly one update, which adds
    10 to the bonus credits; the flag is set afterwards in every case. *)
Theorem grant_signup_bonus_idempotent (c : Client) (uid : string)
    (w : World) (row : UserRow) :
  Js.truthy uid = true →
  users w !! uid = Some row →
  ∃ w1 w2 row',
    grantSignupBonus (Some c) uid w = (Ok tt, w1)
    ∧ grantSignupBonus (Some c) uid w1 = (Ok tt, w2)
    ∧ users w2 = users w1
    ∧ users w2 !! uid = Some row'
    ∧ signup_bonus_given row' = Some true
    ∧ (default false (signup_bonus_given row) = true →
       users w1 = users w
       ∧ trace w2 = trace w ++ [EvSelect uid credit_columns;
                                EvSelect uid credit_columns])
    ∧ (default false (signup_bonus_given row) = false →
       default 0 (credits row') = default 0 (credits row) + 10
       ∧ trace w2 = trace w ++ [EvSelect uid credit_columns;
                                EvUpdate uid bonus_columns;
                                EvSelect uid credit_columns]).
Proof.
  intros Hu Hrow.
  exists (after_grant uid w), (after_grant uid (after_grant uid w)).
  rewrite (grantSignupBonus_run c uid w Hu).
  rewrite (grantSignupBonus_run c uid (after_grant uid w) Hu).
  destruct (default false (signup_bonus_given row)) eqn:Eflag.
  - assert (Hw1 : after_grant uid w = add_event (EvSelect uid credit_columns) w).
    { unfold after_grant. rewrite Hrow. cbn. rewrite Eflag. reflexivity. }
    exists row.
    rewrite Hw1. unfold after_grant. cbn. rewrite Hrow. cbn.
    rewrite Eflag. cbn.
    repeat split; try done.
    + destruct (signup_bonus_given row) as [[|]|]; done.
    + by rewrite <- app_assoc.
  - set (row1 := patch_bonus (default 0 (credits row) + SIGNUP_BONUS) row).
    assert (Hw1 : after_grant uid w
                  = set_users (insert uid row1)
                      (add_event (EvUpdate uid bonus_columns)
                         (add_event (EvSelect uid credit_columns) w))).
    { unfold after_grant. rewrite Hrow. cbn. rewrite Eflag.
      unfold users_update. cbn. rewrite Hrow. reflexivity. }
    assert (Hlook : users (after_grant uid w) !! uid = Some row1).
    { rewrite Hw1. cbn. apply lookup_insert_eq. }
    assert (Hw2 : after_grant uid (after_grant uid w)
                  = add_event (EvSelect uid credit_columns) (after_grant uid w)).
    { unfold after_grant at 1. rewrite Hlook. reflexivity. }
    exists row1.
    rewrite Hw2. cbn [users add_event trace]. rewrite Hlook.
    repeat split; try done.
    rewrite Hw1. cbn. by rewrite <- !app_assoc.
Qed.

Lemma grant_signup_bonus_idempotent_witness :
  ∃ w1 w2 row',
    grantSignupBonus (Some Sample.token) Sample.fresh_uid Sample.world = (Ok tt, w1)
    ∧ grantSignupBonus (Some Sample.token) Sample.fresh_uid w1 = (Ok tt, w2)
    ∧ users w2 = users w1
    ∧ users w2 !! Sample.fresh_uid = Some row'
    ∧ signup_bonus_given row' = Some true
    ∧ default 0 (credits row') = 0 + 10.
Proof.
  destruct (grant_signup_bonus_idempotent Sample.token Sample.fresh_uid
              Sample.world Sample.fresh_row)
    as (w1 & w2 & row' & H1 & H2 & H3 & H4 & H5 & _ & H7);
    [reflexivity | reflexivity |].
  exists w1, w2, row'.
  exact (conj H1 (conj H2 (conj H3 (conj H4 (conj H5 (proj1 (H7 eq_refl))))))).
Defined.

(** ** C9: the account invariants *)

Lemma ledger_inv_insert (uid : string) (row : UserRow) (w w' : World) :
  ledger_inv w → row_inv row → users w' = <[uid := row]> (users w) →
  ledger_inv w'.
Proof.
  intros Hinv Hrow Hw' uid' row' Hlook. rewrite Hw' in Hlook.
  destruct (decide (uid = uid')) as [->|Hne].
  - rewrite lookup_insert_eq in Hlook. by injection Hlook as <-.
  - rewrite lookup_insert_ne in Hlook by done. eauto.
Qed.

Lemma ledger_inv_same (w w' : World) :
  ledger_inv w → users w' = users w → ledger_inv w'.
Proof. intros Hinv Hw' uid row. rewrite Hw'. apply Hinv. Qed.

Lemma row_after_reset_inv (now : Z) (row : UserRow) :
  row_inv row → row_inv (row_after_reset now row).
Proof.
  unfold row_after_reset, row_inv, DAILY_CREDITS.
  destruct (expired now (daily_reset_at row)); cbn; lia.
Qed.

Lemma after_reset_inv (uid : string) (w : World) :
  ledger_inv w → ledger_inv (after_reset uid w).
Proof.
  intros Hinv. destruct (users w !! uid) as [row|] eqn:Hrow.
  - unfold after_reset. rewrite Hrow. cbn.
    destruct (expired (clock w) (daily_reset_at row)) eqn:E.
    + eapply (ledger_inv_insert uid (patch_reset (clock w + MS_PER_DAY) row));
        [exact Hinv| |unfold users_update; cbn; by rewrite Hrow].
      pose proof (Hinv uid row Hrow) as Hr.
      unfold row_inv, DAILY_CREDITS in *. cbn. lia.
    + by apply (ledger_inv_same w).
  - apply (ledger_inv_same w); [done|]. by apply after_reset_lookup_None.
Qed.

Lemma resetDailyCreditsIfNeeded_inv (c : option Client) (uid : string) (w : World) :
  ledger_inv w → ledger_inv (snd (resetDailyCreditsIfNeeded c uid w)).
Proof.
  intros Hinv. destruct c as [c|]; [|exact Hinv].
  destruct (Js.truthy uid) eqn:Hu.
  - rewrite resetDailyCreditsIfNeeded_run by done. by apply after_reset_inv.
  - unfold resetDailyCreditsIfNeeded. rewrite Hu. exact Hinv.
Qed.

Lemma grantSignupBonus_inv (c : option Client) (uid : string) (w : World) :
  ledger_inv w → ledger_inv (snd (grantSignupBonus c uid w)).
Proof.
  intros Hinv. destruct c as [c|]; [|exact Hinv].
  destruct (Js.truthy uid) eqn:Hu.
  - rewrite grantSignupBonus_run by done. cbn [snd]. unfold after_grant.
    destruct (users w !! uid) as [row|] eqn:Hrow; cbn.
    + destruct (default false (signup_bonus_given row)); [exact Hinv|].
      eapply (ledger_inv_insert uid);
        [exact Hinv| |unfold users_update; cbn; by rewrite Hrow].
      pose proof (Hinv uid row Hrow) as Hr.
      unfold row_inv, SIGNUP_BONUS, DAILY_CREDITS in *. cbn. lia.
    + apply (ledger_inv_same w); [done|].
      unfold users_update. cbn. by rewrite Hrow.
  - unfold grantSignupBonus. rewrite Hu. exact Hinv.
Qed.

Lemma deductFreeUserCredits_missing (c : Client) (uid : string) (a : Z)
    (tok : option string) (w : World) :
  users w !! uid = None →
  users (snd (deductFreeUserCredits (Some c) uid a tok w)) = users w.
Proof.
  intros Hrow. unfold deductFreeUserCredits.
  destruct (Js.truthy uid) eqn:Hu; [|reflexivity]. cbn [negb].
  destruct (a <=? 0); [reflexivity|].
  msimpl. rewrite resetDailyCreditsIfNeeded_run by done. msimpl.
  rewrite getUserCreditInfo_run by done. msimpl.
  rewrite (after_reset_lookup_None uid w Hrow). rewrite Hrow. cbn.
  destruct (_ <? a); cbn; [by apply after_reset_lookup_None|].
  destruct (a <=? _); unfold users_update_select_single; cbn;
    rewrite (after_reset_lookup_None uid w Hrow), Hrow; cbn;
    by apply after_reset_lookup_None.
Qed.

Lemma deductFreeUserCredits_inv (c : option Client) (uid : string) (a : Z)
    (tok : option string) (w : World) :
  ledger_inv w → ledger_inv (snd (deductFreeUserCredits c uid a tok w)).
Proof.
  intros Hinv. destruct c as [c|]; [|exact Hinv].
  destruct (users w !! uid) as [row|] eqn:Hrow;
    [|apply (ledger_inv_same w); [done|by apply deductFreeUserCredits_missing]].
  destruct (Js.truthy uid) eqn:Hu;
    [|unfold deductFreeUserCredits; rewrite Hu; exact Hinv].
  destruct (Z.lt_ge_cases 0 a) as [Ha|Ha];
    [|unfold deductFreeUserCredits; rewrite Hu; cbn [negb];
      rewrite (proj2 (Z.leb_le a 0)) by done; exact Hinv].
  rewrite (deductFreeUserCredits_run c uid a tok w row Hu Hrow Ha). cbv zeta.
  pose proof (row_after_reset_inv (clock w) row (Hinv uid row Hrow)) as Hr.
  pose proof (after_reset_inv uid w Hinv) as Hinv1.
  set (row1 := row_after_reset (clock w) row) in *.
  destruct (_ <? a) eqn:Elt; [exact Hinv1|].
  apply Z.ltb_ge in Elt. unfold draw.
  destruct (a <=? _) eqn:Ele; cbn [snd].
  - apply Z.leb_le in Ele.
    eapply (ledger_inv_insert uid); [exact Hinv1| |reflexivity].
    unfold row_inv, DAILY_CREDITS in *. cbn. lia.
  - apply Z.leb_gt in Ele.
    eapply (ledger_inv_insert uid); [exact Hinv1| |reflexivity].
    unfold row_inv, DAILY_CREDITS in *. cbn. lia.
Qed.

(** C9. Every ledger operation preserves the account invariants
    [bonusCredits >= 0] and [0 <= dailyCreditsUsed <= 3] on every
    persisted row: a deduction (which writes only when the available
    balance covers the amount), a daily-window reset and a signup-bonus
    grant. *)
Theorem ledger_operations_preserve_invariants (c : option Client)
    (uid : string) (a : Z) (tok : option string) (w : World) :
  ledger_inv w →
  ledger_inv (snd (deductFreeUserCredits c uid a tok w))
  ∧ ledger_inv (snd (resetDailyCreditsIfNeeded c uid w))
  ∧ ledger_inv (snd (grantSignupBonus c uid w)).
Proof.
  intros Hinv. split; [|split].
  - by apply deductFreeUserCredits_inv.
  - by apply resetDailyCreditsIfNeeded_inv.
  - by apply grantSignupBonus_inv.
Qed.

(** ** Run equations of the request handler *)

Lemma run_handler_bind {A} (m : H A) (k : A → H Response) (w : World) :
  run_handler (m ≫= k) w
  = match m w with
    | (Val a, w1) => run_handler (k a) w1
    | (Return r, w1) => (r, w1)
    | (Raise msg, w1) => run_handler (fun w => (Raise msg, w)) w1
    end.
Proof.
  unfold run_handler, mbind, H_bind. destruct (m w) as [[a|r|msg] w1]; reflexivity.
Qed.

Lemma savePrompt_frame (c : option Client) (uid inp out : string) (w : World) :
  ∃ evs, users (snd (savePrompt c uid inp out w)) = users w
         ∧ anonymousCredits (snd (savePrompt c uid inp out w)) = anonymousCredits w
         ∧ trace (snd (savePrompt c uid inp out w)) = trace w ++ evs
         ∧ no_balance_op evs = true.
Proof.
  unfold savePrompt. destruct c as [c|]; [|exists []; cbn; by rewrite app_nil_r].
  destruct (Js.truthy uid); cbn [negb]; [|exists []; cbn; by rewrite app_nil_r].
  destruct (Js.truthy inp); cbn [negb]; [|exists []; cbn; by rewrite app_nil_r].
  exists [EvInsertPrompt uid]. done.
Qed.

(** The completion phase touches neither the accounts nor the pool, and
    replies 200 with the reserved balance or 500. *)
Lemma complete_and_reply_spec (env : Env) (req : Request) (mode : Mode)
    (userId : option string) (client : option Client) (isAnonymous : bool)
    (remaining : Z) (w : World) :
  ∃ resp w' evs,
    run_handler (complete_and_reply env req mode userId client isAnonymous remaining) w
    = (resp, w')
    ∧ users w' = users w
    ∧ anonymousCredits w' = anonymousCredits w
    ∧ trace w' = trace w ++ evs
    ∧ no_balance_op evs = true
    ∧ ((status resp = 200 ∧ ∃ out, body resp = JsonSuccess out remaining)
       ∨ (status resp = 500 ∧ ∃ e, body resp = JsonError e None None)).
Proof.
  unfold complete_and_reply. cbv zeta.
  destruct (openai env) as [create|].
  2:{ eexists _, _, []. split; [reflexivity|]. cbn. rewrite app_nil_r.
      repeat split; eauto. }
  rewrite run_handler_bind. unfold attempt at 1.
  match goal with |- context [complete create ?rq w] =>
    assert (Hc : snd (complete create rq w) = w)
      by (unfold complete; destruct (create rq) as [co|m]; cbn;
          [destruct (Js.truthy _)|]; reflexivity);
    destruct (complete create rq w) as [[out|m] w1] end;
    cbn in Hc; subst w1.
  2:{ eexists _, _, []. split; [reflexivity|]. cbn. rewrite app_nil_r.
      repeat split; eauto. }
  rewrite run_handler_bind.
  destruct (negb isAnonymous && Js.non_null client && Js.truthy_opt userId).
  2:{ eexists _, _, []. split; [reflexivity|]. cbn. rewrite app_nil_r.
      repeat split; eauto. }
  unfold mbind at 1, H_bind, attempt.
  match goal with |- context [savePrompt ?c ?u ?i ?o w] =>
    destruct (savePrompt_frame c u i o w) as (evs & Hu & Hp & Ht & Hb);
    destruct (savePrompt c u i o w) as [r w1] end.
  cbn in Hu, Hp, Ht.
  eexists _, _, evs. split; [reflexivity|]. cbn.
  repeat split; eauto.
Qed.

(** The reply of the second half of the handler is decided by the
    completion. *)
Lemma complete_and_reply_completion (env : Env) (req : Request) (mode : Mode)
    (userId : option string) (client : option Client) (isAnonymous : bool)
    (remaining : Z) (w : World) :
  let resp :=
    fst (run_handler
           (complete_and_reply env req mode userId client isAnonymous remaining) w) in
  match completion_of env req mode with
  | Some out => resp = mkResponse 200 (JsonSuccess out remaining)
  | None => status resp = 500 ∧ ∃ e, body resp = JsonError e None None
  end.
Proof.
  cbv zeta. unfold completion_of, complete_and_reply. cbv zeta.
  destruct (openai env) as [create|]; [|by split; [|eexists]].
  rewrite run_handler_bind. unfold attempt at 1, complete.
  assert (Hrq : ∀ rq, rq = chat_request req mode →
            match create (chat_request req mode) with
            | Ok content =>
                if Js.truthy (clean_completion (default "" content))
                then Some (clean_completion (default "" content)) else None
            | Throw _ => None
            end
            = match create rq with
              | Ok content =>
                  if Js.truthy (clean_completion (default "" content))
                  then Some (clean_completion (default "" content)) else None
              | Throw _ => None
              end) by (by intros rq ->).
  match goal with |- context [create ?rq0 ] =>
    lazymatch rq0 with
    | chat_request _ _ => fail
    | _ => rewrite (Hrq rq0) by (unfold chat_request; by destruct mode);
           clear Hrq; generalize rq0; intros rq
    end
  end.
  destruct (create rq) as [content|msg]; [|by split; [|eexists]].
  destruct (Js.truthy (clean_completion (default "" content)));
    cbn [negb]; [|by split; [|eexists]].
  cbn [mret M_ret]. rewrite run_handler_bind.
  destruct (negb isAnonymous && Js.non_null client && Js.truthy_opt userId).
  - unfold mbind at 1, H_bind, attempt.
    by destruct (savePrompt _ _ _ _ w) as [r w1].
  - reflexivity.
Qed.

Lemma H_bind_run {A B} (m : H A) (k : A → H B) (w : World) :
  (m ≫= k) w
  = match m w with
    | (Val a, w1) => k a w1
    | (Return r, w1) => (Return r, w1)
    | (Raise msg, w1) => (Raise msg, w1)
    end.
Proof. reflexivity. Qed.

Ltac hsimpl :=
  cbn [mret H_ret from_option id negb orb andb Js.truthy_opt Js.non_null
       fst snd default respond].
Ltac hbind := (rewrite run_handler_bind || rewrite H_bind_run); hsimpl.

Lemma verifyUserFromToken_run (env : Env) (tok : string) (w : World) :
  Js.truthy tok = true →
  verifyUserFromToken env tok w
  = (match supabase_auth_getUser env tok with
     | Some user => Ok user
     | None => Throw "Invalid or expired token"
     end, w).
Proof.
  intros Ht. unfold verifyUserFromToken. rewrite Ht. cbn [negb].
  destruct (supabase_auth_getUser env tok); reflexivity.
Qed.

Lemma followup_run (env : Env) (req : Request) (w : World) :
  handlePromptImprovement env req followup w
  = if negb (prompt_valid req) then (deny 400 "original_prompt is required", w)
    else
      match request_token req with
      | Some tok =>
          if Js.truthy tok then
            match supabase_auth_getUser env tok with
            | None => (deny 401 "Invalid or expired token", w)
            | Some user =>
                if Js.truthy (auth_id user) then
                  let w1 := add_event (EvSelect (auth_id user) [col_is_pro]) w in
                  if pro_of (users w !! auth_id user) then
                    run_handler
                      (complete_and_reply env req followup (Some (auth_id user))
                         (Some tok) false (-1))
                      (add_event (EvSelect (auth_id user) [col_is_pro]) w1)
                  else (deny 403 msg_pro_required, w1)
                else (deny 401 msg_auth_required, w)
            end
          else (deny 401 msg_auth_required, w)
      | None => (deny 401 msg_auth_required, w)
      end.
Proof.
  unfold handlePromptImprovement, prompt_valid.
  fold (request_token req).
  rewrite negb_andb.
  destruct (negb (Js.truthy_opt (body_original_prompt req))
            || negb (Js.truthy (Js.trim (default "" (body_original_prompt req)))));
    [reflexivity|].
  destruct (request_token req) as [tok|]; [|reflexivity].
  hsimpl. destruct (Js.truthy tok) eqn:Ht; [|reflexivity].
  hsimpl. hbind. hbind. hbind. unfold attempt at 1.
  rewrite verifyUserFromToken_run by done.
  destruct (supabase_auth_getUser env tok) as [user|]; [|reflexivity].
  hsimpl. hbind. 
  destruct (Js.truthy (auth_id user)) eqn:Hid; [|reflexivity].
  hsimpl. hbind. unfold attempt at 1.
  rewrite getUserProStatus_run by done.
  fold (pro_of (users w !! auth_id user)).
  destruct (pro_of (users w !! auth_id user)) eqn:Hpro; [|reflexivity].
  hsimpl. hbind. hbind. unfold attempt at 1.
  rewrite getUserProStatus_run by done. cbn [users add_event].
  fold (pro_of (users w !! auth_id user)). rewrite Hpro.
  reflexivity.
Qed.

Lemma peek_after_get (ip : string) (w : World) :
  peek ip (after_get ip w) = peek ip w.
Proof. unfold peek at 1. by rewrite after_get_lookup. Qed.

Ltac anonymous_path :=
  unfold anonymous_outcome; cbv zeta;
  repeat hbind; unfold call at 1; rewrite getAnonymousCredits_run;
  (destruct (peek _ _ <=? 0); [reflexivity|]); cbn [orb];
  (destruct (peek _ _ <? _) eqn:Ecost; [reflexivity|]);
  hbind; unfold attempt at 1;
  rewrite deductAnonymousCredits_run, peek_after_get, Ecost; reflexivity.

Lemma improve_refine_run (env : Env) (req : Request) (mode : Mode) (w : World) :
  mode ≠ followup →
  handlePromptImprovement env req mode w
  = if negb (prompt_valid req) then (deny 400 "original_prompt is required", w)
    else
      match caller env req with
      | Anonymous => anonymous_outcome env req mode w
      | Account tok user => account_outcome env req mode tok (auth_id user) w
      end.
Proof.
  intros Hmode.
  unfold handlePromptImprovement, prompt_valid, caller.
  fold (request_token req).
  rewrite negb_andb.
  destruct (negb (Js.truthy_opt (body_original_prompt req))
            || negb (Js.truthy (Js.trim (default "" (body_original_prompt req)))));
    [reflexivity|].
  destruct (request_token req) as [tok|];
    [|destruct mode; [| |done]; hsimpl; anonymous_path].
  hsimpl. destruct (Js.truthy tok) eqn:Ht;
    [|destruct mode; [| |done]; hsimpl; anonymous_path].
  destruct mode; [| |done]; hsimpl; hbind; hbind; hbind; unfold attempt at 1;
    rewrite verifyUserFromToken_run by done;
    (destruct (supabase_auth_getUser env tok) as [user|];
     [|hsimpl; anonymous_path]);
    hsimpl; hbind; hbind; hbind; unfold account_outcome, attempt at 1.
  all: destruct (getUserProStatus (Some tok) (auth_id user) w) as [r w1].
  all: destruct (match r with Ok b => b | Throw _ => false end); [reflexivity|].
  all: hbind; unfold attempt at 1.
  all: destruct (resetDailyCreditsIfNeeded (Some tok) (auth_id user) w1) as [[b2|m2] w2];
         [|reflexivity].
  all: hbind; unfold attempt at 1.
  all: destruct (getUserCreditInfo (Some tok) (auth_id user) w2) as [[info|m3] w3];
         [|reflexivity].
  all: cbv zeta.
  all: destruct (_ <? _); [reflexivity|].
  all: hbind; unfold attempt at 1.
  all: destruct (deductFreeUserCredits _ _ _ _ w3) as [[res|msg] w4]; [reflexivity|].
  all: destruct (String.eqb msg "Insufficient credits"); reflexivity.
Qed.

Lemma deductFreeUserCredits_ok_persisted (c : option Client) (uid : string)
    (a : Z) (tok : option string) (w w' : World) (res : DeductResult) :
  deductFreeUserCredits c uid a tok w = (Ok res, w') →
  ∃ row', users w' !! uid = Some row'
          ∧ credits row' = Some (remainingCredits res)
          ∧ daily_credits_used row'
            = Some (DAILY_CREDITS - dailyCreditsRemaining res).
Proof.
  destruct c as [c|]; [|discriminate].
  destruct (Js.truthy uid) eqn:Hu;
    [|unfold deductFreeUserCredits; rewrite Hu; discriminate].
  destruct (Z.lt_ge_cases 0 a) as [Ha|Ha];
    [|unfold deductFreeUserCredits; rewrite Hu; cbn [negb];
      rewrite (proj2 (Z.leb_le a 0)) by done; discriminate].
  destruct (users w !! uid) as [row|] eqn:Hrow.
  - rewrite (deductFreeUserCredits_run c uid a tok w row Hu Hrow Ha). cbv zeta.
    destruct (_ <? a); [discriminate|].
    unfold draw. destruct (a <=? _); intros [= <- <-]; eexists;
      (split; [cbn; apply lookup_insert_eq|]); cbn; split; f_equal; lia.
  - unfold deductFreeUserCredits. rewrite Hu. cbn [negb].
    rewrite (proj2 (Z.leb_gt a 0)) by done.
    msimpl. rewrite resetDailyCreditsIfNeeded_run by done. msimpl.
    rewrite getUserCreditInfo_run by done. msimpl.
    rewrite (after_reset_lookup_None uid w Hrow). rewrite Hrow. cbn.
    destruct (_ <? a); [discriminate|].
    destruct (a <=? _); unfold users_update_select_single; cbn;
      rewrite (after_reset_lookup_None uid w Hrow), Hrow; discriminate.
Qed.

(** ** C5: follow-up denials *)

(** C5. In follow-up mode a request without a token, or with a token
    that fails verification, is answered 401, and a request with a
    valid token for an account that is not Pro is answered 403; and
    whenever the follow-up answer is 401 or 403, no account row, no
    anonymous balance and no prompt record has changed, and no balance
    operation was issued (at most the [is_pro] column was read). *)
Theorem followup_denials_touch_no_balance (env : Env) (req : Request) (w : World) :
  (prompt_valid req = true →
   (Js.truthy_opt (request_token req) = false →
    status (fst (handlePromptImprovement env req followup w)) = 401)
   ∧ (∀ tok, request_token req = Some tok → Js.truthy tok = true →
             supabase_auth_getUser env tok = None →
             status (fst (handlePromptImprovement env req followup w)) = 401)
   ∧ (∀ tok user, request_token req = Some tok → Js.truthy tok = true →
                  supabase_auth_getUser env tok = Some user →
                  Js.truthy (auth_id user) = true →
                  pro_of (users w !! auth_id user) = false →
                  status (fst (handlePromptImprovement env req followup w)) = 403))
  ∧ ∀ resp w',
      handlePromptImprovement env req followup w = (resp, w') →
      status resp = 401 ∨ status resp = 403 →
      users w' = users w
      ∧ anonymousCredits w' = anonymousCredits w
      ∧ prompts w' = prompts w
      ∧ ∃ evs, trace w' = trace w ++ evs ∧ no_balance_op evs = true.
Proof.
  rewrite followup_run. split.
  - intros ->. cbn [negb]. split; [|split].
    + destruct (request_token req) as [tok|]; [|done].
      cbn. by intros ->.
    + by intros tok -> -> ->.
    + by intros tok user -> -> -> -> ->.
  - intros resp w'.
    assert (Hsame : ∀ st m, (deny st m, w) = (resp, w') →
              users w' = users w ∧ anonymousCredits w' = anonymousCredits w
              ∧ prompts w' = prompts w
              ∧ ∃ evs, trace w' = trace w ++ evs ∧ no_balance_op evs = true).
    { intros st m [= <- <-]. repeat split. exists []. by rewrite app_nil_r. }
    destruct (negb (prompt_valid req)).
    { intros [= <- <-]. cbn. lia. }
    destruct (request_token req) as [tok|]; [|by eauto].
    destruct (Js.truthy tok); [|by eauto].
    destruct (supabase_auth_getUser env tok) as [user|]; [|by eauto].
    destruct (Js.truthy (auth_id user)); [|by eauto].
    cbv zeta. destruct (pro_of (users w !! auth_id user)).
    + destruct (complete_and_reply_spec env req followup (Some (auth_id user))
                  (Some tok) false (-1)
                  (add_event (EvSelect (auth_id user) [col_is_pro])
                     (add_event (EvSelect (auth_id user) [col_is_pro]) w)))
        as (resp0 & w0 & evs & Hrun & _ & _ & _ & _ & Hst).
      rewrite Hrun. intros [= <- <-]. lia.
    + intros [= <- <-] _. repeat split.
      exists [EvSelect (auth_id user) [col_is_pro]]. done.
Qed.

(** ** C7: Pro follow-up *)

(** C7. A follow-up request with a valid token whose account is Pro
    never reads or writes the bonus credits or the daily counter: the
    reservation is skipped, no account row and no anonymous balance
    changes, and whenever the completion client returns an output the
    reply is 200 with that output and the unlimited sentinel -1 as
    remaining value; the reply is a 500 only when the completion
    fails. *)
Theorem pro_followup_bypasses_ledger (env : Env) (req : Request) (w : World)
    (tok : string) (user : AuthUser) :
  prompt_valid req = true →
  request_token req = Some tok →
  Js.truthy tok = true →
  supabase_auth_getUser env tok = Some user →
  Js.truthy (auth_id user) = true →
  pro_of (users w !! auth_id user) = true →
  ∃ resp w' evs,
    handlePromptImprovement env req followup w = (resp, w')
    ∧ users w' = users w
    ∧ anonymousCredits w' = anonymousCredits w
    ∧ trace w' = trace w ++ evs
    ∧ no_balance_op evs = true
    ∧ match completion_of env req followup with
      | Some out => resp = mkResponse 200 (JsonSuccess out (-1))
      | None => status resp = 500 ∧ ∃ e, body resp = JsonError e None None
      end.
Proof.
  intros Hv Htok Ht Huser Hid Hpro.
  rewrite followup_run, Hv, Htok, Ht, Huser, Hid. cbv zeta. rewrite Hpro.
  cbn [negb].
  pose proof (complete_and_reply_completion env req followup
                (Some (auth_id user)) (Some tok) false (-1)
                (add_event (EvSelect (auth_id user) [col_is_pro])
                   (add_event (EvSelect (auth_id user) [col_is_pro]) w)))
    as Hreply.
  destruct (complete_and_reply_spec env req followup (Some (auth_id user))
              (Some tok) false (-1)
              (add_event (EvSelect (auth_id user) [col_is_pro])
                 (add_event (EvSelect (auth_id user) [col_is_pro]) w)))
    as (resp & w' & evs & Hrun & Hu & Hp & Htr & Hb & _).
  cbv zeta in Hreply. rewrite Hrun in Hreply. cbn [fst] in Hreply.
  exists resp, w',
    ([EvSelect (auth_id user) [col_is_pro]; EvSelect (auth_id user) [col_is_pro]]
     ++ evs).
  split; [exact Hrun|]. split; [exact Hu|]. split; [exact Hp|].
  split; [rewrite Htr; cbn; by rewrite <- !app_assoc|].
  split; [exact Hb|exact Hreply].
Qed.

(** ** C8: improve and refine with a token that fails verification *)

Lemma anonymous_outcome_status (env : Env) (req : Request) (mode : Mode) (w : World) :
  status (fst (anonymous_outcome env req mode w)) = 402
  ∨ status (fst (anonymous_outcome env req mode w)) = 200
  ∨ status (fst (anonymous_outcome env req mode w)) = 500.
Proof.
  unfold anonymous_outcome. cbv zeta.
  destruct (_ || _); [by left|].
  match goal with |- context [run_handler (complete_and_reply ?e ?r ?m ?u ?c ?a ?n) ?w0] =>
    destruct (complete_and_reply_spec e r m u c a n w0)
      as (resp & w' & evs & Hrun & _ & _ & _ & _ & [[Hst _]|[Hst _]]);
    rewrite Hrun; cbn [fst]; rewrite Hst; auto end.
Qed.

(** C8. An improve or refine request whose token fails verification
    gets exactly the response, and leaves exactly the state, of the
    same request without any token: it takes the anonymous path,
    charged to the client identifier, and is never answered 401. *)
Theorem invalid_token_same_as_no_token (env : Env) (req : Request)
    (mode : Mode) (w : World) (tok : string) :
  mode ≠ followup →
  request_token req = Some tok →
  supabase_auth_getUser env tok = None →
  handlePromptImprovement env req mode w
  = handlePromptImprovement env (without_token req) mode w
  ∧ (prompt_valid req = true →
     handlePromptImprovement env req mode w = anonymous_outcome env req mode w)
  ∧ status (fst (handlePromptImprovement env req mode w)) ≠ 401.
Proof.
  intros Hmode Htok Hnone.
  rewrite !improve_refine_run by done.
  assert (Hc : caller env req = Anonymous).
  { unfold caller. rewrite Htok, Hnone. by destruct (Js.truthy tok). }
  rewrite Hc.
  change (prompt_valid (without_token req)) with (prompt_valid req).
  change (caller env (without_token req)) with Anonymous.
  change (anonymous_outcome env (without_token req) mode w)
    with (anonymous_outcome env req mode w).
  split; [reflexivity|]. split; [by intros ->|].
  destruct (negb (prompt_valid req)); [cbn; lia|].
  pose proof (anonymous_outcome_status env req mode w). lia.
Qed.

(** ** C3: the value a completed request reports *)

(** C3 (the code departs from the specified value).  For an account
    that is not Pro the [creditsRemaining] of a completed request is
    the [remainingCredits] of [deductFreeUserCredits], which is the
    bonus credits alone, not the balance the deduction leaves.  On the
    account [daily_only_row] (nothing used of the daily allowance, no
    bonus credits) an improve request is answered 200 with
    [creditsRemaining = 0], while the deduction has left 2 credits:
    the stored row has 1 of 3 daily credits used and [GET /api/me]
    then reports 2.  Three requests in a row are answered 200 with
    [creditsRemaining = 0], the balance left being 2, 1 and 0; the
    fourth is refused with 402, whose [creditsRemaining = 0] is the
    sum of both sources. *)
Theorem completed_reports_bonus_not_balance :
  let req := Sample.request (Some Sample.token) in
  let r1 := handlePromptImprovement Sample.env req improve daily_only_world in
  let r2 := handlePromptImprovement Sample.env req improve (snd r1) in
  let r3 := handlePromptImprovement Sample.env req improve (snd r2) in
  let r4 := handlePromptImprovement Sample.env req improve (snd r3) in
  fst r1 = mkResponse 200 (JsonSuccess "Improved: write a poem" 0)
  ∧ users (snd r1) !! Sample.uid
    = Some (mkUserRow (Some "a@example.org") (Some false) (Some 0) (Some 1)
              (Some 1000) (Some true))
  ∧ (available <$> users (snd r1) !! Sample.uid) = Some 2
  ∧ fst (api_me Sample.env (Sample.me_request Sample.token) (snd r1))
    = mkResponse 200 (JsonMe (Some "a@example.org") "free" 2 2 false)
  ∧ fst r2 = mkResponse 200 (JsonSuccess "Improved: write a poem" 0)
  ∧ fst r3 = mkResponse 200 (JsonSuccess "Improved: write a poem" 0)
  ∧ fst r4 = no_credits_free 0.
Proof. cbv zeta. repeat split; vm_compute; reflexivity. Qed.

(** ** C2: the balance that admits or denies an operation *)

(** Within the allowance the unclamped sum the handler computes is the
    clamped one. *)
Lemma admission_balance_clamped_within_allowance (info : CreditInfo) :
  dailyCreditsUsed info ≤ DAILY_CREDITS →
  DAILY_CREDITS - dailyCreditsUsed info + info_credits info
  = Z.max 0 (DAILY_CREDITS - dailyCreditsUsed info) + info_credits info.
Proof. unfold DAILY_CREDITS. lia. Qed.

(** C2 (the code departs from the specified balance). On the account
    [over_row] (daily counter 5, above the allowance of 3; 1 bonus
    credit) the clamped balance [max(0, 3 - 5) + 1 = 1] covers the
    cost 1 of an improve request, and [GET /api/me] reports 1 credit
    remaining; but the balance check of [handlePromptImprovement]
    computes [3 - 5 + 1 = -1] and answers 402 with
    [creditsRemaining = -1], and [deductFreeUserCredits] refuses with
    "Insufficient credits". *)
Theorem admission_balance_not_clamped :
  Z.max 0 (DAILY_CREDITS - 5) + 1 = 1
  ∧ creditCosts improve = 1
  ∧ fst (handlePromptImprovement Sample.env (Sample.request (Some Sample.over_token))
           improve Sample.over_world)
    = no_credits_free (-1)
  ∧ fst (deductFreeUserCredits (Some Sample.over_token) Sample.over_uid 1 None
           Sample.over_world)
    = Throw "Insufficient credits"
  ∧ fst (api_me Sample.env (Sample.me_request Sample.over_token) Sample.over_world)
    = mkResponse 200 (JsonMe (Some "d@example.org") "free" 1 1 false).
Proof. repeat split; vm_compute; reflexivity. Qed.

(** ** The tasks refine the sequential functions *)

Lemma run_alone_bind {A B} (t : Task A) (k : A → Task B) (w : World) :
  run_alone (t ≫= k) w
  = match run_alone t w with
    | (Ok a, w') => run_alone (k a) w'
    | (Throw msg, w') => (Throw msg, w')
    end.
Proof.
  unfold mbind, Task_bind. revert w.
  induction t as [[a|msg]|B0 m k' IH|B0 m k' IH]; intros w; cbn; try reflexivity.
  - destruct (m w) as [[b|msg] w']; [apply IH|reflexivity].
  - destruct (m w) as [[b|msg] w']; [apply IH|reflexivity].
Qed.

Lemma getUserCreditInfo_task_run (c : option Client) (uid : string) (w : World) :
  run_alone (getUserCreditInfo_task c uid) w = getUserCreditInfo c uid w.
Proof.
  unfold getUserCreditInfo_task, getUserCreditInfo.
  destruct c as [c|]; [|reflexivity].
  destruct (Js.truthy uid); cbn [negb]; [|reflexivity].
  cbn. msimpl. destruct (users_select_single _ uid w) as [[[row|e]|msg] w'];
    try reflexivity.
  destruct (String.eqb (code e) "PGRST116"); reflexivity.
Qed.

Lemma resetDailyCreditsIfNeeded_task_run (c : option Client) (uid : string) (w : World) :
  run_alone (resetDailyCreditsIfNeeded_task c uid) w
  = resetDailyCreditsIfNeeded c uid w.
Proof.
  unfold resetDailyCreditsIfNeeded_task, resetDailyCreditsIfNeeded.
  destruct c as [c|]; [|reflexivity].
  destruct (Js.truthy uid); cbn [negb]; [|reflexivity].
  rewrite run_alone_bind, getUserCreditInfo_task_run. msimpl.
  destruct (getUserCreditInfo (Some c) uid w) as [[info|msg] w1]; [|reflexivity].
  cbn.
  destruct (match dailyResetAt info with Some t => t <=? clock w1 | None => true end);
    [|reflexivity].
  cbn. destruct (users_update _ _ uid w1) as [[[e|]|msg] w2]; reflexivity.
Qed.

Lemma deductFreeUserCredits_task_run (c : option Client) (uid : string) (a : Z)
    (tok : option string) (w : World) :
  run_alone (deductFreeUserCredits_task c uid a tok) w
  = deductFreeUserCredits c uid a tok w.
Proof.
  unfold deductFreeUserCredits_task, deductFreeUserCredits.
  destruct c as [c|]; [|reflexivity].
  destruct (Js.truthy uid); cbn [negb]; [|reflexivity].
  destruct (a <=? 0); [reflexivity|].
  rewrite run_alone_bind.
  assert (Hs : run_alone (if Js.truthy_opt tok
                          then Await (mret tt : M unit) (fun _ => Done (Ok tt))
                          else Done (Ok tt)) w = (Ok tt, w))
    by (destruct (Js.truthy_opt tok); reflexivity).
  rewrite Hs. clear Hs.
  rewrite run_alone_bind, resetDailyCreditsIfNeeded_task_run. msimpl.
  destruct (resetDailyCreditsIfNeeded (Some c) uid w) as [[b|msg] w1]; [|reflexivity].
  rewrite run_alone_bind, getUserCreditInfo_task_run.
  destruct (getUserCreditInfo (Some c) uid w1) as [[info|msg] w2]; [|reflexivity].
  cbv zeta. destruct (_ <? a); [reflexivity|].
  destruct (a <=? _); cbn;
    destruct (users_update_select_single _ _ uid w2) as [[[row|e]|msg] w3];
    reflexivity.
Qed.

(** ** C10: concurrent reservations *)

Lemma step_sync_call {A} (m : M A) (w : World) :
  step (sync_call m) w = (Done (fst (m w)), snd (m w)).
Proof. cbn. destruct (m w) as [[a|msg] w']; reflexivity. Qed.

Lemma run_alone_sync_call {A} (m : M A) (w : World) :
  run_alone (sync_call m) w = m w.
Proof. cbn. destruct (m w) as [[a|msg] w']; reflexivity. Qed.

Lemma interleave_done_done {A B} (sched : list bool) (r1 : Res A) (r2 : Res B)
    (w : World) :
  interleave sched (Done r1) (Done r2) w = (r1, r2, w).
Proof. induction sched as [|[|] s IH]; cbn; auto. Qed.

Lemma interleave_done_sync {A B} (sched : list bool) (r1 : Res A) (m2 : M B)
    (w : World) :
  interleave sched (Done r1) (sync_call m2) w = (r1, fst (m2 w), snd (m2 w)).
Proof.
  induction sched as [|[|] s IH].
  - cbn [interleave run_alone]. rewrite run_alone_sync_call. by destruct (m2 w).
  - cbn [interleave step]. apply IH.
  - cbn [interleave]. rewrite step_sync_call. apply interleave_done_done.
Qed.

Lemma interleave_sync_done {A B} (sched : list bool) (m1 : M A) (r2 : Res B)
    (w : World) :
  interleave sched (sync_call m1) (Done r2) w = (fst (m1 w), r2, snd (m1 w)).
Proof.
  induction sched as [|[|] s IH].
  - cbn [interleave]. rewrite run_alone_sync_call.
    by destruct (m1 w) as [r1 w1].
  - cbn [interleave]. rewrite step_sync_call. apply interleave_done_done.
  - cbn [interleave step]. apply IH.
Qed.

(** Synchronous calls cannot overlap: every schedule is one of the two
    serial orders. *)
Lemma interleave_sync_calls {A B} (sched : list bool) (m1 : M A) (m2 : M B)
    (w : World) :
  interleave sched (sync_call m1) (sync_call m2) w = first_then_second m1 m2 w
  ∨ interleave sched (sync_call m1) (sync_call m2) w = second_then_first m1 m2 w.
Proof.
  induction sched as [|[|] s IH].
  - left. cbn [interleave]. rewrite run_alone_sync_call.
    unfold first_then_second. destruct (m1 w) as [r1 w1].
    by rewrite run_alone_sync_call.
  - left. cbn [interleave]. rewrite step_sync_call, interleave_done_sync.
    unfold first_then_second. destruct (m1 w) as [r1 w1]. cbn.
    by destruct (m2 w1).
  - right. cbn [interleave]. rewrite step_sync_call, interleave_sync_done.
    unfold second_then_first. destruct (m2 w) as [r2 w1]. cbn.
    by destruct (m1 w1).
Qed.

(** C10, counterexample. On the account [last_row] (exactly one credit
    available) two deductions of 1, interleaved so that both read
    before either writes, both succeed and leave 0 bonus credits: the
    account ledger is not serialized per key. *)
Lemma ledger_deductions_race :
  fst (interleave race_schedule
         (deductFreeUserCredits_task (Some Sample.last_token) Sample.last_uid 1 None)
         (deductFreeUserCredits_task (Some Sample.last_token) Sample.last_uid 1 None)
         Sample.world)
  = (Ok (mkDeductResult 0 0 "mixed"), Ok (mkDeductResult 0 0 "mixed"))
  ∧ credits <$>
      (users (snd (interleave race_schedule
                     (deductFreeUserCredits_task (Some Sample.last_token)
                        Sample.last_uid 1 None)
                     (deductFreeUserCredits_task (Some Sample.last_token)
                        Sample.last_uid 1 None)
                     Sample.world)) !! Sample.last_uid)
    = Some (Some 0)
  ∧ ¬ ledger_serialized_per_key.
Proof.
  split; [vm_compute; reflexivity|]. split; [vm_compute; reflexivity|].
  intros Hser.
  specialize (Hser race_schedule Sample.last_token Sample.last_uid None
                Sample.world Sample.last_row eq_refl eq_refl eq_refl eq_refl).
  vm_compute in Hser.
  destruct Hser as [[_ H]|[H _]]; discriminate.
Qed.

Lemma anonymous_reservations_serial (ip : string) (w : World) :
  anonymousCredits w !! ip = Some 1 →
  ∃ w1 w2,
    deductAnonymousCredits ip 1 w = (Ok 0, w1)
    ∧ deductAnonymousCredits ip 1 w1 = (Throw "Insufficient credits", w2)
    ∧ anonymousCredits w2 !! ip = Some 0.
Proof.
  intros Hone.
  assert (Hpeek : peek ip w = 1) by (unfold peek; by rewrite Hone).
  eexists _, _. rewrite deductAnonymousCredits_run, Hpeek.
  change (1 <? 1) with false. cbv iota. split; [reflexivity|].
  rewrite deductAnonymousCredits_run.
  match goal with |- context [peek ip ?w1] =>
    assert (Hpeek1 : peek ip w1 = 0)
      by (unfold peek; cbn; by rewrite lookup_insert_eq) end.
  rewrite Hpeek1. change (0 <? 1) with true. cbv iota.
  split; [reflexivity|]. by rewrite after_get_lookup, Hpeek1.
Qed.

(** C10, as the code has it. Two concurrent reservations of cost 1
    against one anonymous identifier holding exactly 1 credit give,
    under every schedule, exactly one success and one "Insufficient
    credits" failure, and leave 0: the pool's check-then-decrement is
    synchronous code.  The account ledger reads and writes in separate
    awaited statements; two deductions of 1 from an account with
    exactly one credit available give one success and one failure when
    the second starts after the first has finished. *)
Theorem reservations_serialized :
  (∀ (sched : list bool) (ip : string) (w : World),
     anonymousCredits w !! ip = Some 1 →
     ∃ r1 r2 w',
       interleave sched (deductAnonymousCredits_task ip 1)
                  (deductAnonymousCredits_task ip 1) w = (r1, r2, w')
       ∧ exactly_one_success r1 r2
       ∧ anonymousCredits w' !! ip = Some 0)
  ∧ (∀ (c : Client) (uid : string) (tok : option string) (w : World)
       (row : UserRow),
       Js.truthy uid = true →
       users w !! uid = Some row →
       expired (clock w) (daily_reset_at row) = false →
       DAILY_CREDITS - default 0 (daily_credits_used row)
       + default 0 (credits row) = 1 →
       ∃ res w',
         interleave [] (deductFreeUserCredits_task (Some c) uid 1 tok)
                    (deductFreeUserCredits_task (Some c) uid 1 tok) w
         = (Ok res, Throw "Insufficient credits", w')).
Proof.
  split.
  - intros sched ip w Hone.
    destruct (anonymous_reservations_serial ip w Hone) as (w1 & w2 & H1 & H2 & H3).
    change (deductAnonymousCredits_task ip 1)
      with (sync_call (deductAnonymousCredits ip 1)).
    destruct (interleave_sync_calls sched (deductAnonymousCredits ip 1)
                (deductAnonymousCredits ip 1) w) as [-> | ->].
    + unfold first_then_second. rewrite H1, H2.
      eexists _, _, _. split; [reflexivity|]. split; [by left|done].
    + unfold second_then_first. rewrite H1, H2.
      eexists _, _, _. split; [reflexivity|]. split; [by right|done].
  - intros c uid tok w row Hu Hrow Hopen Hone.
    cbn [interleave]. rewrite deductFreeUserCredits_task_run.
    rewrite (deductFreeUserCredits_run c uid 1 tok w row Hu Hrow) by lia.
    cbv zeta.
    assert (Hrow1 : row_after_reset (clock w) row = row)
      by (unfold row_after_reset; by rewrite Hopen).
    rewrite Hrow1.
    set (u := default 0 (daily_credits_used row)) in *.
    set (b := default 0 (credits row)) in *.
    destruct (DAILY_CREDITS - u + b <? 1) eqn:E; [apply Z.ltb_lt in E; lia|].
    destruct (draw u b 1) as [[d nb] src] eqn:Hdraw.
    assert (Hleft : DAILY_CREDITS - d + nb = 0).
    { unfold draw, DAILY_CREDITS in *.
      destruct (1 <=? 3 - u) eqn:E1; injection Hdraw as <- <- <-;
        [apply Z.leb_le in E1|apply Z.leb_gt in E1]; lia. }
    rewrite deductFreeUserCredits_task_run.
    match goal with |- context [deductFreeUserCredits _ _ _ _ ?w1] =>
      assert (Hlook : users w1 !! uid = Some (patch_deduct d nb row))
        by (cbn; apply lookup_insert_eq);
      assert (Hclock : clock w1 = clock w)
        by (cbn; apply (after_reset_frame uid w));
      rewrite (deductFreeUserCredits_run c uid 1 tok w1 _ Hu Hlook) by lia
    end.
    cbv zeta. rewrite Hclock.
    assert (Hrow2 : row_after_reset (clock w) (patch_deduct d nb row)
                    = patch_deduct d nb row)
      by (unfold row_after_reset; cbn; by rewrite Hopen).
    rewrite Hrow2. cbn [patch_deduct daily_credits_used credits default from_option id].
    rewrite Hleft. change (0 <? 1) with true. cbv iota.
    eexists _, _. reflexivity.
Qed.

(** ** Instances on the sample data *)

Lemma sample_world_inv : ledger_inv Sample.world.
Proof.
  intros uid row Hlook. unfold Sample.world in Hlook. cbn [users] in Hlook.
  repeat (apply lookup_insert_Some in Hlook as [[_ <-]|[_ Hlook]];
          [unfold row_inv, DAILY_CREDITS; cbn; lia|]).
  apply lookup_singleton_Some in Hlook as [_ <-].
  unfold row_inv, DAILY_CREDITS; cbn; lia.
Qed.

Lemma ledger_operations_preserve_invariants_witness :
  ledger_inv (snd (deductFreeUserCredits (Some Sample.token) Sample.uid 2 None
                     Sample.world))
  ∧ ledger_inv (snd (resetDailyCreditsIfNeeded (Some Sample.token) Sample.uid
                       Sample.world))
  ∧ ledger_inv (snd (grantSignupBonus (Some Sample.token) Sample.fresh_uid
                       Sample.world)).
Proof.
  split; [|split].
  - apply (ledger_operations_preserve_invariants (Some Sample.token) Sample.uid 2
             None Sample.world sample_world_inv).
  - apply (ledger_operations_preserve_invariants (Some Sample.token) Sample.uid 2
             None Sample.world sample_world_inv).
  - apply (ledger_operations_preserve_invariants (Some Sample.token)
             Sample.fresh_uid 2 None Sample.world sample_world_inv).
Defined.

Lemma followup_denials_touch_no_balance_witness :
  status (fst (handlePromptImprovement Sample.env (Sample.request None)
                 followup Sample.world)) = 401
  ∧ status (fst (handlePromptImprovement Sample.env (Sample.request (Some "bogus"))
                   followup Sample.world)) = 401
  ∧ status (fst (handlePromptImprovement Sample.env
                   (Sample.request (Some Sample.token)) followup Sample.world)) = 403
  ∧ users (snd (handlePromptImprovement Sample.env
                  (Sample.request (Some Sample.token)) followup Sample.world))
    = users Sample.world.
Proof.
  split; [|split; [|split]].
  - apply (proj1 (followup_denials_touch_no_balance Sample.env
                    (Sample.request None) Sample.world) eq_refl).
    reflexivity.
  - apply (proj1 (followup_denials_touch_no_balance Sample.env
                    (Sample.request (Some "bogus")) Sample.world) eq_refl)
      with (tok := "bogus"); reflexivity.
  - apply (proj1 (followup_denials_touch_no_balance Sample.env
                    (Sample.request (Some Sample.token)) Sample.world) eq_refl)
      with (tok := Sample.token) (user := mkAuthUser Sample.uid (Some "a@example.org"));
      reflexivity.
  - apply (proj2 (followup_denials_touch_no_balance Sample.env
                    (Sample.request (Some Sample.token)) Sample.world)
             (fst (handlePromptImprovement Sample.env
                     (Sample.request (Some Sample.token)) followup Sample.world))).
    + by destruct (handlePromptImprovement _ _ _ _).
    + right. reflexivity.
Defined.

Lemma pro_followup_bypasses_ledger_witness :
  ∃ out w' evs,
    handlePromptImprovement Sample.env (Sample.request (Some Sample.pro_token))
      followup Sample.world
    = (mkResponse 200 (JsonSuccess out (-1)), w')
    ∧ users w' = users Sample.world
    ∧ anonymousCredits w' = anonymousCredits Sample.world
    ∧ trace w' = trace Sample.world ++ evs
    ∧ no_balance_op evs = true.
Proof.
  destruct (pro_followup_bypasses_ledger Sample.env
              (Sample.request (Some Sample.pro_token)) Sample.world
              Sample.pro_token (mkAuthUser Sample.pro_uid (Some "c@example.org")))
    as (resp & w' & evs & Hrun & Hu & Hp & Htr & Hb & Hreply);
    [reflexivity | reflexivity | reflexivity | reflexivity | reflexivity
    | reflexivity |].
  assert (Hout : ∃ out, completion_of Sample.env
                          (Sample.request (Some Sample.pro_token)) followup
                        = Some out)
    by (eexists; vm_compute; reflexivity).
  destruct Hout as (out & Hout). rewrite Hout in Hreply. subst resp.
  exists out, w', evs. by repeat split.
Defined.

Lemma invalid_token_same_as_no_token_witness :
  handlePromptImprovement Sample.env (Sample.request (Some "bogus")) improve
    Sample.world
  = handlePromptImprovement Sample.env (without_token (Sample.request (Some "bogus")))
      improve Sample.world
  ∧ status (fst (handlePromptImprovement Sample.env (Sample.request (Some "bogus"))
                   improve Sample.world)) ≠ 401.
Proof.
  destruct (invalid_token_same_as_no_token Sample.env (Sample.request (Some "bogus"))
              improve Sample.world "bogus") as (Hsame & _ & Hne);
    [discriminate | reflexivity | reflexivity |].
  exact (conj Hsame Hne).
Defined.

Lemma reservations_serialized_witness :
  (∃ r1 r2 w',
     interleave [false; true] (deductAnonymousCredits_task Sample.client_ip 1)
       (deductAnonymousCredits_task Sample.client_ip 1)
       (set_anonymousCredits (insert Sample.client_ip 1) Sample.world)
     = (r1, r2, w')
     ∧ exactly_one_success r1 r2
     ∧ anonymousCredits w' !! Sample.client_ip = Some 0)
  ∧ (∃ res w',
       interleave [] (deductFreeUserCredits_task (Some Sample.last_token)
                        Sample.last_uid 1 None)
         (deductFreeUserCredits_task (Some Sample.last_token) Sample.last_uid 1 None)
         Sample.world
       = (Ok res, Throw "Insufficient credits", w')).
Proof.
  split.
  - apply (proj1 reservations_serialized). reflexivity.
  - apply (proj2 reservations_serialized Sample.last_token Sample.last_uid None
             Sample.world Sample.last_row); reflexivity.
Defined.

(** * Further properties *)

(** ** Locality of the ledger *)

Lemma touches_only_refl (uid : string) (w : World) : touches_only uid w w.
Proof. by repeat split. Qed.

Lemma touches_only_trans (uid : string) (w1 w2 w3 : World) :
  touches_only uid w1 w2 → touches_only uid w2 w3 → touches_only uid w1 w3.
Proof.
  intros (Ha & Hb & Hc & Hd & He) (Ha' & Hb' & Hc' & Hd' & He').
  split; [|split; [|split; [|split]]].
  - intros uid' Hne. by rewrite Ha', Ha.
  - by rewrite Hb', Hb.
  - by rewrite Hc', Hc.
  - by rewrite Hd', Hd.
  - by rewrite He', He.
Qed.

Lemma local_ret {A} (uid : string) (a : A) : account_local uid (mret a : M A).
Proof. intros w. apply touches_only_refl. Qed.

Lemma local_throw {A} (uid msg : string) : account_local uid (throw msg : M A).
Proof. intros w. apply touches_only_refl. Qed.

Lemma local_bind {A B} (uid : string) (m : M A) (k : A → M B) :
  account_local uid m → (∀ a, account_local uid (k a)) →
  account_local uid (m ≫= k).
Proof.
  intros Hm Hk w. unfold mbind, M_bind. specialize (Hm w).
  destruct (m w) as [[a|msg] w1]; cbn in *; [|exact Hm].
  eapply touches_only_trans; [exact Hm|apply Hk].
Qed.

Lemma local_Date_now (uid : string) : account_local uid Date_now.
Proof. intros w. apply touches_only_refl. Qed.

Lemma local_select (uid : string) (cols : list Column) :
  account_local uid (users_select_single cols uid).
Proof.
  intros w. unfold users_select_single.
  destruct (users w !! uid); by repeat split.
Qed.

Lemma touches_only_patch (uid : string) (row row' : UserRow) (w w' : World) :
  users w !! uid = Some row →
  users w' = <[uid := row']> (users w) →
  anonymousCredits w' = anonymousCredits w →
  prompts w' = prompts w → clock w' = clock w →
  touches_only uid w w'.
Proof.
  intros Hrow Hu Hp Hq Hc. split; [|split; [|done]].
  - intros uid' Hne. rewrite Hu. by rewrite lookup_insert_ne.
  - rewrite Hu, lookup_insert_eq, Hrow. split; eauto.
Qed.

Lemma local_update (uid : string) (cols : list Column) (patch : UserRow → UserRow) :
  account_local uid (users_update cols patch uid).
Proof.
  intros w. unfold users_update.
  destruct (users w !! uid) as [row|] eqn:Hrow; [|by repeat split].
  by apply (touches_only_patch uid row (patch row)).
Qed.

Lemma local_update_select (uid : string) (cols : list Column)
    (patch : UserRow → UserRow) :
  account_local uid (users_update_select_single cols patch uid).
Proof.
  intros w. unfold users_update_select_single.
  destruct (users w !! uid) as [row|] eqn:Hrow; [|by repeat split].
  by apply (touches_only_patch uid row (patch row)).
Qed.

Ltac local_step :=
  first [ apply local_ret | apply local_throw | apply local_Date_now
        | apply local_select | apply local_update | apply local_update_select
        | apply local_bind; [|intros ?] ].

Lemma getUserProStatus_local (c : option Client) (uid : string) :
  account_local uid (getUserProStatus c uid).
Proof.
  unfold getUserProStatus. destruct c; [|local_step].
  destruct (negb _); [local_step|]. local_step; [local_step|].
  destruct a as [row|e]; [local_step|]. destruct (String.eqb _ _); local_step.
Qed.

Lemma getUserCreditInfo_local (c : option Client) (uid : string) :
  account_local uid (getUserCreditInfo c uid).
Proof.
  unfold getUserCreditInfo. destruct c; [|local_step].
  destruct (negb _); [local_step|]. local_step; [local_step|].
  destruct a as [row|e]; [local_step|]. destruct (String.eqb _ _); local_step.
Qed.

Lemma resetDailyCreditsIfNeeded_local (c : option Client) (uid : string) :
  account_local uid (resetDailyCreditsIfNeeded c uid).
Proof.
  unfold resetDailyCreditsIfNeeded. destruct c; [|local_step].
  destruct (negb _); [local_step|].
  local_step; [apply getUserCreditInfo_local|].
  local_step; [local_step|].
  destruct (match dailyResetAt a with Some _ => _ | None => _ end); [|local_step].
  local_step; [local_step|]. destruct a1; local_step.
Qed.

Lemma grantSignupBonus_local (c : option Client) (uid : string) :
  account_local uid (grantSignupBonus c uid).
Proof.
  unfold grantSignupBonus. destruct c; [|local_step].
  destruct (negb _); [local_step|].
  local_step; [apply getUserCreditInfo_local|].
  destruct (signupBonusGiven a); [local_step|].
  local_step; [local_step|]. destruct a0; local_step.
Qed.

Lemma deductFreeUserCredits_local (c : option Client) (uid : string) (a : Z)
    (tok : option string) :
  account_local uid (deductFreeUserCredits c uid a tok).
Proof.
  unfold deductFreeUserCredits. destruct c; [|local_step].
  destruct (negb _); [local_step|]. destruct (a <=? 0); [local_step|].
  local_step; [apply resetDailyCreditsIfNeeded_local|].
  local_step; [apply getUserCreditInfo_local|].
  cbv zeta. destruct (_ <? a); [local_step|].
  destruct (a <=? _); (local_step; [local_step|]);
    destruct a2; local_step.
Qed.

(** X1. Every function of the ledger touches only the row of the
    account it is called for: the rows of all other accounts, the set
    of accounts, the anonymous pool, the prompt history and the clock
    are as before, whatever the arguments and whether it returns or
    throws. *)
Theorem ledger_functions_touch_one_account (c : option Client) (uid : string)
    (a : Z) (tok : option string) (w : World) :
  touches_only uid w (snd (getUserProStatus c uid w))
  ∧ touches_only uid w (snd (getUserCreditInfo c uid w))
  ∧ touches_only uid w (snd (resetDailyCreditsIfNeeded c uid w))
  ∧ touches_only uid w (snd (deductFreeUserCredits c uid a tok w))
  ∧ touches_only uid w (snd (grantSignupBonus c uid w)).
Proof.
  repeat split.
  all: first [ apply getUserProStatus_local | apply getUserCreditInfo_local
             | apply resetDailyCreditsIfNeeded_local
             | apply deductFreeUserCredits_local | apply grantSignupBonus_local ].
Qed.

(** ** The ledger: conservation, refusal, window reset *)

Lemma deductFreeUserCredits_ok_args (c : option Client) (uid : string) (a : Z)
    (tok : option string) (w w' : World) (res : DeductResult) :
  deductFreeUserCredits c uid a tok w = (Ok res, w') →
  (∃ c', c = Some c') ∧ Js.truthy uid = true ∧ 0 < a.
Proof.
  unfold deductFreeUserCredits. destruct c as [c'|]; [|discriminate].
  destruct (Js.truthy uid); cbn [negb]; [|discriminate].
  destruct (a <=? 0) eqn:E; [discriminate|]. apply Z.leb_gt in E. eauto.
Qed.

(** X2. Whenever [deductFreeUserCredits] returns, the account's
    available balance [3 - daily_credits_used + credits] is exactly
    [amount] lower than it was after the window roll-over the function
    starts with; the two numbers it returns add up to that new balance;
    and the end of the window is the one the roll-over left. *)
Theorem deduct_lowers_available_by_amount (c : option Client) (uid : string)
    (a : Z) (tok : option string) (w w' : World) (row : UserRow)
    (res : DeductResult) :
  users w !! uid = Some row →
  deductFreeUserCredits c uid a tok w = (Ok res, w') →
  ∃ row',
    users w' !! uid = Some row'
    ∧ available row' = available (row_after_reset (clock w) row) - a
    ∧ remainingCredits res + dailyCreditsRemaining res = available row'
    ∧ daily_reset_at row' = daily_reset_at (row_after_reset (clock w) row).
Proof.
  intros Hrow Hrun.
  destruct (deductFreeUserCredits_ok_args _ _ _ _ _ _ _ Hrun) as ([c' ->] & Hu & Ha).
  rewrite (deductFreeUserCredits_run c' uid a tok w row Hu Hrow Ha) in Hrun.
  cbv zeta in Hrun. destruct (_ <? a); [discriminate|].
  unfold draw in Hrun.
  destruct (a <=? _); injection Hrun as <- <-; eexists;
    (split; [cbn; apply lookup_insert_eq|]);
    unfold available, DAILY_CREDITS; cbn; repeat split; lia.
Qed.

Lemma deduct_lowers_available_by_amount_witness :
  ∃ row',
    users (snd (deductFreeUserCredits (Some Sample.token) Sample.uid 2 None
                  Sample.world)) !! Sample.uid = Some row'
    ∧ available row' = available Sample.row - 2
    ∧ 4 + 0 = available row'.
Proof.
  destruct (deduct_lowers_available_by_amount (Some Sample.token) Sample.uid 2
              None Sample.world
              (snd (deductFreeUserCredits (Some Sample.token) Sample.uid 2 None
                      Sample.world))
              Sample.row (mkDeductResult 4 0 "mixed"))
    as (row' & H1 & H2 & H3 & _); [reflexivity | vm_compute; reflexivity |].
  exists row'. exact (conj H1 (conj H2 H3)).
Defined.

(** X3. A deduction the balance does not cover throws "Insufficient
    credits" and leaves the bonus credits as they were; but the window
    roll-over that precedes the check is kept: an expired window has
    been reset (counter 0, end 24 hours ahead) although nothing was
    deducted. *)
Theorem deduct_refused_keeps_reset (c : Client) (uid : string) (a : Z)
    (tok : option string) (w : World) (row : UserRow) :
  Js.truthy uid = true →
  users w !! uid = Some row →
  0 < a →
  available (row_after_reset (clock w) row) < a →
  ∃ w',
    deductFreeUserCredits (Some c) uid a tok w = (Throw "Insufficient credits", w')
    ∧ users w' !! uid = Some (row_after_reset (clock w) row)
    ∧ credits (row_after_reset (clock w) row) = credits row
    ∧ (expired (clock w) (daily_reset_at row) = true →
       daily_credits_used (row_after_reset (clock w) row) = Some 0
       ∧ daily_reset_at (row_after_reset (clock w) row)
         = Some (clock w + MS_PER_DAY))
    ∧ (expired (clock w) (daily_reset_at row) = false → users w' = users w).
Proof.
  intros Hu Hrow Ha Hlow.
  rewrite (deductFreeUserCredits_run c uid a tok w row Hu Hrow Ha). cbv zeta.
  unfold available in Hlow.
  destruct (_ <? a) eqn:E; [|apply Z.ltb_ge in E; lia].
  eexists. split; [reflexivity|].
  cbn [users add_event]. split; [by apply after_reset_lookup|].
  unfold row_after_reset, after_reset. rewrite Hrow. cbn.
  destruct (expired (clock w) (daily_reset_at row)); cbn; repeat split; done.
Qed.

Lemma deduct_refused_keeps_reset_witness :
  ∃ w',
    deductFreeUserCredits (Some Sample.last_token) Sample.last_uid 2 None
      Sample.world = (Throw "Insufficient credits", w')
    ∧ users w' !! Sample.last_uid = Some Sample.last_row.
Proof.
  destruct (deduct_refused_keeps_reset Sample.last_token Sample.last_uid 2 None
              Sample.world Sample.last_row)
    as (w' & H1 & H2 & _); [reflexivity | reflexivity | lia | vm_compute; reflexivity |].
  exists w'. exact (conj H1 H2).
Defined.

(** X4. [resetDailyCreditsIfNeeded] returns [true] exactly when the
    window has no end or the end has passed; it then sets the counter
    to 0 and the end to 24 hours ahead, keeps the bonus credits, so that
    the available balance becomes 3 plus the bonus credits whatever the
    counter was; otherwise it changes no row.  A second call right
    after returns [false] and changes no row. *)
Theorem reset_rolls_window_once (c : Client) (uid : string) (w : World)
    (row : UserRow) :
  Js.truthy uid = true →
  users w !! uid = Some row →
  ∃ w1 w2 row1,
    resetDailyCreditsIfNeeded (Some c) uid w
    = (Ok (expired (clock w) (daily_reset_at row)), w1)
    ∧ users w1 !! uid = Some row1
    ∧ (expired (clock w) (daily_reset_at row) = true →
       daily_credits_used row1 = Some 0
       ∧ daily_reset_at row1 = Some (clock w + MS_PER_DAY)
       ∧ credits row1 = credits row
       ∧ available row1 = DAILY_CREDITS + default 0 (credits row))
    ∧ (expired (clock w) (daily_reset_at row) = false → users w1 = users w)
    ∧ resetDailyCreditsIfNeeded (Some c) uid w1 = (Ok false, w2)
    ∧ users w2 = users w1.
Proof.
  intros Hu Hrow.
  exists (after_reset uid w), (after_reset uid (after_reset uid w)),
    (row_after_reset (clock w) row).
  rewrite !resetDailyCreditsIfNeeded_run by done. rewrite Hrow.
  pose proof (after_reset_lookup uid w row Hrow) as Hl. rewrite Hl.
  assert (Hclock : clock (after_reset uid w) = clock w) by apply after_reset_frame.
  rewrite Hclock. cbn [info_of info_of_row dailyResetAt].
  rewrite expired_after_reset.
  split; [reflexivity|]. split; [reflexivity|].
  split; [|split; [|split; [reflexivity|]]].
  - unfold row_after_reset. intros ->. unfold available. cbn. repeat split; lia.
  - intros E. unfold after_reset. rewrite Hrow. cbn. by rewrite E.
  - unfold after_reset at 1. rewrite Hl, Hclock. cbn.
    by rewrite expired_after_reset.
Qed.

Lemma reset_rolls_window_once_witness :
  ∃ w1 w2 row1,
    resetDailyCreditsIfNeeded (Some Sample.token) Sample.uid
      (mkWorld (users Sample.world) [] ∅ 2000 [])
    = (Ok true, w1)
    ∧ users w1 !! Sample.uid = Some row1
    ∧ daily_credits_used row1 = Some 0
    ∧ available row1 = 3 + 5
    ∧ resetDailyCreditsIfNeeded (Some Sample.token) Sample.uid w1 = (Ok false, w2)
    ∧ users w2 = users w1.
Proof.
  destruct (reset_rolls_window_once Sample.token Sample.uid
              (mkWorld (users Sample.world) [] ∅ 2000 []) Sample.row)
    as (w1 & w2 & row1 & H1 & H2 & H3 & _ & H5 & H6);
    [reflexivity | reflexivity |].
  destruct (H3 eq_refl) as (H31 & _ & _ & H34).
  exists w1, w2, row1.
  exact (conj H1 (conj H2 (conj H31 (conj H34 (conj H5 H6))))).
Defined.

(** ** An authenticated caller without a row in [users] *)

Lemma deductFreeUserCredits_missing_run (c : Client) (uid : string) (a : Z)
    (tok : option string) (w : World) :
  Js.truthy uid = true →
  users w !! uid = None →
  0 < a →
  ∃ w',
    deductFreeUserCredits (Some c) uid a tok w
    = (Throw (if DAILY_CREDITS <? a then "Insufficient credits"
              else "Failed to deduct credits: " +:+ message PGRST116), w')
    ∧ users w' = users w.
Proof.
  intros Hu Hrow Ha. unfold deductFreeUserCredits. rewrite Hu. cbn [negb].
  rewrite (proj2 (Z.leb_gt a 0)) by done.
  msimpl. rewrite resetDailyCreditsIfNeeded_run by done. msimpl.
  rewrite getUserCreditInfo_run by done. msimpl.
  rewrite (after_reset_lookup_None uid w Hrow). rewrite Hrow.
  cbn [info_of dailyCreditsUsed info_credits].
  replace (DAILY_CREDITS - 0 + 0) with DAILY_CREDITS by (unfold DAILY_CREDITS; lia).
  destruct (DAILY_CREDITS <? a) eqn:E.
  - eexists. split; [reflexivity|]. cbn. by apply after_reset_lookup_None.
  - replace (a <=? DAILY_CREDITS - 0) with true
      by (symmetry; apply Z.leb_le; apply Z.ltb_ge in E; lia).
    unfold users_update_select_single. cbn.
    rewrite (after_reset_lookup_None uid w Hrow), Hrow.
    eexists. split; [reflexivity|]. cbn. by apply after_reset_lookup_None.
Qed.

(** X5. For an account id that has no row in [users], the ledger reads
    defaults and never writes: the Pro status is [false], the credit
    info is all zero, the window reset reports [true] on every call, the
    signup bonus is "granted" without being stored, and a deduction of
    1 to 3 credits passes the balance check (3 daily credits by
    default) and then fails with "Failed to deduct credits", not with
    "Insufficient credits".  The table is unchanged throughout. *)
Theorem ledger_on_missing_account (c : Client) (uid : string) (a : Z)
    (tok : option string) (w : World) :
  Js.truthy uid = true →
  users w !! uid = None →
  0 < a ≤ DAILY_CREDITS →
  fst (getUserProStatus (Some c) uid w) = Ok false
  ∧ fst (getUserCreditInfo (Some c) uid w) = Ok (mkCreditInfo 0 0 None false)
  ∧ (∃ w1 w2, resetDailyCreditsIfNeeded (Some c) uid w = (Ok true, w1)
              ∧ resetDailyCreditsIfNeeded (Some c) uid w1 = (Ok true, w2)
              ∧ users w2 = users w)
  ∧ (∃ w1, grantSignupBonus (Some c) uid w = (Ok tt, w1)
           ∧ users w1 = users w
           ∧ fst (getUserCreditInfo (Some c) uid w1)
             = Ok (mkCreditInfo 0 0 None false))
  ∧ (∃ details w1,
       deductFreeUserCredits (Some c) uid a tok w
       = (Throw ("Failed to deduct credits: " +:+ details), w1)
       ∧ users w1 = users w).
Proof.
  intros Hu Hrow Ha.
  assert (Hreset : ∀ w0, users w0 !! uid = None →
            resetDailyCreditsIfNeeded (Some c) uid w0 = (Ok true, after_reset uid w0)
            ∧ users (after_reset uid w0) = users w0).
  { intros w0 H0. rewrite resetDailyCreditsIfNeeded_run by done.
    rewrite H0. split; [reflexivity|]. by apply after_reset_lookup_None. }
  split; [rewrite getUserProStatus_run by done; by rewrite Hrow|].
  split; [rewrite getUserCreditInfo_run by done; by rewrite Hrow|].
  split; [|split].
  - destruct (Hreset w Hrow) as [H1 H2].
    assert (Hrow1 : users (after_reset uid w) !! uid = None) by (by rewrite H2).
    destruct (Hreset _ Hrow1) as [H3 H4].
    eexists _, _. split; [exact H1|]. split; [exact H3|]. by rewrite H4.
  - rewrite grantSignupBonus_run by done.
    assert (Hsame : users (after_grant uid w) = users w).
    { unfold after_grant. rewrite Hrow. cbn. unfold users_update. cbn.
      by rewrite Hrow. }
    eexists. split; [reflexivity|]. split; [exact Hsame|].
    rewrite getUserCreditInfo_run by done. by rewrite Hsame, Hrow.
  - destruct (deductFreeUserCredits_missing_run c uid a tok w Hu Hrow)
      as (w1 & Hrun & Hsame); [lia|].
    rewrite (proj2 (Z.ltb_ge DAILY_CREDITS a)) in Hrun by lia.
    eauto.
Qed.

Lemma ledger_on_missing_account_witness :
  fst (getUserProStatus (Some "tok-9") "user-9" Sample.world) = Ok false
  ∧ (∃ details w1,
       deductFreeUserCredits (Some "tok-9") "user-9" 1 None Sample.world
       = (Throw ("Failed to deduct credits: " +:+ details), w1)
       ∧ users w1 = users Sample.world).
Proof.
  destruct (ledger_on_missing_account "tok-9" "user-9" 1 None Sample.world)
    as (H1 & _ & _ & _ & H5); [reflexivity | reflexivity | unfold DAILY_CREDITS; lia |].
  exact (conj H1 H5).
Defined.

(** ** Run equations of the completion phase and of the account path *)

Lemma prompt_valid_trim (req : Request) :
  prompt_valid req = true →
  Js.truthy (Js.trim (default "" (body_original_prompt req))) = true.
Proof. unfold prompt_valid. by intros [_ H]%andb_true_iff. Qed.

Lemma complete_run (create : ChatRequest → Res (option string))
    (rq : ChatRequest) (w : World) :
  snd (complete create rq w) = w
  ∧ ∀ out, fst (complete create rq w) = Ok out → Js.truthy out = true.
Proof.
  unfold complete.
  destruct (create rq) as [co|m]; [|split; [reflexivity|discriminate]].
  destruct (Js.truthy (clean_completion (default "" co))) eqn:E; cbn [negb];
    (split; [reflexivity|]).
  - intros out [= <-]. exact E.
  - discriminate.
Qed.

Lemma complete_and_reply_history (env : Env) (req : Request) (mode : Mode)
    (userId : option string) (client : option Client) (isAnonymous : bool)
    (remaining : Z) (w : World) :
  prompt_valid req = true →
  ∃ resp w',
    run_handler (complete_and_reply env req mode userId client isAnonymous remaining) w
    = (resp, w')
    ∧ users w' = users w
    ∧ anonymousCredits w' = anonymousCredits w
    ∧ clock w' = clock w
    ∧ ((status resp = 500 ∧ prompts w' = prompts w
        ∧ ∃ e, body resp = JsonError e None None)
       ∨ (∃ out, resp = mkResponse 200 (JsonSuccess out remaining)
                 ∧ Js.truthy out = true
                 ∧ prompts w'
                   = prompts w
                     ++ (if negb isAnonymous && Js.non_null client
                            && Js.truthy_opt userId
                         then [history_row req (default "" userId) out (clock w)]
                         else []))).
Proof.
  intros Hv%prompt_valid_trim.
  unfold complete_and_reply. cbv zeta.
  destruct (openai env) as [create|].
  2:{ eexists _, _. split; [reflexivity|]. cbn. repeat split; try done.
      left. eauto. }
  rewrite run_handler_bind. unfold attempt at 1.
  match goal with |- context [complete create ?rq w] =>
    pose proof (complete_run create rq w) as Hc;
    destruct (complete create rq w) as [[out|m] w1] end;
    cbn in Hc; destruct Hc as [-> Hout].
  2:{ eexists _, _. split; [reflexivity|]. cbn. repeat split; try done.
      left. eauto. }
  specialize (Hout out eq_refl).
  rewrite run_handler_bind.
  destruct (negb isAnonymous && Js.non_null client && Js.truthy_opt userId) eqn:Hsave.
  2:{ eexists _, _. split; [reflexivity|]. cbn. repeat split; try done.
      right. exists out. by rewrite app_nil_r. }
  apply andb_true_iff in Hsave as [[_ Hclient]%andb_true_iff Huid].
  destruct client as [c|]; [|discriminate].
  destruct userId as [uid|]; [|discriminate]. cbn in Huid.
  unfold mbind at 1, H_bind, attempt, savePrompt. cbn [default from_option id].
  rewrite Huid, Hv. cbn [negb]. rewrite Hout.
  eexists _, _. split; [reflexivity|]. cbn. repeat split; try done.
  right. exists out. done.
Qed.

Lemma row_after_reset_again (now : Z) (row : UserRow) :
  row_after_reset now (row_after_reset now row) = row_after_reset now row.
Proof.
  unfold row_after_reset at 1. by rewrite expired_after_reset.
Qed.

(** The worlds the account path of the handler goes through. *)
Lemma free_account_run (env : Env) (req : Request) (mode : Mode) (w : World)
    (tok : string) (user : AuthUser) (row : UserRow) :
  mode ≠ followup →
  prompt_valid req = true →
  caller env req = Account tok user →
  Js.truthy (auth_id user) = true →
  users w !! auth_id user = Some row →
  pro_of (Some row) = false →
  let uid := auth_id user in
  let row1 := row_after_reset (clock w) row in
  let w3 := add_event (EvSelect uid credit_columns)
              (after_reset uid (add_event (EvSelect uid [col_is_pro]) w)) in
  handlePromptImprovement env req mode w
  = if available row1 <? creditCosts mode then (no_credits_free (available row1), w3)
    else
      let '(d, nb, src) :=
        draw (default 0 (daily_credits_used row1)) (default 0 (credits row1))
             (creditCosts mode) in
      run_handler
        (complete_and_reply env req mode (Some uid) (Some tok) false nb)
        (set_users (insert uid (patch_deduct d nb row1))
           (add_event (EvUpdate uid deduct_columns)
              (add_event (EvSelect uid credit_columns) (after_reset uid w3)))).
Proof.
  intros Hmode Hv Hcaller Hu Hrow Hpro. cbv zeta.
  rewrite improve_refine_run, Hv, Hcaller by done. cbn [negb].
  unfold account_outcome.
  set (uid := auth_id user) in *.
  set (row1 := row_after_reset (clock w) row).
  set (w3 := add_event (EvSelect uid credit_columns)
               (after_reset uid (add_event (EvSelect uid [col_is_pro]) w))).
  rewrite getUserProStatus_run by done. rewrite Hrow.
  unfold pro_of in Hpro. rewrite Hpro.
  assert (Hrow1 : users (add_event (EvSelect uid [col_is_pro]) w) !! uid = Some row)
    by exact Hrow.
  rewrite resetDailyCreditsIfNeeded_run by done.
  rewrite getUserCreditInfo_run by done.
  rewrite (after_reset_lookup uid _ row Hrow1).
  cbn [clock add_event]. fold row1.
  cbn [info_of info_of_row dailyCreditsUsed info_credits]. cbv zeta.
  fold (available row1). fold w3.
  destruct (available row1 <? creditCosts mode) eqn:E; [reflexivity|].
  assert (Hrow3 : users w3 !! uid = Some row1)
    by (cbn; apply (after_reset_lookup uid _ row Hrow1)).
  assert (Hcost : 0 < creditCosts mode) by (destruct mode; cbn; lia).
  pose proof (deductFreeUserCredits_run tok uid (creditCosts mode) (Some tok) w3
                row1 Hu Hrow3 Hcost) as Hded.
  unfold Client in *. rewrite Hded. clear Hded.
  cbv zeta.
  assert (Hclock3 : clock w3 = clock w)
    by (cbn; apply (after_reset_frame uid (add_event (EvSelect uid [col_is_pro]) w))).
  rewrite Hclock3. unfold row1 in *. rewrite !row_after_reset_again.
  fold (available (row_after_reset (clock w) row)). rewrite E.
  destruct (draw _ _ _) as [[d nb] src]. reflexivity.
Qed.

(** The anonymous path: turned away without change, or charged. *)
Lemma anonymous_run (env : Env) (req : Request) (mode : Mode) (w : World) :
  mode ≠ followup →
  prompt_valid req = true →
  caller env req = Anonymous →
  let ip := getClientIP req in
  handlePromptImprovement env req mode w
  = if peek ip w <=? 0 then (no_credits_anonymous (peek ip w), after_get ip w)
    else
      run_handler
        (complete_and_reply env req mode None None true (peek ip w - 1))
        (set_anonymousCredits (insert ip (peek ip w - 1))
           (add_event (EvPoolSet ip) (after_get ip (after_get ip w)))).
Proof.
  intros Hmode Hv Hcaller ip.
  rewrite improve_refine_run, Hv, Hcaller by done. cbn [negb].
  unfold anonymous_outcome. fold ip.
  assert (Hcost : creditCosts mode = 1) by (by destruct mode).
  rewrite Hcost.
  destruct (peek ip w <=? 0) eqn:E; [reflexivity|].
  apply Z.leb_gt in E. cbn [orb].
  by rewrite (proj2 (Z.ltb_ge (peek ip w) 1)) by lia.
Qed.

(** ** Prompt requests: validation, charging, refusal *)

Lemma after_get_lookup_ne (ip ip' : string) (w : World) :
  ip' ≠ ip → anonymousCredits (after_get ip w) !! ip' = anonymousCredits w !! ip'.
Proof.
  intros Hne. unfold after_get. destruct (bool_decide _); cbn; [done|].
  by rewrite lookup_insert_ne.
Qed.

(** X6. A request whose [original_prompt] is missing or blank is
    answered 400 in every mode, whatever token it carries: the state,
    including the trace of the statements sent to the store, is
    unchanged, so nothing was read or charged. *)
Theorem blank_prompt_rejected_first (env : Env) (req : Request) (mode : Mode)
    (w : World) :
  prompt_valid req = false →
  handlePromptImprovement env req mode w
  = (mkResponse 400 (JsonError "original_prompt is required" None None), w).
Proof.
  intros Hv.
  assert (Hmode : mode = followup ∨ mode ≠ followup)
    by (destruct mode; auto; right; discriminate).
  destruct Hmode as [->|Hmode].
  - by rewrite followup_run, Hv.
  - by rewrite improve_refine_run, Hv.
Qed.

Lemma blank_prompt_rejected_first_witness :
  handlePromptImprovement Sample.env
    (mkRequest (Some Sample.token) (Some "   ") None None None None None None)
    improve Sample.world
  = (mkResponse 400 (JsonError "original_prompt is required" None None), Sample.world).
Proof.
  apply (blank_prompt_rejected_first Sample.env
           (mkRequest (Some Sample.token) (Some "   ") None None None None None None)
           improve Sample.world).
  reflexivity.
Defined.

(** X7. An anonymous improve or refine request with a valid prompt is
    either turned away with 402 (no credit left; the balance stays) or
    charged exactly one credit on the balance of its client identifier;
    it is charged also when the completion then fails (for instance
    when no completion client is configured, which is answered 500):
    there is no refund.  No account, no other identifier's balance and
    no history changes. *)
Theorem anonymous_request_charged_one (env : Env) (req : Request) (mode : Mode)
    (w : World) :
  mode ≠ followup →
  prompt_valid req = true →
  caller env req = Anonymous →
  ∃ resp w',
    handlePromptImprovement env req mode w = (resp, w')
    ∧ users w' = users w
    ∧ prompts w' = prompts w
    ∧ (∀ ip', ip' ≠ getClientIP req →
              anonymousCredits w' !! ip' = anonymousCredits w !! ip')
    ∧ if peek (getClientIP req) w <=? 0 then
        resp = no_credits_anonymous (peek (getClientIP req) w)
        ∧ anonymousCredits w' !! getClientIP req = Some (peek (getClientIP req) w)
      else
        admitted resp
        ∧ anonymousCredits w' !! getClientIP req
          = Some (peek (getClientIP req) w - 1)
        ∧ (openai env = None → status resp = 500).
Proof.
  intros Hmode Hv Hcaller.
  rewrite (anonymous_run env req mode w Hmode Hv Hcaller). cbv zeta.
  set (ip := getClientIP req).
  destruct (peek ip w <=? 0).
  - eexists _, _. split; [reflexivity|].
    split; [apply after_get_frame|]. split; [apply after_get_frame|].
    split; [intros ip' Hne; by apply after_get_lookup_ne|].
    split; [reflexivity|apply after_get_lookup].
  - match goal with |- context [run_handler ?h ?w0] =>
      destruct (complete_and_reply_history env req mode None None true
                  (peek ip w - 1) w0 Hv)
        as (resp & w' & Hrun & Hu & Hp & _ & Hcase)
    end.
    exists resp, w'. split; [exact Hrun|].
    split; [rewrite Hu; cbn [users set_anonymousCredits add_event];
            by rewrite !(proj1 (after_get_frame _ _))|].
    split.
    { destruct Hcase as [(_ & -> & _)|(out & _ & _ & ->)];
        cbn [prompts set_anonymousCredits add_event negb andb];
        rewrite ?app_nil_r;
        by rewrite !(proj1 (proj2 (after_get_frame _ _))). }
    split.
    { intros ip' Hne. rewrite Hp.
      cbn [anonymousCredits set_anonymousCredits add_event].
      rewrite lookup_insert_ne by done.
      by rewrite !after_get_lookup_ne. }
    split; [|split].
    + destruct Hcase as [(Hst & _)|(out & -> & _)]; [by right|by left].
    + rewrite Hp. cbn [anonymousCredits set_anonymousCredits add_event].
      apply lookup_insert_eq.
    + intros Hnone. revert Hrun. unfold complete_and_reply. rewrite Hnone.
      by intros [= <- _].
Qed.

Lemma anonymous_request_charged_one_witness :
  ∃ resp w',
    handlePromptImprovement (mkEnv (supabase_auth_getUser Sample.env) None)
      (Sample.request None) improve Sample.world = (resp, w')
    ∧ status resp = 500
    ∧ anonymousCredits w' !! Sample.client_ip = Some (5 - 1).
Proof.
  destruct (anonymous_request_charged_one
              (mkEnv (supabase_auth_getUser Sample.env) None)
              (Sample.request None) improve Sample.world)
    as (resp & w' & Hrun & _ & _ & _ & Hcase);
    [discriminate | reflexivity | reflexivity |].
  change (peek (getClientIP (Sample.request None)) Sample.world) with 5 in Hcase.
  cbn in Hcase. destruct Hcase as (_ & Hpool & H500).
  exists resp, w'. exact (conj Hrun (conj (H500 eq_refl) Hpool)).
Defined.

(** X8. A follow-up request never changes a balance, whatever the
    request: no account row and no anonymous balance differs
    afterwards.  (Follow-up is served to Pro accounts only, and those
    skip the reservation, so its price of 2 credits is never charged.) *)
Theorem followup_never_charges (env : Env) (req : Request) (w : World) :
  users (snd (handlePromptImprovement env req followup w)) = users w
  ∧ anonymousCredits (snd (handlePromptImprovement env req followup w))
    = anonymousCredits w.
Proof.
  rewrite followup_run.
  destruct (negb (prompt_valid req)); [done|].
  destruct (request_token req) as [tok|]; [|done].
  destruct (Js.truthy tok); [|done].
  destruct (supabase_auth_getUser env tok) as [user|]; [|done].
  destruct (Js.truthy (auth_id user)); [|done].
  cbv zeta. destruct (pro_of (users w !! auth_id user)); [|done].
  match goal with |- context [run_handler ?h ?w0] =>
    destruct (complete_and_reply_spec env req followup (Some (auth_id user))
                (Some tok) false (-1) w0)
      as (resp & w' & evs & Hrun & Hu & Hp & _)
  end.
  rewrite Hrun. cbn [snd]. by rewrite Hu, Hp.
Qed.

Lemma anonymous_request_gate (env : Env) (req : Request) (mode : Mode)
    (w : World) :
  mode ≠ followup →
  prompt_valid req = true →
  caller env req = Anonymous →
  ∃ resp w',
    handlePromptImprovement env req mode w = (resp, w')
    ∧ if peek (getClientIP req) w <=? 0 then
        resp = no_credits_anonymous (peek (getClientIP req) w)
        ∧ anonymousCredits w' !! getClientIP req = Some (peek (getClientIP req) w)
      else
        admitted resp
        ∧ anonymousCredits w' !! getClientIP req
          = Some (peek (getClientIP req) w - 1).
Proof.
  intros Hmode Hv Hcaller.
  rewrite (anonymous_run env req mode w Hmode Hv Hcaller). cbv zeta.
  set (ip := getClientIP req).
  destruct (peek ip w <=? 0).
  - eexists _, _. split; [reflexivity|].
    split; [reflexivity|apply after_get_lookup].
  - match goal with |- context [run_handler ?h ?w0] =>
      destruct (complete_and_reply_history env req mode None None true
                  (peek ip w - 1) w0 Hv)
        as (resp & w' & Hrun & _ & Hp & _ & Hcase)
    end.
    exists resp, w'. split; [exact Hrun|]. split.
    + destruct Hcase as [(Hst & _)|(out & -> & _)]; [by right|by left].
    + rewrite Hp. cbn [anonymousCredits set_anonymousCredits add_event].
      apply lookup_insert_eq.
Qed.

Lemma serve_anonymous (env : Env) (ip : string) (reqs : list (Request * Mode)) :
  Forall (anonymous_from env ip) reqs →
  ∀ (w : World) (k : nat) (resp : Response),
    fst (serve env reqs w) !! k = Some resp →
    if decide (Z.of_nat k < peek ip w) then admitted resp else status resp = 402.
Proof.
  induction 1 as [|[req mode] rest (Hmode & Hv & Hcaller & Hip) Hrest IH];
    intros w k resp; [done|].
  cbn [serve]. cbn in Hmode, Hv, Hcaller, Hip.
  destruct (anonymous_request_gate env req mode w Hmode Hv Hcaller)
    as (r0 & w1 & Hrun & Hcase).
  rewrite Hip in Hcase. rewrite Hrun.
  specialize (IH w1). destruct (serve env rest w1) as [resps w2]. cbn [fst] in *.
  assert (Hpeek1 : peek ip w1 = if peek ip w <=? 0 then peek ip w else peek ip w - 1).
  { unfold peek at 1. destruct (peek ip w <=? 0);
      destruct Hcase as (_ & ->); done. }
  destruct k as [|k]; cbn.
  - intros [= <-]. destruct (peek ip w <=? 0) eqn:E.
    + apply Z.leb_le in E. destruct Hcase as [-> _].
      destruct (decide _); [lia|done].
    + apply Z.leb_gt in E. destruct Hcase as [Hadm _].
      destruct (decide _); [done|lia].
  - intros Hk. specialize (IH k resp Hk). rewrite Hpeek1 in IH.
    destruct (peek ip w <=? 0) eqn:E;
      [apply Z.leb_le in E|apply Z.leb_gt in E];
      destruct (decide (Z.of_nat k < _)), (decide (Z.of_nat (S k) < _));
      try done; lia.
Qed.

(** X9. The anonymous allowance is five requests per client
    identifier: of any sequence of anonymous improve and refine
    requests with valid prompts that come from one identifier the
    server has not seen before, the first five are admitted (each is
    answered 200, or 500 if its completion fails) and every later one
    is answered 402; failed completions count against the five. *)
Theorem anonymous_allowance_is_five (env : Env) (ip : string)
    (reqs : list (Request * Mode)) (w : World) (k : nat) (resp : Response) :
  Forall (anonymous_from env ip) reqs →
  anonymousCredits w !! ip = None →
  fst (serve env reqs w) !! k = Some resp →
  if decide (k < 5)%nat then admitted resp else status resp = 402.
Proof.
  intros Hreqs Hnew Hk.
  pose proof (serve_anonymous env ip reqs Hreqs w k resp Hk) as H.
  unfold peek in H. rewrite Hnew in H. cbn in H. unfold ANONYMOUS_FREE_CREDITS in H.
  destruct (decide (Z.of_nat k < 5)), (decide (k < 5)%nat); try done; lia.
Qed.

Lemma anonymous_allowance_is_five_witness :
  status
    (default (mkResponse 0 (JsonError "" None None))
       (fst (serve Sample.env (replicate 7 (Sample.request None, improve))
               Sample.world) !! 5%nat)) = 402.
Proof.
  assert (Hk : fst (serve Sample.env (replicate 7 (Sample.request None, improve))
                      Sample.world) !! 5%nat
               = Some (no_credits_anonymous 0)) by (vm_compute; reflexivity).
  pose proof (anonymous_allowance_is_five Sample.env Sample.client_ip
                (replicate 7 (Sample.request None, improve)) Sample.world 5
                (no_credits_anonymous 0)) as H.
  rewrite Hk. apply H; [|reflexivity|exact Hk].
  apply Forall_replicate. repeat split. discriminate.
Defined.

Lemma after_reset_lookup_other (uid uid' : string) (w : World) :
  uid' ≠ uid → users (after_reset uid w) !! uid' = users w !! uid'.
Proof. intros Hne. by apply after_reset_lookup_ne. Qed.



(** X11. An improve or refine request of an account that is not Pro
    whose balance after the window roll-over is below 1 is answered 402
    with that balance as [creditsRemaining]; the bonus credits and the
    rows of all other accounts are untouched, the only change being the
    roll-over of an expired window.  The answer is given before the
    completion client is consulted. *)
Theorem free_account_request_refused (env : Env) (req : Request)
    (mode : Mode) (w : World) (tok : string) (user : AuthUser) (row : UserRow) :
  mode ≠ followup →
  prompt_valid req = true →
  caller env req = Account tok user →
  Js.truthy (auth_id user) = true →
  users w !! auth_id user = Some row →
  pro_of (Some row) = false →
  available (row_after_reset (clock w) row) < 1 →
  ∃ w',
    handlePromptImprovement env req mode w
    = (no_credits_free (available (row_after_reset (clock w) row)), w')
    ∧ users w' !! auth_id user = Some (row_after_reset (clock w) row)
    ∧ credits (row_after_reset (clock w) row) = credits row
    ∧ (∀ uid', uid' ≠ auth_id user → users w' !! uid' = users w !! uid')
    ∧ anonymousCredits w' = anonymousCredits w
    ∧ prompts w' = prompts w.
Proof.
  intros Hmode Hv Hcaller Hu Hrow Hpro Hav.
  rewrite (free_account_run env req mode w tok user row Hmode Hv Hcaller Hu Hrow Hpro).
  cbv zeta.
  assert (Hcost : creditCosts mode = 1) by (by destruct mode).
  rewrite Hcost. rewrite (proj2 (Z.ltb_lt _ 1)) by lia.
  eexists. split; [reflexivity|].
  cbn [users add_event anonymousCredits prompts].
  split; [exact (after_reset_lookup (auth_id user)
                   (add_event (EvSelect (auth_id user) [col_is_pro]) w) row Hrow)|].
  split; [unfold row_after_reset; by destruct (expired _ _)|].
  split; [intros uid' Hne; by rewrite after_reset_lookup_other|].
  split; by rewrite ?(proj1 (after_reset_frame _ _)),
                    ?(proj1 (proj2 (after_reset_frame _ _))).
Qed.

Lemma free_account_request_refused_witness :
  ∃ w',
    handlePromptImprovement Sample.env (Sample.request (Some Sample.last_token))
      improve
      (set_users (insert Sample.last_uid
                    (mkUserRow (Some "e@example.org") (Some false) (Some 0)
                       (Some 3) (Some 1000) (Some true))) Sample.world)
    = (no_credits_free 0, w')
    ∧ users w' !! Sample.last_uid
      = Some (mkUserRow (Some "e@example.org") (Some false) (Some 0) (Some 3)
                (Some 1000) (Some true)).
Proof.
  destruct (free_account_request_refused Sample.env
              (Sample.request (Some Sample.last_token)) improve
              (set_users (insert Sample.last_uid
                            (mkUserRow (Some "e@example.org") (Some false) (Some 0)
                               (Some 3) (Some 1000) (Some true))) Sample.world)
              Sample.last_token (mkAuthUser Sample.last_uid (Some "e@example.org"))
              (mkUserRow (Some "e@example.org") (Some false) (Some 0) (Some 3)
                 (Some 1000) (Some true)))
    as (w' & Hrun & Hrow & _);
    [discriminate | reflexivity | reflexivity | reflexivity | reflexivity
    | reflexivity | vm_compute; reflexivity |].
  exists w'. exact (conj Hrun Hrow).
Defined.

(** ** Prompt requests: history and invariants *)

Lemma getUserProStatus_users (c : option Client) (uid : string) (w : World) :
  users (snd (getUserProStatus c uid w)) = users w.
Proof.
  unfold getUserProStatus. destruct c; [|done].
  destruct (negb _); [done|]. msimpl. unfold users_select_single.
  destruct (users w !! uid); done.
Qed.

Lemma getUserCreditInfo_users (c : option Client) (uid : string) (w : World) :
  users (snd (getUserCreditInfo c uid w)) = users w.
Proof.
  unfold getUserCreditInfo. destruct c; [|done].
  destruct (negb _); [done|]. msimpl. unfold users_select_single.
  destruct (users w !! uid); done.
Qed.

Lemma getUserProStatus_ok_true (c : option Client) (uid : string) (w w1 : World) :
  getUserProStatus c uid w = (Ok true, w1) → Js.truthy uid = true.
Proof.
  unfold getUserProStatus. destruct c; [|discriminate].
  by destruct (Js.truthy uid).
Qed.

Lemma handler_frame_local (uid : string) (w w' : World) :
  touches_only uid w w' → (ledger_inv w → ledger_inv w') →
  handler_frame uid [] w w'.
Proof.
  intros (Ha & _ & Hc & Hd & He) Hinv. unfold handler_frame.
  rewrite app_nil_r. done.
Qed.

Lemma handler_frame_trans (uid : string) (new : list PromptRow) (w1 w2 w3 : World) :
  handler_frame uid [] w1 w2 → handler_frame uid new w2 w3 →
  handler_frame uid new w1 w3.
Proof.
  intros (Ha & Hb & Hc & Hd & He) (Ha' & Hb' & Hc' & Hd' & He').
  rewrite app_nil_r in He. unfold handler_frame.
  split; [by rewrite Ha', Ha|].
  split; [intros uid' Hne; by rewrite Hb', Hb|].
  split; [auto|]. split; [by rewrite Hd', Hd|by rewrite He', He].
Qed.

Lemma complete_and_reply_frame (env : Env) (req : Request) (mode : Mode)
    (uid tok : string) (remaining : Z) (w : World) (resp : Response) (w' : World) :
  prompt_valid req = true →
  Js.truthy uid = true →
  run_handler (complete_and_reply env req mode (Some uid) (Some tok) false remaining) w
  = (resp, w') →
  ∃ new,
    handler_frame uid new w w'
    ∧ (status resp ≠ 200 → new = [])
    ∧ (∀ out cr, resp = mkResponse 200 (JsonSuccess out cr) →
                 new = [history_row req uid out (clock w)]).
Proof.
  intros Hv Hu Hrun.
  destruct (complete_and_reply_history env req mode (Some uid) (Some tok) false
              remaining w Hv)
    as (resp0 & w0 & Hrun0 & Hus & Hp & Hc & Hcase).
  rewrite Hrun in Hrun0. injection Hrun0 as <- <-.
  cbn [negb andb Js.non_null Js.truthy_opt default from_option id] in Hcase.
  rewrite Hu in Hcase.
  destruct Hcase as [(Hst & Hpr & _)|(out & -> & _ & Hpr)].
  - exists []. split; [|split; [done|]].
    + unfold handler_frame. rewrite app_nil_r.
      split; [done|]. split; [by intros; rewrite Hus|].
      split; [intros Hinv; by apply (ledger_inv_same w)|done].
    + intros out cr ->. cbn in Hst. lia.
  - eexists. split; [|split].
    + unfold handler_frame. split; [done|]. split; [by intros; rewrite Hus|].
      split; [intros Hinv; by apply (ledger_inv_same w)|]. split; [done|exact Hpr].
    + cbn. lia.
    + by intros out' cr [= <- _].
Qed.

Lemma account_outcome_facts (env : Env) (req : Request) (mode : Mode)
    (tok uid : string) (w : World) (resp : Response) (w' : World) :
  prompt_valid req = true →
  account_outcome env req mode tok uid w = (resp, w') →
  ∃ new,
    handler_frame uid new w w'
    ∧ (status resp ≠ 200 → new = [])
    ∧ (∀ out cr, resp = mkResponse 200 (JsonSuccess out cr) →
                 new = [history_row req uid out (clock w)]).
Proof.
  intros Hv. unfold account_outcome.
  pose proof (getUserProStatus_local (Some tok) uid w) as Hl1.
  pose proof (getUserProStatus_users (Some tok) uid w) as Hu1.
  destruct (getUserProStatus (Some tok) uid w) as [r w1] eqn:Hpro. cbn in Hl1, Hu1.
  assert (F1 : handler_frame uid [] w w1).
  { apply handler_frame_local; [done|]. intros Hinv. by apply (ledger_inv_same w). }
  assert (Hclock1 : clock w1 = clock w) by apply F1.
  assert (Hdone : ∀ (P : Prop) w0 rem,
            handler_frame uid [] w w0 → clock w0 = clock w →
            Js.truthy uid = true →
            run_handler (complete_and_reply env req mode (Some uid) (Some tok)
                           false rem) w0 = (resp, w') →
            ∃ new,
              handler_frame uid new w w'
              ∧ (status resp ≠ 200 → new = [])
              ∧ (∀ out cr, resp = mkResponse 200 (JsonSuccess out cr) →
                           new = [history_row req uid out (clock w)])).
  { intros _ w0 rem F0 Hc0 Hu Hrun.
    destruct (complete_and_reply_frame env req mode uid tok rem w0 resp w' Hv Hu Hrun)
      as (new & Fn & Hn1 & Hn2).
    exists new. split; [by apply (handler_frame_trans uid new w w0 w')|].
    split; [done|]. rewrite <- Hc0. done. }
  assert (Hstop : ∀ w0 r0,
            handler_frame uid [] w w0 → status r0 ≠ 200 →
            (r0, w0) = (resp, w') →
            ∃ new,
              handler_frame uid new w w'
              ∧ (status resp ≠ 200 → new = [])
              ∧ (∀ out cr, resp = mkResponse 200 (JsonSuccess out cr) →
                           new = [history_row req uid out (clock w)])).
  { intros w0 r0 F0 Hst [= <- <-]. exists []. split; [done|]. split; [done|].
    intros out cr ->. by cbn in Hst. }
  destruct r as [[|]|msg].
  - apply (Hdone True w1 (-1) F1 Hclock1).
    by apply (getUserProStatus_ok_true _ _ _ _ Hpro).
  - pose proof (resetDailyCreditsIfNeeded_local (Some tok) uid w1) as Hl2.
    pose proof (resetDailyCreditsIfNeeded_inv (Some tok) uid w1) as Hi2.
    destruct (resetDailyCreditsIfNeeded (Some tok) uid w1) as [[b2|m2] w2];
      cbn in Hl2, Hi2;
      pose proof (handler_frame_trans uid [] w w1 w2 F1
                    (handler_frame_local uid w1 w2 Hl2 Hi2)) as F2;
      [|apply (Hstop w2 _ F2); cbn; lia].
    pose proof (getUserCreditInfo_local (Some tok) uid w2) as Hl3.
    pose proof (getUserCreditInfo_users (Some tok) uid w2) as Hu3.
    destruct (getUserCreditInfo (Some tok) uid w2) as [[info|m3] w3];
      cbn in Hl3, Hu3;
      assert (F3 : handler_frame uid [] w w3)
        by (apply (handler_frame_trans uid [] w w2 w3 F2);
            apply handler_frame_local; [done|];
            intros Hinv; by apply (ledger_inv_same w2));
      [|apply (Hstop w3 _ F3); cbn; lia].
    cbv zeta. destruct (_ <? _); [apply (Hstop w3 _ F3); cbn; lia|].
    pose proof (deductFreeUserCredits_local (Some tok) uid (creditCosts mode)
                  (Some tok) w3) as Hl4.
    pose proof (deductFreeUserCredits_inv (Some tok) uid (creditCosts mode)
                  (Some tok) w3) as Hi4.
    destruct (deductFreeUserCredits (Some tok) uid (creditCosts mode) (Some tok) w3)
      as [[res|msg] w4] eqn:Hded; cbn in Hl4, Hi4;
      pose proof (handler_frame_trans uid [] w w3 w4 F3
                    (handler_frame_local uid w3 w4 Hl4 Hi4)) as F4.
    + apply (Hdone True w4 (remainingCredits res) F4); [apply F4|].
      apply (deductFreeUserCredits_ok_args _ _ _ _ _ _ _ Hded).
    + apply (Hstop w4 _ F4). destruct (String.eqb _ _); cbn; lia.
  - pose proof (resetDailyCreditsIfNeeded_local (Some tok) uid w1) as Hl2.
    pose proof (resetDailyCreditsIfNeeded_inv (Some tok) uid w1) as Hi2.
    destruct (resetDailyCreditsIfNeeded (Some tok) uid w1) as [[b2|m2] w2];
      cbn in Hl2, Hi2;
      pose proof (handler_frame_trans uid [] w w1 w2 F1
                    (handler_frame_local uid w1 w2 Hl2 Hi2)) as F2;
      [|apply (Hstop w2 _ F2); cbn; lia].
    pose proof (getUserCreditInfo_local (Some tok) uid w2) as Hl3.
    pose proof (getUserCreditInfo_users (Some tok) uid w2) as Hu3.
    destruct (getUserCreditInfo (Some tok) uid w2) as [[info|m3] w3];
      cbn in Hl3, Hu3;
      assert (F3 : handler_frame uid [] w w3)
        by (apply (handler_frame_trans uid [] w w2 w3 F2);
            apply handler_frame_local; [done|];
            intros Hinv; by apply (ledger_inv_same w2));
      [|apply (Hstop w3 _ F3); cbn; lia].
    cbv zeta. destruct (_ <? _); [apply (Hstop w3 _ F3); cbn; lia|].
    pose proof (deductFreeUserCredits_local (Some tok) uid (creditCosts mode)
                  (Some tok) w3) as Hl4.
    pose proof (deductFreeUserCredits_inv (Some tok) uid (creditCosts mode)
                  (Some tok) w3) as Hi4.
    destruct (deductFreeUserCredits (Some tok) uid (creditCosts mode) (Some tok) w3)
      as [[res|msg'] w4] eqn:Hded; cbn in Hl4, Hi4;
      pose proof (handler_frame_trans uid [] w w3 w4 F3
                    (handler_frame_local uid w3 w4 Hl4 Hi4)) as F4.
    + apply (Hdone True w4 (remainingCredits res) F4); [apply F4|].
      apply (deductFreeUserCredits_ok_args _ _ _ _ _ _ _ Hded).
    + apply (Hstop w4 _ F4). destruct (String.eqb _ _); cbn; lia.
Qed.

Lemma pool_inv_after_get (ip : string) (w : World) :
  pool_inv w → pool_inv (after_get ip w) ∧ 0 ≤ peek ip w.
Proof.
  intros Hinv. split.
  - intros ip' v. destruct (decide (ip' = ip)) as [->|Hne].
    + rewrite after_get_lookup. intros [= <-]. unfold peek.
      destruct (anonymousCredits w !! ip) as [v|] eqn:E; cbn;
        [by apply (Hinv ip)|unfold ANONYMOUS_FREE_CREDITS; lia].
    + rewrite after_get_lookup_ne by done. apply Hinv.
  - unfold peek. destruct (anonymousCredits w !! ip) as [v|] eqn:E; cbn;
      [by apply (Hinv ip)|unfold ANONYMOUS_FREE_CREDITS; lia].
Qed.

Lemma anonymous_outcome_facts (env : Env) (req : Request) (mode : Mode)
    (w : World) (resp : Response) (w' : World) :
  prompt_valid req = true →
  anonymous_outcome env req mode w = (resp, w') →
  users w' = users w
  ∧ prompts w' = prompts w
  ∧ (pool_inv w → pool_inv w').
Proof.
  intros Hv. unfold anonymous_outcome. cbv zeta.
  set (ip := getClientIP req).
  destruct (_ || _) eqn:E.
  - intros [= <- <-]. split; [apply after_get_frame|].
    split; [apply after_get_frame|]. intros Hinv. by apply pool_inv_after_get.
  - apply orb_false_iff in E as [E1 E2]. apply Z.leb_gt in E1. apply Z.ltb_ge in E2.
    match goal with |- context [run_handler ?h ?w0] =>
      destruct (complete_and_reply_history env req mode None None true
                  (peek ip w - creditCosts mode) w0 Hv)
        as (resp0 & w0' & Hrun & Hus & Hp & _ & Hcase)
    end.
    rewrite Hrun. intros [= <- <-].
    split; [rewrite Hus; cbn [users set_anonymousCredits add_event];
            by rewrite !(proj1 (after_get_frame _ _))|].
    split.
    + destruct Hcase as [(_ & -> & _)|(out & _ & _ & ->)];
        cbn [prompts set_anonymousCredits add_event negb andb];
        rewrite ?app_nil_r;
        by rewrite !(proj1 (proj2 (after_get_frame _ _))).
    + intros Hinv ip' v. rewrite Hp.
      cbn [anonymousCredits set_anonymousCredits add_event].
      destruct (decide (ip' = ip)) as [->|Hne].
      * rewrite lookup_insert_eq. intros [= <-]. lia.
      * rewrite lookup_insert_ne by (intros Heq; by apply Hne).
        rewrite !after_get_lookup_ne by done. apply Hinv.
Qed.

Lemma caller_account (env : Env) (req : Request) (tok : string) (user : AuthUser) :
  request_token req = Some tok → Js.truthy tok = true →
  supabase_auth_getUser env tok = Some user →
  caller env req = Account tok user.
Proof. intros Ht Htt Hg. unfold caller. by rewrite Ht, Htt, Hg. Qed.

(** Everything a prompt request may do to the state. *)
Lemma handler_facts (env : Env) (req : Request) (mode : Mode) (w : World)
    (resp : Response) (w' : World) :
  handlePromptImprovement env req mode w = (resp, w') →
  (ledger_inv w → ledger_inv w')
  ∧ (pool_inv w → pool_inv w')
  ∧ ∃ new,
      prompts w' = prompts w ++ new
      ∧ match caller env req with
        | Anonymous => new = []
        | Account tok user =>
            (status resp ≠ 200 → new = [])
            ∧ (∀ out cr, resp = mkResponse 200 (JsonSuccess out cr) →
                         new = [history_row req (auth_id user) out (clock w)])
        end.
Proof.
  assert (Hstay : ∀ st m, (deny st m, w) = (resp, w') → st ≠ 200 →
            (ledger_inv w → ledger_inv w')
            ∧ (pool_inv w → pool_inv w')
            ∧ ∃ new,
                prompts w' = prompts w ++ new
                ∧ match caller env req with
                  | Anonymous => new = []
                  | Account tok user =>
                      (status resp ≠ 200 → new = [])
                      ∧ (∀ out cr, resp = mkResponse 200 (JsonSuccess out cr) →
                                   new = [history_row req (auth_id user) out (clock w)])
                  end).
  { intros st m [= <- <-] Hst. split; [done|]. split; [done|].
    exists []. rewrite app_nil_r. split; [done|].
    destruct (caller env req); [done|]. split; [done|]. by intros out cr [= -> _]. }
  assert (Hmode : mode = followup ∨ mode ≠ followup)
    by (destruct mode; auto; right; discriminate).
  destruct Hmode as [->|Hmode].
  - rewrite followup_run.
    destruct (prompt_valid req) eqn:Hv; cbn [negb]; [|intros H; by eapply Hstay].
    unfold caller in *.
    destruct (request_token req) as [tok|]; [|intros H; by eapply Hstay].
    destruct (Js.truthy tok); [|intros H; by eapply Hstay].
    destruct (supabase_auth_getUser env tok) as [user|]; [|intros H; by eapply Hstay].
    destruct (Js.truthy (auth_id user)) eqn:Hu; [|intros H; by eapply Hstay].
    cbv zeta. destruct (pro_of (users w !! auth_id user)).
    + intros Hrun.
      destruct (complete_and_reply_frame env req followup (auth_id user) tok (-1)
                  _ resp w' Hv Hu Hrun) as (new & (Fa & Fb & Fc & Fd & Fe) & Hn1 & Hn2).
      split; [intros Hinv; apply Fc; by apply (ledger_inv_same w)|].
      split; [intros Hinv ip v; rewrite Fa; apply Hinv|].
      exists new. split; [exact Fe|]. split; [done|exact Hn2].
    + intros [= <- <-]. split; [done|]. split; [done|].
      exists []. rewrite app_nil_r. split; [done|]. split; [done|].
      by intros out cr [= -> _].
  - rewrite improve_refine_run by done.
    destruct (prompt_valid req) eqn:Hv; cbn [negb]; [|intros H; by eapply Hstay].
    destruct (caller env req) as [|tok user].
    + intros Hrun.
      destruct (anonymous_outcome_facts env req mode w resp w' Hv Hrun)
        as (Hus & Hp & Hpool).
      split; [intros Hinv; by apply (ledger_inv_same w)|]. split; [done|].
      exists []. by rewrite app_nil_r.
    + intros Hrun.
      destruct (account_outcome_facts env req mode tok (auth_id user) w resp w'
                  Hv Hrun) as (new & (Fa & Fb & Fc & Fd & Fe) & Hn1 & Hn2).
      split; [done|]. split; [intros Hinv ip v; rewrite Fa; apply Hinv|].
      exists new. done.
Qed.

(** X12. The prompt history is append-only and written for accounts
    only: a prompt request adds nothing for an anonymous caller and
    nothing unless it is answered 200; a request of an account that is
    answered 200 adds exactly one record, with the account id, the
    trimmed prompt, the returned output and the time of the request.
    Earlier records are never changed or removed. *)
Theorem history_is_append_only (env : Env) (req : Request) (mode : Mode)
    (w : World) (resp : Response) (w' : World) :
  handlePromptImprovement env req mode w = (resp, w') →
  ∃ new,
    prompts w' = prompts w ++ new
    ∧ match caller env req with
      | Anonymous => new = []
      | Account tok user =>
          (status resp ≠ 200 → new = [])
          ∧ (∀ out cr, resp = mkResponse 200 (JsonSuccess out cr) →
                       new = [history_row req (auth_id user) out (clock w)])
      end.
Proof. intros Hrun. by apply (handler_facts env req mode w resp w' Hrun). Qed.

Lemma history_is_append_only_witness :
  prompts (snd (handlePromptImprovement Sample.env
                  (Sample.request (Some Sample.token)) improve Sample.world))
  = [mkPromptRow Sample.uid "write a poem" (Some "Improved: write a poem") 500].
Proof.
  destruct (history_is_append_only Sample.env (Sample.request (Some Sample.token))
              improve Sample.world
              (mkResponse 200 (JsonSuccess "Improved: write a poem" 5))
              (snd (handlePromptImprovement Sample.env
                      (Sample.request (Some Sample.token)) improve Sample.world)))
    as (new & Hp & Hcase); [vm_compute; reflexivity|].
  change (caller Sample.env (Sample.request (Some Sample.token)))
    with (Account Sample.token (mkAuthUser Sample.uid (Some "a@example.org")))
    in Hcase.
  destruct Hcase as [_ Hnew]. rewrite Hp, (Hnew _ _ eq_refl). reflexivity.
Defined.

(** X13. Every prompt request keeps the balance invariants of the
    whole state: if all persisted rows have non-negative bonus credits
    and a daily counter between 0 and 3, and all anonymous balances are
    non-negative, the same holds after the request, whatever the
    request, the mode and the outcome. *)
Theorem prompt_request_keeps_invariants (env : Env) (req : Request)
    (mode : Mode) (w : World) :
  ledger_inv w → pool_inv w →
  ledger_inv (snd (handlePromptImprovement env req mode w))
  ∧ pool_inv (snd (handlePromptImprovement env req mode w)).
Proof.
  intros Hl Hp.
  destruct (handlePromptImprovement env req mode w) as [resp w'] eqn:Hrun.
  destruct (handler_facts env req mode w resp w' Hrun) as (H1 & H2 & _).
  cbn. auto.
Qed.

Lemma prompt_request_keeps_invariants_witness :
  ledger_inv (snd (handlePromptImprovement Sample.env
                     (Sample.request (Some Sample.token)) improve Sample.world))
  ∧ pool_inv (snd (handlePromptImprovement Sample.env
                     (Sample.request (Some Sample.token)) improve Sample.world)).
Proof.
  apply (prompt_request_keeps_invariants Sample.env
           (Sample.request (Some Sample.token)) improve Sample.world
           sample_world_inv).
  intros ip v Hlook. discriminate.
Defined.

(** X14. A caller with a valid token whose account has no row in
    [users] cannot use improve or refine: the balance check passes on
    the default of 3 daily credits, the deduction then finds no row to
    update, and the request is answered 500 "Failed to process
    credits".  No row, no anonymous balance and no prompt is written, so
    that a retry meets the same state. *)
Theorem account_without_row_cannot_improve (env : Env) (req : Request)
    (mode : Mode) (w : World) (tok : string) (user : AuthUser) :
  mode ≠ followup →
  prompt_valid req = true →
  caller env req = Account tok user →
  Js.truthy (auth_id user) = true →
  users w !! auth_id user = None →
  ∃ details w',
    handlePromptImprovement env req mode w
    = (mkResponse 500 (JsonError "Failed to process credits" None (Some details)), w')
    ∧ users w' = users w
    ∧ anonymousCredits w' = anonymousCredits w
    ∧ prompts w' = prompts w.
Proof.
  intros Hmode Hv Hcaller Hu Hrow.
  rewrite improve_refine_run, Hv, Hcaller by done. cbn [negb].
  unfold account_outcome. set (uid := auth_id user) in *.
  rewrite getUserProStatus_run by done. rewrite Hrow.
  assert (Hrow1 : users (add_event (EvSelect uid [col_is_pro]) w) !! uid = None)
    by exact Hrow.
  rewrite resetDailyCreditsIfNeeded_run by done.
  rewrite getUserCreditInfo_run by done.
  pose proof (after_reset_lookup_None uid _ Hrow1) as Hsame.
  cbn [users add_event] in Hsame.
  rewrite Hsame, Hrow. cbn [info_of dailyCreditsUsed info_credits]. cbv zeta.
  assert (Hcost : creditCosts mode = 1) by (by destruct mode).
  rewrite Hcost. change (DAILY_CREDITS - 0 + 0 <? 1) with false. cbv iota.
  match goal with |- context [deductFreeUserCredits _ _ _ _ ?w3] =>
    assert (Hrow3 : users w3 !! uid = None)
      by (cbn [users add_event]; by rewrite Hsame);
    destruct (deductFreeUserCredits_missing_run tok uid 1 (Some tok) w3 Hu Hrow3)
      as (w4 & Hded & Hus); [lia|];
    assert (Hframe : touches_only uid w3 w4)
      by (pose proof (deductFreeUserCredits_local (Some tok) uid 1 (Some tok) w3) as Hl;
          unfold Client in *; rewrite Hded in Hl; exact Hl)
  end.
  unfold Client in *. rewrite Hded.
  change (DAILY_CREDITS <? 1) with false. cbv iota.
  change (String.eqb ("Failed to deduct credits: " +:+ message PGRST116)
            "Insufficient credits") with false. cbv iota.
  eexists _, w4. split; [reflexivity|].
  destruct Hframe as (_ & _ & Hp & Hq & _).
  split; [rewrite Hus; cbn [users add_event]; exact Hsame|].
  split; [rewrite Hp; cbn [anonymousCredits add_event];
          apply (after_reset_frame uid (add_event (EvSelect uid [col_is_pro]) w))|].
  rewrite Hq. cbn [prompts add_event].
  apply (after_reset_frame uid (add_event (EvSelect uid [col_is_pro]) w)).
Qed.

Lemma account_without_row_cannot_improve_witness :
  ∃ details w',
    handlePromptImprovement
      (mkEnv (fun _ => Some (mkAuthUser "user-9" None)) (openai Sample.env))
      (Sample.request (Some "tok-9")) improve Sample.world
    = (mkResponse 500 (JsonError "Failed to process credits" None (Some details)), w')
    ∧ users w' = users Sample.world.
Proof.
  destruct (account_without_row_cannot_improve
              (mkEnv (fun _ => Some (mkAuthUser "user-9" None)) (openai Sample.env))
              (Sample.request (Some "tok-9")) improve Sample.world "tok-9"
              (mkAuthUser "user-9" None))
    as (details & w' & Hrun & Hus & _);
    [discriminate | reflexivity | reflexivity | reflexivity | reflexivity |].
  exists details, w'. exact (conj Hrun Hus).
Defined.

(** ** [GET /api/me] *)

Ltac me_tail :=
  unfold me_reply, me_credits, expired, row_is_pro, me_merge;
  cbn [is_pro email credits daily_credits_used daily_reset_at signup_bonus_given];
  rewrite run_handler_bind;
  match goal with |- context [is_pro ?r] => destruct (is_pro r) as [[|]|] end;
  reflexivity.

Lemma api_me_run (env : Env) (req : Request) (w : World) (h : string)
    (user : AuthUser) :
  headers_authorization req = Some h →
  Js.startsWith "Bearer " h = true →
  Js.truthy (bearer_of h) = true →
  supabase_auth_getUser env (bearer_of h) = Some user →
  api_me env req w = me_outcome (bearer_of h) user w.
Proof.
  intros Hh Hb Ht Hg. unfold api_me, me_outcome. rewrite Hh.
  assert (Hnonempty : Js.truthy h = true) by (by destruct h).
  cbn [Js.truthy_opt default from_option id]. rewrite Hnonempty, Hb.
  cbn [negb orb]. fold (bearer_of h).
  hbind. unfold call at 1. rewrite verifyUserFromToken_run by done. rewrite Hg.
  hbind. unfold call at 1, users_select_single.
  destruct (users w !! auth_id user) as [row|] eqn:Hrow; [|reflexivity].
  hbind. destruct (default false (signup_bonus_given row)) eqn:Hflag.
  - cbn [negb]. hsimpl. me_tail.
  - cbn [negb]. rewrite H_bind_run. unfold attempt at 1.
    unfold mbind at 1, M_bind.
    pose proof (grantSignupBonus_local (Some (bearer_of h)) (auth_id user)
                  (add_event (EvSelect (auth_id user) me_columns) w))
      as (_ & _ & _ & _ & Hclock).
    cbn [clock add_event] in Hclock. rewrite <- Hclock.
    destruct (grantSignupBonus (Some (bearer_of h)) (auth_id user) _)
      as [[[]|msg] w2]; cbn [snd]; [|hsimpl; me_tail].
    destruct (users w2 !! auth_id user) as [row2|] eqn:Hrow2; hsimpl; me_tail.
Qed.

Lemma api_me_user_run (env : Env) (req : Request) (w : World) (tok : string)
    (user : AuthUser) :
  me_user env req = Some (tok, user) →
  api_me env req w = me_outcome tok user w.
Proof.
  unfold me_user. intros Hme.
  destruct (headers_authorization req) as [h|] eqn:Hh; [|done].
  destruct (Js.startsWith "Bearer " h) eqn:Hb; [|done].
  destruct (Js.truthy (bearer_of h)) eqn:Ht; [|done].
  destruct (supabase_auth_getUser env (bearer_of h)) as [u|] eqn:Hg; [|done].
  cbn in Hme. injection Hme as <- <-. by apply (api_me_run env req w h).
Qed.

Lemma api_me_denied (env : Env) (req : Request) (w : World) :
  me_user env req = None →
  ∃ msg, api_me env req w = (deny 401 msg, w).
Proof.
  unfold me_user, api_me. intros Hme.
  destruct (headers_authorization req) as [h|] eqn:Hh;
    [|eexists; reflexivity].
  cbn [Js.truthy_opt default from_option id].
  destruct (Js.startsWith "Bearer " h) eqn:Hb;
    [|eexists; rewrite orb_true_r; reflexivity].
  assert (Hnonempty : Js.truthy h = true) by (by destruct h).
  rewrite Hnonempty. cbn [negb orb]. fold (bearer_of h).
  rewrite run_handler_bind. unfold call at 1, verifyUserFromToken.
  destruct (Js.truthy (bearer_of h)) eqn:Ht; [|eexists; reflexivity].
  cbn [andb negb] in *.
  destruct (supabase_auth_getUser env (bearer_of h)); [done|].
  eexists; reflexivity.
Qed.

Lemma me_outcome_status (tok : string) (user : AuthUser) (w : World) :
  status (fst (me_outcome tok user w)) = 200.
Proof.
  unfold me_outcome. cbv zeta.
  destruct (users w !! auth_id user); [|reflexivity].
  destruct (default false _); [reflexivity|].
  destruct (grantSignupBonus _ _ _) as [[[]|] ?]; reflexivity.
Qed.

(** X15. [GET /api/me] answers 401 exactly when the request carries no
    [Authorization] header of the form [Bearer <token>] whose token the
    identity provider accepts; every other request is answered 200.  A
    401 is given before the store is consulted: the state, including
    the trace of statements, is unchanged. *)
Theorem me_requires_valid_bearer (env : Env) (req : Request) (w : World) :
  (status (fst (api_me env req w)) = 401 ↔ me_user env req = None)
  ∧ (status (fst (api_me env req w)) = 200 ↔ is_Some (me_user env req))
  ∧ (status (fst (api_me env req w)) = 401 → snd (api_me env req w) = w).
Proof.
  destruct (me_user env req) as [[tok user]|] eqn:Hme.
  - rewrite (api_me_user_run env req w tok user Hme).
    pose proof (me_outcome_status tok user w) as Hst. rewrite Hst.
    repeat split; try done; by eexists.
  - destruct (api_me_denied env req w Hme) as (msg & ->). cbn.
    repeat split; try done; by intros [? ?].
Qed.

Lemma after_grant_users (uid : string) (w : World) :
  users (after_grant uid w)
  = match users w !! uid with
    | Some row =>
        if default false (signup_bonus_given row) then users w
        else <[uid := patch_bonus (default 0 (credits row) + SIGNUP_BONUS) row]>
               (users w)
    | None => users w
    end.
Proof.
  unfold after_grant, users_update. cbn [users add_event].
  destruct (users w !! uid) as [row|]; cbn;
    [destruct (default false (signup_bonus_given row))|]; reflexivity.
Qed.

Lemma after_grant_frame (uid : string) (w : World) :
  anonymousCredits (after_grant uid w) = anonymousCredits w
  ∧ prompts (after_grant uid w) = prompts w
  ∧ clock (after_grant uid w) = clock w.
Proof.
  unfold after_grant, users_update. cbn [users add_event].
  destruct (users w !! uid) as [row|]; cbn;
    [destruct (default false (signup_bonus_given row))|]; done.
Qed.

Lemma or_else_idem (a b : option string) :
  Js.or_else (Js.or_else a a) b = Js.or_else a b.
Proof. destruct a as [[|c s]|]; reflexivity. Qed.

Lemma me_reply_merge (now : Z) (e : option string) (row row2 : UserRow) :
  email row2 = email row →
  me_reply now e (me_merge row row2) = me_reply now e row2.
Proof.
  intros He. unfold me_reply, me_merge, me_credits, row_is_pro.
  cbn [email is_pro credits daily_credits_used daily_reset_at].
  by rewrite He, or_else_idem.
Qed.

Lemma me_outcome_granted (tok : string) (user : AuthUser) (w : World)
    (row : UserRow) :
  users w !! auth_id user = Some row →
  default false (signup_bonus_given row) = true →
  me_outcome tok user w
  = (me_reply (clock w) (auth_email user) row,
     add_event (EvSelect (auth_id user) me_columns) w).
Proof. intros Hrow Hflag. unfold me_outcome. cbv zeta. by rewrite Hrow, Hflag. Qed.

Lemma me_outcome_grants (tok : string) (user : AuthUser) (w : World)
    (row : UserRow) :
  Js.truthy (auth_id user) = true →
  users w !! auth_id user = Some row →
  default false (signup_bonus_given row) = false →
  me_outcome tok user w
  = (me_reply (clock w) (auth_email user)
       (patch_bonus (default 0 (credits row) + SIGNUP_BONUS) row),
     add_event (EvSelect (auth_id user) me_refresh_columns)
       (after_grant (auth_id user)
          (add_event (EvSelect (auth_id user) me_columns) w))).
Proof.
  intros Hu Hrow Hflag. unfold me_outcome. cbv zeta. rewrite Hrow, Hflag.
  pose proof (grantSignupBonus_run tok (auth_id user)
                (add_event (EvSelect (auth_id user) me_columns) w) Hu) as Hg.
  unfold Client in *. rewrite Hg.
  rewrite after_grant_users. cbn [users add_event]. rewrite Hrow, Hflag.
  rewrite lookup_insert_eq. by rewrite me_reply_merge.
Qed.

(** X16. The first [GET /api/me] of an account whose signup bonus has
    not been granted grants it: 10 is added to the bonus credits, the
    flag is set, no other column and no other row changes, and the
    reply already counts the bonus (for an account that is not Pro the
    reported balance is 10 higher than it would have been).  A second
    request is given the same reply and changes no row. *)
Theorem me_grants_signup_bonus_once (env : Env) (req : Request) (w : World)
    (tok : string) (user : AuthUser) (row : UserRow) :
  me_user env req = Some (tok, user) →
  Js.truthy (auth_id user) = true →
  users w !! auth_id user = Some row →
  default false (signup_bonus_given row) = false →
  let row' := patch_bonus (default 0 (credits row) + SIGNUP_BONUS) row in
  ∃ w1 w2,
    api_me env req w = (me_reply (clock w) (auth_email user) row', w1)
    ∧ users w1 = <[auth_id user := row']> (users w)
    ∧ (row_is_pro row = false →
       me_credits (clock w) row' = me_credits (clock w) row + SIGNUP_BONUS)
    ∧ api_me env req w1 = (me_reply (clock w) (auth_email user) row', w2)
    ∧ users w2 = users w1.
Proof.
  intros Hme Hu Hrow Hflag row'.
  rewrite (api_me_user_run env req w tok user Hme).
  rewrite (me_outcome_grants tok user w row Hu Hrow Hflag). fold row'.
  set (w1 := add_event (EvSelect (auth_id user) me_refresh_columns) _).
  assert (Hus : users w1 = <[auth_id user := row']> (users w)).
  { unfold w1. cbn [users add_event]. rewrite after_grant_users.
    cbn [users add_event]. by rewrite Hrow, Hflag. }
  assert (Hclock : clock w1 = clock w).
  { unfold w1. cbn [clock add_event].
    by rewrite (proj2 (proj2 (after_grant_frame _ _))). }
  exists w1, (add_event (EvSelect (auth_id user) me_columns) w1).
  split; [reflexivity|]. split; [exact Hus|]. split.
  { intros Hpro. unfold me_credits, row', row_is_pro in *.
    cbn [patch_bonus is_pro daily_reset_at daily_credits_used credits default
         from_option id].
    destruct (is_pro row) as [[|]|]; try done; unfold SIGNUP_BONUS; lia. }
  rewrite (api_me_user_run env req w1 tok user Hme).
  rewrite (me_outcome_granted tok user w1 row'), Hclock; [done| |done].
  rewrite Hus. apply lookup_insert_eq.
Qed.

Lemma me_grants_signup_bonus_once_witness :
  ∃ w1 w2,
    api_me Sample.env (Sample.me_request Sample.token)
      (set_users (insert Sample.uid Sample.fresh_row) Sample.world)
    = (mkResponse 200 (JsonMe (Some "b@example.org") "free" 13 13 false), w1)
    ∧ api_me Sample.env (Sample.me_request Sample.token) w1
      = (mkResponse 200 (JsonMe (Some "b@example.org") "free" 13 13 false), w2).
Proof.
  destruct (me_grants_signup_bonus_once Sample.env
              (Sample.me_request Sample.token)
              (set_users (insert Sample.uid Sample.fresh_row) Sample.world)
              Sample.token (mkAuthUser Sample.uid (Some "a@example.org"))
              Sample.fresh_row)
    as (w1 & w2 & H1 & _ & _ & H2 & _);
    [reflexivity | reflexivity | reflexivity | reflexivity |].
  exists w1, w2. split; [exact H1 | exact H2].
Defined.

Lemma grantSignupBonus_snd (c : option Client) (uid : string) (w : World) :
  snd (grantSignupBonus c uid w) = w
  ∨ snd (grantSignupBonus c uid w) = after_grant uid w.
Proof.
  destruct c as [c|]; [|by left].
  destruct (Js.truthy uid) eqn:Hu.
  - right. by rewrite grantSignupBonus_run.
  - left. unfold grantSignupBonus. by rewrite Hu.
Qed.

Lemma me_outcome_world (tok : string) (user : AuthUser) (w : World) :
  let w' := snd (me_outcome tok user w) in
  (users w' = users w ∨ users w' = users (after_grant (auth_id user) w))
  ∧ anonymousCredits w' = anonymousCredits w
  ∧ prompts w' = prompts w
  ∧ clock w' = clock w.
Proof.
  unfold me_outcome. cbv zeta.
  destruct (users w !! auth_id user) as [row|] eqn:Hrow; [|by split; [left|]].
  destruct (default false (signup_bonus_given row)); [by split; [left|]|].
  set (w1 := add_event (EvSelect (auth_id user) me_columns) w).
  assert (Hsame : after_grant (auth_id user) w1
                  = after_grant (auth_id user) w
                    ∨ users (after_grant (auth_id user) w1)
                      = users (after_grant (auth_id user) w)).
  { right. by rewrite !after_grant_users. }
  pose proof (after_grant_frame (auth_id user) w1) as (Hp & Hh & Hc).
  destruct (grantSignupBonus_snd (Some tok) (auth_id user) w1) as [Hw|Hw];
    destruct (grantSignupBonus (Some tok) (auth_id user) w1) as [[[]|msg] w2];
    cbn [snd] in *; subst w2; cbn [users anonymousCredits prompts clock add_event];
    rewrite ?Hp, ?Hh, ?Hc; (split; [|done]).
  all: try (by left).
  all: right; by rewrite !after_grant_users.
Qed.

(** X17. [GET /api/me] is a display of the ledger, not an operation on
    it, the signup bonus apart.  Whatever the request: no account row
    is created or removed; of an existing row the e-mail address, the
    Pro flag, the daily counter and the end of the daily window are
    never changed (an expired window is reported as a full allowance
    but the roll-over is not stored); the bonus credits and the flag
    are either unchanged or, when the flag was not set, raised by 10
    and set; the anonymous pool, the prompts and the clock are
    unchanged. *)
Theorem me_changes_only_signup_bonus (env : Env) (req : Request) (w : World) :
  let w' := snd (api_me env req w) in
  anonymousCredits w' = anonymousCredits w
  ∧ prompts w' = prompts w
  ∧ clock w' = clock w
  ∧ ∀ uid : string,
      match users w !! uid with
      | None => users w' !! uid = None
      | Some row =>
          ∃ row', users w' !! uid = Some row'
            ∧ email row' = email row
            ∧ is_pro row' = is_pro row
            ∧ daily_credits_used row' = daily_credits_used row
            ∧ daily_reset_at row' = daily_reset_at row
            ∧ ((credits row' = credits row
                ∧ signup_bonus_given row' = signup_bonus_given row)
               ∨ (default false (signup_bonus_given row) = false
                  ∧ credits row' = Some (default 0 (credits row) + SIGNUP_BONUS)
                  ∧ signup_bonus_given row' = Some true))
      end.
Proof.
  cbv zeta.
  assert (Hsame : ∀ w', users w' = users w →
            ∀ uid : string,
              match users w !! uid with
              | None => users w' !! uid = None
              | Some row =>
                  ∃ row', users w' !! uid = Some row'
                    ∧ email row' = email row
                    ∧ is_pro row' = is_pro row
                    ∧ daily_credits_used row' = daily_credits_used row
                    ∧ daily_reset_at row' = daily_reset_at row
                    ∧ ((credits row' = credits row
                        ∧ signup_bonus_given row' = signup_bonus_given row)
                       ∨ (default false (signup_bonus_given row) = false
                          ∧ credits row' = Some (default 0 (credits row) + SIGNUP_BONUS)
                          ∧ signup_bonus_given row' = Some true))
              end).
  { intros w' Hw' uid. rewrite Hw'.
    destruct (users w !! uid) as [row|]; [|done].
    exists row. repeat split; try done. by left. }
  destruct (me_user env req) as [[tok user]|] eqn:Hme.
  - rewrite (api_me_user_run env req w tok user Hme).
    destruct (me_outcome_world tok user w) as ([Hus|Hus] & Hp & Hh & Hc);
      (split; [exact Hp|]; split; [exact Hh|]; split; [exact Hc|]);
      [by apply Hsame|].
    intros uid. rewrite Hus, after_grant_users.
    destruct (users w !! auth_id user) as [row0|] eqn:Hrow0;
      [|by apply (Hsame w)].
    destruct (default false (signup_bonus_given row0)) eqn:Hflag;
      [by apply (Hsame w)|].
    destruct (decide (uid = auth_id user)) as [->|Hne].
    + rewrite Hrow0, lookup_insert_eq. eexists. split; [reflexivity|].
      repeat split; try done. right. by repeat split.
    + rewrite lookup_insert_ne by (intros Heq; by apply Hne).
      by apply (Hsame w).
  - destruct (api_me_denied env req w Hme) as (msg & ->). cbn [snd].
    repeat split; try done. by apply Hsame.
Qed.

Lemma free_account_gate (env : Env) (req : Request) (mode : Mode) (w : World)
    (tok : string) (user : AuthUser) (row : UserRow) :
  mode ≠ followup →
  prompt_valid req = true →
  caller env req = Account tok user →
  Js.truthy (auth_id user) = true →
  users w !! auth_id user = Some row →
  pro_of (Some row) = false →
  if available (row_after_reset (clock w) row) <? 1
  then fst (handlePromptImprovement env req mode w)
       = no_credits_free (available (row_after_reset (clock w) row))
  else admitted (fst (handlePromptImprovement env req mode w)).
Proof.
  intros Hmode Hv Hcaller Hu Hrow Hpro.
  rewrite (free_account_run env req mode w tok user row Hmode Hv Hcaller Hu Hrow Hpro).
  cbv zeta.
  assert (Hcost : creditCosts mode = 1) by (by destruct mode).
  rewrite Hcost.
  destruct (available _ <? 1); [reflexivity|].
  destruct (draw _ _ 1) as [[d nb] src].
  match goal with |- context [run_handler ?h ?w0] =>
    destruct (complete_and_reply_history env req mode (Some (auth_id user))
                (Some tok) false nb w0 Hv)
      as (resp & w' & Hrun & _ & _ & _ & Hcase)
  end.
  rewrite Hrun. cbn [fst].
  destruct Hcase as [(Hst & _)|(out & -> & _)]; [by right|by left].
Qed.

Lemma me_credits_available (now : Z) (row : UserRow) :
  row_is_pro row = false →
  default 0 (daily_credits_used row) ≤ DAILY_CREDITS →
  me_credits now row = available (row_after_reset now row).
Proof.
  intros Hpro Hused. unfold me_credits, available, row_after_reset.
  rewrite Hpro. destruct (expired now (daily_reset_at row)); cbn; lia.
Qed.

Lemma me_outcome_row (tok : string) (user : AuthUser) (w : World)
    (row : UserRow) :
  Js.truthy (auth_id user) = true →
  users w !! auth_id user = Some row →
  ∃ row1 w1,
    me_outcome tok user w = (me_reply (clock w) (auth_email user) row1, w1)
    ∧ users w1 !! auth_id user = Some row1
    ∧ clock w1 = clock w
    ∧ is_pro row1 = is_pro row
    ∧ daily_credits_used row1 = daily_credits_used row.
Proof.
  intros Hu Hrow.
  destruct (default false (signup_bonus_given row)) eqn:Hflag.
  - rewrite (me_outcome_granted tok user w row Hrow Hflag).
    by eexists _, _.
  - rewrite (me_outcome_grants tok user w row Hu Hrow Hflag).
    eexists _, _. split; [reflexivity|].
    cbn [users clock add_event]. rewrite after_grant_users.
    cbn [users add_event]. rewrite Hrow, Hflag, lookup_insert_eq.
    by rewrite (proj2 (proj2 (after_grant_frame _ _))).
Qed.

(** X18. What [GET /api/me] shows is what the gate of the prompt
    handler decides by.  For an account that is not Pro and whose
    stored daily counter does not exceed the allowance of 3, let [n] be
    the [credits_remaining] of a [GET /api/me]; an improve or refine
    request of that account that follows at the same time is answered
    402 exactly when [n < 1], the 402 reports the same [n], and the
    request is admitted (answered 200, or 500 when the completion
    fails) exactly when [n >= 1]. *)
Theorem me_balance_decides_admission (env : Env) (req_me req : Request)
    (mode : Mode) (w : World) (tok tok' : string) (user : AuthUser)
    (row : UserRow) :
  mode ≠ followup →
  prompt_valid req = true →
  me_user env req_me = Some (tok, user) →
  caller env req = Account tok' user →
  Js.truthy (auth_id user) = true →
  users w !! auth_id user = Some row →
  row_is_pro row = false →
  default 0 (daily_credits_used row) ≤ DAILY_CREDITS →
  ∃ e n w1,
    api_me env req_me w = (mkResponse 200 (JsonMe e "free" n n false), w1)
    ∧ (status (fst (handlePromptImprovement env req mode w1)) = 402 ↔ n < 1)
    ∧ (admitted (fst (handlePromptImprovement env req mode w1)) ↔ 1 ≤ n)
    ∧ (n < 1 →
       fst (handlePromptImprovement env req mode w1) = no_credits_free n).
Proof.
  intros Hmode Hv Hme Hcaller Hu Hrow Hpro Hused.
  rewrite (api_me_user_run env req_me w tok user Hme).
  destruct (me_outcome_row tok user w row Hu Hrow)
    as (row1 & w1 & -> & Hrow1 & Hclock & Hp1 & Hd1).
  assert (Hpro1 : row_is_pro row1 = false) by (unfold row_is_pro in *; by rewrite Hp1).
  assert (Hused1 : default 0 (daily_credits_used row1) ≤ DAILY_CREDITS)
    by (by rewrite Hd1).
  exists (Js.or_else (email row1) (auth_email user)), (me_credits (clock w) row1), w1.
  split; [unfold me_reply; by rewrite Hpro1|].
  pose proof (free_account_gate env req mode w1 tok' user row1
                Hmode Hv Hcaller Hu Hrow1 Hpro1) as Hgate.
  rewrite Hclock, <- (me_credits_available (clock w) row1 Hpro1 Hused1) in Hgate.
  destruct (me_credits (clock w) row1 <? 1) eqn:Hlt.
  - apply Z.ltb_lt in Hlt. rewrite Hgate. unfold admitted. cbn.
    repeat split; try done; try lia; intros [?|?]; done.
  - apply Z.ltb_ge in Hlt. unfold admitted in *.
    repeat split; try done; try lia;
      intros H402; destruct Hgate as [Hst|Hst]; rewrite Hst in H402; done.
Qed.

Lemma me_balance_decides_admission_witness :
  ∃ w1,
    api_me Sample.env (Sample.me_request Sample.last_token) Sample.world
    = (mkResponse 200 (JsonMe (Some "e@example.org") "free" 1 1 false), w1)
    ∧ admitted (fst (handlePromptImprovement Sample.env
                       (Sample.request (Some Sample.last_token)) improve w1)).
Proof.
  destruct (me_balance_decides_admission Sample.env
              (Sample.me_request Sample.last_token)
              (Sample.request (Some Sample.last_token)) improve Sample.world
              Sample.last_token Sample.last_token
              (mkAuthUser Sample.last_uid (Some "e@example.org")) Sample.last_row)
    as (e & n & w1 & Hme & _ & Hadm & _);
    [done | reflexivity | reflexivity | reflexivity | reflexivity | reflexivity
    | reflexivity | unfold DAILY_CREDITS; cbn; lia |].
  assert (Hf : fst (api_me Sample.env (Sample.me_request Sample.last_token)
                      Sample.world)
               = mkResponse 200 (JsonMe (Some "e@example.org") "free" 1 1 false))
    by (vm_compute; reflexivity).
  rewrite Hme in Hf. cbn [fst] in Hf. injection Hf as -> ->.
  exists w1. split; [exact Hme|]. apply Hadm. lia.
Defined.

(** ** [GET /api/pro/check] and [GET /extension-connect] *)

Lemma token_user_truthy (env : Env) (token : option string) (user : AuthUser) :
  token_user env token = Some user →
  ∃ tok, token = Some tok ∧ Js.truthy tok = true
         ∧ supabase_auth_getUser env tok = Some user.
Proof.
  unfold token_user. destruct token as [tok|]; [|done].
  destruct (Js.truthy tok) eqn:Ht; [|done]. intros Hg. by exists tok.
Qed.

Lemma api_pro_check_run (env : Env) (req : Request) (q : option string)
    (w : World) :
  api_pro_check env req q w
  = match token_user env (header_or_query_token req q) with
    | Some user =>
        if Js.truthy (auth_id user) then
          (mkProCheckResponse 200 (JsonIsPro (pro_of (users w !! auth_id user))),
           add_event (EvSelect (auth_id user) [col_is_pro]) w)
        else (mkProCheckResponse 500 (JsonProCheckError "User ID is required"), w)
    | None =>
        (mkProCheckResponse 401
           (JsonProCheckError
              (if Js.truthy_opt (header_or_query_token req q)
               then "Invalid or expired token" else "Missing access token")), w)
    end.
Proof.
  unfold api_pro_check, token_user. cbv zeta.
  destruct (header_or_query_token req q) as [tok|]; [|reflexivity].
  cbn [Js.truthy_opt default from_option id].
  destruct (Js.truthy tok) eqn:Ht; [|reflexivity]. cbn [negb].
  unfold mbind at 1, M_bind. rewrite verifyUserFromToken_run by done.
  destruct (supabase_auth_getUser env tok) as [user|]; [|reflexivity].
  destruct (Js.truthy (auth_id user)) eqn:Hu.
  - pose proof (getUserProStatus_run tok (auth_id user) w Hu) as Hp.
    unfold Client in *. rewrite Hp. reflexivity.
  - unfold getUserProStatus. rewrite Hu. reflexivity.
Qed.

Lemma extension_connect_run (env : Env) (req : Request) (q : option string)
    (w : World) :
  extension_connect env req q w
  = match token_user env (header_or_query_token req q) with
    | Some user =>
        if Js.truthy (auth_id user) then
          (if pro_of (users w !! auth_id user)
           then RedirectSuccess (default "" (header_or_query_token req q))
           else RedirectUpgrade,
           add_event (EvSelect (auth_id user) [col_is_pro]) w)
        else (RedirectAuth, w)
    | None => (RedirectAuth, w)
    end.
Proof.
  unfold extension_connect, token_user. cbv zeta.
  destruct (header_or_query_token req q) as [tok|]; [|reflexivity].
  cbn [Js.truthy_opt default from_option id].
  destruct (Js.truthy tok) eqn:Ht; [|reflexivity]. cbn [negb].
  rewrite verifyUserFromToken_run by done.
  destruct (supabase_auth_getUser env tok) as [user|]; [|reflexivity].
  destruct (Js.truthy (auth_id user)) eqn:Hu.
  - pose proof (getUserProStatus_run tok (auth_id user) w Hu) as Hp.
    unfold Client in *. rewrite Hp. unfold pro_of.
    destruct (users w !! auth_id user) as [row|]; [|reflexivity].
    destruct (is_pro row) as [[|]|]; reflexivity.
  - unfold getUserProStatus. rewrite Hu. reflexivity.
Qed.

(** X19. The three Pro gates agree.  For one access token that the
    identity provider accepts, [GET /api/pro/check] answers 200 with
    [isPro = b], [GET /extension-connect] redirects to the success page
    carrying that token when [b] holds and to the upgrade page when it
    does not, and a follow-up request with that token is refused with
    403 exactly when [b] does not hold and admitted when it does; [b]
    is the stored flag [is_pro === true] (false for an account without
    a row). *)
Theorem pro_gates_agree (env : Env) (req : Request) (q : option string)
    (req' : Request) (w : World) (tok : string) (user : AuthUser) :
  header_or_query_token req q = Some tok →
  request_token req' = Some tok →
  prompt_valid req' = true →
  token_user env (Some tok) = Some user →
  Js.truthy (auth_id user) = true →
  let b := pro_of (users w !! auth_id user) in
  fst (api_pro_check env req q w) = mkProCheckResponse 200 (JsonIsPro b)
  ∧ fst (extension_connect env req q w)
    = (if b then RedirectSuccess tok else RedirectUpgrade)
  ∧ (status (fst (handlePromptImprovement env req' followup w)) = 403
     ↔ b = false)
  ∧ (b = true → admitted (fst (handlePromptImprovement env req' followup w))).
Proof.
  intros Hq Hr Hv Htu Hu b.
  destruct (token_user_truthy env (Some tok) user Htu) as (tok0 & [= <-] & Ht & Hg).
  rewrite api_pro_check_run, extension_connect_run, Hq, Htu, Hu.
  split; [reflexivity|]. split; [reflexivity|].
  rewrite followup_run, Hv, Hr, Ht, Hg, Hu. cbn [negb]. cbv zeta. fold b.
  destruct b.
  - match goal with |- context [run_handler ?h ?w0] =>
      destruct (complete_and_reply_history env req' followup
                  (Some (auth_id user)) (Some tok) false (-1) w0 Hv)
        as (resp & w' & -> & _ & _ & _ & Hcase)
    end.
    cbn [fst].
    destruct Hcase as [(Hst & _)|(out & -> & _)]; unfold admitted.
    + rewrite Hst. split; [split; done|]. by right.
    + cbn. split; [split; done|]. by left.
  - cbn. split; [done|]. done.
Qed.

Lemma pro_gates_agree_witness :
  fst (api_pro_check Sample.env (Sample.me_request Sample.pro_token) None
         Sample.world)
  = mkProCheckResponse 200 (JsonIsPro true)
  ∧ fst (extension_connect Sample.env (Sample.me_request Sample.pro_token) None
           Sample.world)
    = RedirectSuccess Sample.pro_token
  ∧ admitted (fst (handlePromptImprovement Sample.env
                     (Sample.request (Some Sample.pro_token)) followup
                     Sample.world)).
Proof.
  destruct (pro_gates_agree Sample.env (Sample.me_request Sample.pro_token) None
              (Sample.request (Some Sample.pro_token)) Sample.world
              Sample.pro_token (mkAuthUser Sample.pro_uid (Some "c@example.org")))
    as (H1 & H2 & _ & H4);
    [reflexivity | reflexivity | reflexivity | reflexivity | reflexivity |].
  split; [exact H1|]. split; [exact H2|]. by apply H4.
Defined.

(** X20. [GET /extension-connect] hands the access token to the
    extension only for a Pro account: a redirect to the success page
    carries the very token the request presented, the identity provider
    accepts that token, and the account it belongs to has a row whose
    [is_pro] is [true]. *)
Theorem extension_token_only_for_pro (env : Env) (req : Request)
    (q : option string) (w : World) (tok : string) :
  fst (extension_connect env req q w) = RedirectSuccess tok →
  ∃ user row,
    header_or_query_token req q = Some tok
    ∧ supabase_auth_getUser env tok = Some user
    ∧ users w !! auth_id user = Some row
    ∧ is_pro row = Some true.
Proof.
  rewrite extension_connect_run.
  destruct (token_user env (header_or_query_token req q)) as [user|] eqn:Htu;
    [|done].
  destruct (token_user_truthy env _ user Htu) as (tok0 & Hq & Ht & Hg).
  destruct (Js.truthy (auth_id user)); [|done].
  unfold pro_of. destruct (users w !! auth_id user) as [row|] eqn:Hrow; [|done].
  destruct (is_pro row) as [[|]|] eqn:Hpro; try done.
  rewrite Hq. cbn. intros [= <-]. by exists user, row.
Qed.

Lemma extension_token_only_for_pro_witness :
  ∃ user row,
    header_or_query_token (Sample.me_request Sample.pro_token) None
    = Some Sample.pro_token
    ∧ supabase_auth_getUser Sample.env Sample.pro_token = Some user
    ∧ users Sample.world !! auth_id user = Some row
    ∧ is_pro row = Some true.
Proof.
  apply (extension_token_only_for_pro Sample.env
           (Sample.me_request Sample.pro_token) None Sample.world
           Sample.pro_token).
  reflexivity.
Defined.

(** X21. [GET /api/pro/check] and [GET /extension-connect] only read.
    Whatever the request, neither changes an account row, the anonymous
    pool, the prompts or the clock, and both leave the same trace.  A
    request without a token that the identity provider accepts is
    answered 401, respectively sent to the login page, before the store
    is consulted. *)
Theorem pro_endpoints_read_only (env : Env) (req : Request)
    (q : option string) (w : World) :
  let w1 := snd (api_pro_check env req q w) in
  users w1 = users w
  ∧ anonymousCredits w1 = anonymousCredits w
  ∧ prompts w1 = prompts w
  ∧ clock w1 = clock w
  ∧ snd (extension_connect env req q w) = w1
  ∧ match token_user env (header_or_query_token req q) with
    | Some _ => True
    | None =>
        w1 = w
        ∧ pro_check_status (fst (api_pro_check env req q w)) = 401
        ∧ fst (extension_connect env req q w) = RedirectAuth
    end.
Proof.
  cbv zeta. rewrite api_pro_check_run, extension_connect_run.
  destruct (token_user env (header_or_query_token req q)) as [user|]; [|done].
  destruct (Js.truthy (auth_id user)); done.
Qed.

(** ** The earlier single-balance ledger *)

Lemma getUserCredits_run (c : Client) (uid : string) (w : World) :
  Js.truthy uid = true →
  getUserCredits (Some c) uid w
  = (Ok (info_credits (info_of (users w !! uid))),
     add_event (EvSelect uid [col_credits]) w).
Proof.
  intros Hu. unfold getUserCredits. rewrite Hu. cbn [negb].
  msimpl. unfold users_select_single.
  destruct (users w !! uid) as [row|]; reflexivity.
Qed.

Lemma getUserCredits_local (c : option Client) (uid : string) :
  account_local uid (getUserCredits c uid).
Proof.
  unfold getUserCredits. destruct c; [|local_step].
  destruct (negb _); [local_step|]. local_step; [local_step|].
  destruct a as [row|e]; [local_step|]. destruct (String.eqb _ _); local_step.
Qed.

Lemma deductCredits_local (c : option Client) (uid : string) (amount : Z)
    (tok : option string) :
  account_local uid (deductCredits c uid amount tok).
Proof.
  unfold deductCredits. destruct c; [|local_step].
  destruct (negb _); [local_step|]. destruct (amount <=? 0); [local_step|].
  local_step; [apply getUserCredits_local|].
  destruct (a <? amount); [local_step|]. cbv zeta.
  local_step; [local_step|].
  destruct a0 as [row|e]; [local_step|]. destruct (_ || _)%bool; local_step.
Qed.

(** X22. The earlier single-balance deduction [deductCredits] draws on
    the bonus credits only.  With [bal] the stored bonus credits (0 for
    a missing row or a null column), a call succeeds exactly when
    [0 < amount <= bal]; it then stores and returns [bal - amount],
    which is not negative, and changes no other column, so the daily
    allowance is neither used nor required.  Every other call throws
    ("Deduction amount must be positive" or "Insufficient credits") and
    changes no row.  In both cases no other account, no anonymous
    balance and no prompt is touched. *)
Theorem deduct_credits_draws_bonus_only (c : Client) (uid : string)
    (amount : Z) (tok : option string) (w : World) :
  Js.truthy uid = true →
  let bal := info_credits (info_of (users w !! uid)) in
  ∃ r w',
    deductCredits (Some c) uid amount tok w = (r, w')
    ∧ touches_only uid w w'
    ∧ if (0 <? amount) && (amount <=? bal)
      then r = Ok (bal - amount)
           ∧ 0 ≤ bal - amount
           ∧ ∃ row, users w !! uid = Some row
                    ∧ users w' !! uid = Some (patch_credits (bal - amount) row)
      else users w' = users w
           ∧ r = Throw (if amount <=? 0 then "Deduction amount must be positive"
                        else "Insufficient credits").
Proof.
  intros Hu bal.
  pose proof (deductCredits_local (Some c) uid amount tok w) as Hlocal.
  destruct (deductCredits (Some c) uid amount tok w) as [r w'] eqn:Hrun.
  exists r, w'. split; [reflexivity|]. split; [exact Hlocal|].
  revert Hrun. unfold deductCredits. rewrite Hu. cbn [negb].
  destruct (amount <=? 0) eqn:Hpos.
  { apply Z.leb_le in Hpos. rewrite (proj2 (Z.ltb_ge 0 amount)) by lia.
    cbn [andb]. by intros [= <- <-]. }
  apply Z.leb_gt in Hpos. rewrite (proj2 (Z.ltb_lt 0 amount)) by lia.
  cbn [andb]. unfold mbind at 1, M_bind.
  rewrite getUserCredits_run by done. fold bal.
  destruct (bal <? amount) eqn:Hlt.
  { apply Z.ltb_lt in Hlt. rewrite (proj2 (Z.leb_gt amount bal)) by lia.
    by intros [= <- <-]. }
  apply Z.ltb_ge in Hlt. rewrite (proj2 (Z.leb_le amount bal)) by lia.
  cbv zeta. msimpl. unfold users_update_select_single. msimpl.
  unfold bal in *. clear bal.
  destruct (users w !! uid) as [row|] eqn:Hrow.
  - intros [= <- <-]. cbn. split; [reflexivity|]. split; [cbn in Hlt; lia|].
    exists row. split; [reflexivity|]. by rewrite lookup_insert_eq.
  - cbn in Hlt. lia.
Qed.

Lemma deduct_credits_draws_bonus_only_witness :
  ∃ w',
    deductCredits (Some Sample.token) Sample.uid 2 None Sample.world = (Ok 3, w')
    ∧ users w' !! Sample.uid = Some (patch_credits 3 Sample.row).
Proof.
  destruct (deduct_credits_draws_bonus_only Sample.token Sample.uid 2 None
              Sample.world)
    as (r & w' & Hrun & _ & Hcase); [reflexivity|].
  destruct Hcase as (-> & _ & row & Hrow & Hrow').
  exists w'. split; [exact Hrun|].
  assert (row = Sample.row) as ->
    by (apply (inj Some); rewrite <- Hrow; reflexivity).
  exact Hrow'.
Defined.

(** ** Registration *)

Lemma ensureUserExists_run (schema_is_pro : option bool) (user : AuthUser)
    (w : World) :
  Js.truthy (auth_id user) = true →
  ensureUserExists schema_is_pro (Some user) w
  = (Ok tt,
     match users w !! auth_id user with
     | Some _ => add_event (EvSelect (auth_id user) []) w
     | None =>
         set_users (insert (auth_id user)
                      (new_user_row schema_is_pro (auth_email user)
                         (clock w + MS_PER_DAY)))
           (add_event (EvSelect (auth_id user) []) w)
     end).
Proof.
  intros Hu. unfold ensureUserExists. rewrite Hu. cbn [negb].
  msimpl. unfold users_select_single, users_insert. msimpl.
  destruct (users w !! auth_id user) as [row|] eqn:Hrow; [reflexivity|].
  msimpl. by rewrite Hrow.
Qed.

Lemma or_else_same (a : option string) : Js.or_else a a = a.
Proof. by destruct a as [[|c s]|]. Qed.

(** X23. [ensureUserExists] creates an account row once and never
    changes one.  For a user with an id the call returns normally; an
    existing row is left exactly as it is; a missing row is created
    with no bonus credits, nothing used of the daily allowance, a daily
    window that ends 24 hours later and the signup bonus not yet
    granted; no other row, no anonymous balance and no prompt changes.
    A second call changes nothing.  The created row satisfies the
    ledger invariants, so these are preserved. *)
Theorem ensure_user_exists_creates_once (schema_is_pro : option bool)
    (user : AuthUser) (w : World) :
  Js.truthy (auth_id user) = true →
  let uid := auth_id user in
  let fresh := new_user_row schema_is_pro (auth_email user)
                 (clock w + MS_PER_DAY) in
  ∃ w1,
    ensureUserExists schema_is_pro (Some user) w = (Ok tt, w1)
    ∧ users w1 = match users w !! uid with
                 | Some _ => users w
                 | None => <[uid := fresh]> (users w)
                 end
    ∧ anonymousCredits w1 = anonymousCredits w
    ∧ prompts w1 = prompts w
    ∧ clock w1 = clock w
    ∧ users (snd (ensureUserExists schema_is_pro (Some user) w1)) = users w1
    ∧ credits fresh = Some 0
    ∧ daily_credits_used fresh = Some 0
    ∧ daily_reset_at fresh = Some (clock w + MS_PER_DAY)
    ∧ signup_bonus_given fresh = Some false
    ∧ (ledger_inv w → ledger_inv w1).
Proof.
  intros Hu uid fresh. rewrite ensureUserExists_run by done.
  eexists. split; [reflexivity|]. fold uid. fold fresh.
  rewrite ensureUserExists_run by done. fold uid.
  destruct (users w !! uid) as [row|] eqn:Hrow; cbn [users add_event set_users snd
    anonymousCredits prompts clock].
  - rewrite Hrow. cbn. repeat (split; [done|]).
    intros Hinv. by apply (ledger_inv_same w).
  - rewrite lookup_insert_eq. cbn. repeat (split; [done|]).
    intros Hinv. apply (ledger_inv_insert uid fresh w); [done| |done].
    unfold row_inv, fresh, DAILY_CREDITS. cbn. lia.
Qed.

Lemma ensure_user_exists_creates_once_witness :
  ∃ w1,
    ensureUserExists (Some false)
      (Some (mkAuthUser "user-9" (Some "new@example.org"))) Sample.world
    = (Ok tt, w1)
    ∧ users w1 !! "user-9"
      = Some (mkUserRow (Some "new@example.org") (Some false) (Some 0) (Some 0)
                (Some 86400500) (Some false))
    ∧ ledger_inv w1.
Proof.
  destruct (ensure_user_exists_creates_once (Some false)
              (mkAuthUser "user-9" (Some "new@example.org")) Sample.world)
    as (w1 & Hrun & Hus & _ & _ & _ & _ & _ & _ & _ & _ & Hinv); [reflexivity|].
  exists w1. split; [exact Hrun|]. split.
  - rewrite Hus. reflexivity.
  - apply Hinv. exact sample_world_inv.
Defined.

(** X24. Registration followed by the first [GET /api/me].  For a user
    without a row, after [ensureUserExists] a [GET /api/me] of that
    user reports the plan free and 13 credits, the daily allowance of 3
    and the signup bonus of 10, which it grants on that occasion: the
    stored row then holds 10 bonus credits with the flag set and
    nothing used of the allowance.  (The default of the schema for
    [is_pro] is assumed not to be [true].) *)
Theorem registration_then_me_shows_thirteen (env : Env) (req : Request)
    (schema_is_pro : option bool) (tok : string) (user : AuthUser) (w : World) :
  me_user env req = Some (tok, user) →
  Js.truthy (auth_id user) = true →
  users w !! auth_id user = None →
  schema_is_pro ≠ Some true →
  let w1 := snd (ensureUserExists schema_is_pro (Some user) w) in
  ∃ w2 row2,
    api_me env req w1
    = (mkResponse 200 (JsonMe (auth_email user) "free" 13 13 false), w2)
    ∧ users w2 !! auth_id user = Some row2
    ∧ credits row2 = Some SIGNUP_BONUS
    ∧ daily_credits_used row2 = Some 0
    ∧ signup_bonus_given row2 = Some true
    ∧ available row2 = DAILY_CREDITS + SIGNUP_BONUS.
Proof.
  intros Hme Hu Hnone Hschema. cbv zeta.
  rewrite ensureUserExists_run, Hnone by done. cbn [snd].
  set (fresh := new_user_row schema_is_pro (auth_email user) (clock w + MS_PER_DAY)).
  set (w1 := set_users _ _).
  assert (Hrow : users w1 !! auth_id user = Some fresh)
    by (unfold w1; cbn [users set_users add_event]; apply lookup_insert_eq).
  rewrite (api_me_user_run env req w1 tok user Hme).
  rewrite (me_outcome_grants tok user w1 fresh Hu Hrow eq_refl).
  eexists _, (patch_bonus (default 0 (credits fresh) + SIGNUP_BONUS) fresh).
  split.
  - f_equal. unfold me_reply, me_credits, row_is_pro, expired, fresh, w1.
    cbn [patch_bonus new_user_row email is_pro credits daily_credits_used
         daily_reset_at clock set_users add_event default from_option id].
    rewrite or_else_same.
    assert (Hopen : (clock w + MS_PER_DAY <=? clock w) = false)
      by (apply Z.leb_gt; unfold MS_PER_DAY; lia).
    rewrite Hopen.
    destruct schema_is_pro as [[|]|]; [done|reflexivity|reflexivity].
  - cbn [users add_event]. rewrite after_grant_users.
    cbn [users add_event]. rewrite Hrow. cbn. rewrite lookup_insert_eq.
    repeat split.
Qed.

Lemma registration_then_me_shows_thirteen_witness :
  ∃ w2,
    api_me
      (mkEnv (fun t => if String.eqb t "tok-9"
                       then Some (mkAuthUser "user-9" (Some "new@example.org"))
                       else None) None)
      (Sample.me_request "tok-9")
      (snd (ensureUserExists None
              (Some (mkAuthUser "user-9" (Some "new@example.org"))) Sample.world))
    = (mkResponse 200 (JsonMe (Some "new@example.org") "free" 13 13 false), w2).
Proof.
  destruct (registration_then_me_shows_thirteen
              (mkEnv (fun t => if String.eqb t "tok-9"
                               then Some (mkAuthUser "user-9" (Some "new@example.org"))
                               else None) None)
              (Sample.me_request "tok-9") None "tok-9"
              (mkAuthUser "user-9" (Some "new@example.org")) Sample.world)
    as (w2 & row2 & Hrun & _); [reflexivity | reflexivity | reflexivity | done |].
  exists w2. exact Hrun.
Defined.

(** ** [POST /api/credits/add] *)

Lemma select_by_email_found (e id : string) (row : UserRow) (w : World) :
  only_account_with_email e id row w →
  users_select_single_by_email e w = (Ok (inl (id, row)), w).
Proof.
  intros (Hrow & He & Huniq). unfold users_select_single_by_email.
  assert (Hf : filter (fun kv : string * UserRow => email kv.2 = Some e) (users w)
               = {[id := row]}).
  { apply map_eq. intros i. apply option_eq. intros x.
    rewrite map_lookup_filter_Some, lookup_singleton_Some. cbn. split.
    - intros (Hi & Hx). assert (i = id) as -> by eauto.
      rewrite Hrow in Hi. by injection Hi as ->.
    - by intros (<- & <-). }
  by rewrite Hf, map_to_list_singleton.
Qed.

Lemma select_by_email_inv (e id : string) (row : UserRow) (w w1 : World) :
  users_select_single_by_email e w = (Ok (inl (id, row)), w1) →
  w1 = w ∧ only_account_with_email e id row w.
Proof.
  unfold users_select_single_by_email.
  destruct (map_to_list _) as [|[id0 row0] [|? ?]] eqn:Hl; try done.
  intros [= -> -> <-]. split; [done|].
  assert (Hin : ∀ i x, users w !! i = Some x ∧ email x = Some e
                       ↔ (i, x) = (id, row)).
  { intros i x.
    rewrite <- (map_lookup_filter_Some
                  (fun kv : string * UserRow => email kv.2 = Some e) (users w) i x).
    rewrite <- elem_of_map_to_list, Hl. apply list_elem_of_singleton. }
  destruct (proj2 (Hin id row) eq_refl) as (Hrow & He).
  split; [done|]. split; [done|].
  intros id' row' Hrow' He'.
  pose proof (proj1 (Hin id' row') (conj Hrow' He')) as Heq. congruence.
Qed.

Lemma select_by_email_ok (e : string) (w : World) :
  ∃ r, users_select_single_by_email e w = (Ok r, w).
Proof.
  unfold users_select_single_by_email.
  destruct (map_to_list _) as [|[id0 row0] [|? ?]]; by eexists.
Qed.

Lemma to_number_safe (z : Z) : Z.abs z < 2 ^ 53 → to_number z = z.
Proof. intros Hz. unfold to_number. cbv zeta. by rewrite (proj2 (Z.ltb_lt _ _)). Qed.

Lemma api_credits_add_run (toLowerCase : string → string)
    (credits_fits : Z → bool) (s e : string) (n : Z) (id : string)
    (row : UserRow) (req : AddCreditsRequest) (w : World) :
  body_secret req = Some s → Js.truthy s = true →
  body_email req = Some e → Js.truthy (Js.trim e) = true →
  body_credits req = Some n → 0 < n →
  only_account_with_email (toLowerCase (Js.trim e)) id row w →
  Js.truthy id = true →
  api_credits_add toLowerCase (Some s) credits_fits req w
  = let total := number_add (to_number (default 0 (credits row))) n in
    if credits_fits total then
      (mkAddCreditsResponse 200
         (JsonCreditsAdded (toLowerCase (Js.trim e)) n (to_number total)),
       set_users (insert id (patch_credits total row))
         (add_event (EvUpdate id [col_credits]) w))
    else
      (mkAddCreditsResponse 500 (JsonAddCreditsError "Internal server error"),
       add_event (EvUpdate id [col_credits]) w).
Proof.
  intros Hs Hst He Het Hn Hpos Honly Hid. unfold api_credits_add.
  rewrite Hs, He, Hn. cbn [Js.truthy_opt]. rewrite Hst, Het.
  rewrite bool_decide_true by done.
  assert (Js.truthy e = true) as ->.
  { destruct e; [|done]. done. }
  cbn [negb orb]. rewrite (proj2 (Z.leb_gt n 0)) by lia.
  rewrite (select_by_email_found _ id row w Honly), Hid. cbn [negb]. cbv zeta.
  unfold users_update_credits.
  destruct (credits_fits _); [|reflexivity].
  unfold users_update_select_single. destruct Honly as (-> & _). reflexivity.
Qed.

(** X25. [POST /api/credits/add] either refuses or credits one account.
    Every refusal, whatever its cause (a missing or wrong secret, no
    secret configured, an invalid e-mail address or amount, an address
    that no account or more than one account has), is the same answer
    401 "Unauthorized" and leaves the state unchanged.  Any other
    answer is given only when the secret equals the configured one,
    the amount is a positive integer and exactly one account has the
    trimmed, lower-cased address; no other row, no anonymous balance
    and no prompt changes then.  The new total is the sum of the stored
    bonus credits and the amount as JavaScript numbers (for finite
    numbers: magnitudes below 2^1023); when the column takes it, the
    answer is 200 and the total is stored and reported; when the column
    does not, the answer is 500 and no row changes. *)
Theorem credits_add_refuses_or_credits_one (toLowerCase : string → string)
    (ADMIN_SECRET : option string) (credits_fits : Z → bool)
    (req : AddCreditsRequest) (w : World) :
  let resp := fst (api_credits_add toLowerCase ADMIN_SECRET credits_fits req w) in
  let w' := snd (api_credits_add toLowerCase ADMIN_SECRET credits_fits req w) in
  (resp = unauthorized ∧ w' = w)
  ∨ (∃ s e n id row,
       ADMIN_SECRET = Some s ∧ body_secret req = Some s
       ∧ body_email req = Some e ∧ body_credits req = Some n ∧ 0 < n
       ∧ only_account_with_email (toLowerCase (Js.trim e)) id row w
       ∧ anonymousCredits w' = anonymousCredits w
       ∧ prompts w' = prompts w
       ∧ clock w' = clock w
       ∧ (∀ id', id' ≠ id → users w' !! id' = users w !! id')
       ∧ (Z.abs (default 0 (credits row)) < 2 ^ 1023 →
          to_number (default 0 (credits row)) + n < 2 ^ 1023 →
          let total := number_add (to_number (default 0 (credits row))) n in
          if credits_fits total then
            resp = mkAddCreditsResponse 200
                     (JsonCreditsAdded (toLowerCase (Js.trim e)) n (to_number total))
            ∧ users w' = <[id := patch_credits total row]> (users w)
          else
            resp = mkAddCreditsResponse 500
                     (JsonAddCreditsError "Internal server error")
            ∧ users w' = users w)).
Proof.
  cbv zeta.
  destruct (body_secret req) as [s|] eqn:Hs;
    [|left; unfold api_credits_add; by rewrite Hs].
  destruct (Js.truthy s) eqn:Hst;
    [|left; unfold api_credits_add; rewrite Hs; cbn; by rewrite Hst].
  destruct (bool_decide (Some s = ADMIN_SECRET)) eqn:Hsecret;
    [|left; unfold api_credits_add; rewrite Hs, Hsecret; cbn;
      by rewrite Hst].
  apply bool_decide_eq_true in Hsecret. subst ADMIN_SECRET.
  destruct (body_email req) as [e|] eqn:He;
    [|left; unfold api_credits_add; rewrite Hs, He; cbn;
      by rewrite Hst, bool_decide_true].
  destruct (Js.truthy (Js.trim e)) eqn:Het.
  2:{ left. unfold api_credits_add. rewrite Hs, He. cbn.
      rewrite Hst, bool_decide_true, Het by done. cbn. by rewrite orb_true_r. }
  destruct (body_credits req) as [n|] eqn:Hn.
  2:{ left. unfold api_credits_add. rewrite Hs, He, Hn. cbn.
      rewrite Hst, bool_decide_true, Het by done. cbn. by destruct (Js.truthy e). }
  destruct (n <=? 0) eqn:Hpos.
  { left. unfold api_credits_add. rewrite Hs, He, Hn, Hpos. cbn.
    rewrite Hst, bool_decide_true, Het by done. cbn. by destruct (Js.truthy e). }
  apply Z.leb_gt in Hpos.
  destruct (users_select_single_by_email (toLowerCase (Js.trim e)) w)
    as [[[[id row]|err]|msg] w1] eqn:Hsel.
  - pose proof Hsel as (-> & Honly)%select_by_email_inv.
    destruct (Js.truthy id) eqn:Hid.
    2:{ left. unfold api_credits_add. rewrite Hs, He, Hn. cbn.
        rewrite Hst, bool_decide_true, Het, (proj2 (Z.leb_gt n 0)), Hsel, Hid
          by (done || lia).
        cbn. by destruct (Js.truthy e). }
    right. exists s, e, n, id, row.
    rewrite (api_credits_add_run toLowerCase credits_fits s e n id row req w)
      by done.
    cbv zeta. do 6 (split; [done|]).
    destruct (credits_fits _); cbn [fst snd users anonymousCredits prompts clock
      set_users add_event]; (do 3 (split; [done|])); (split; [|done]);
      intros id' Hne; by rewrite ?lookup_insert_ne.
  - left. unfold api_credits_add. rewrite Hs, He, Hn. cbn.
    rewrite Hst, bool_decide_true, Het, (proj2 (Z.leb_gt n 0)), Hsel
      by (done || lia).
    destruct (select_by_email_ok (toLowerCase (Js.trim e)) w) as (r & Hok).
    rewrite Hok in Hsel. injection Hsel as _ <-. cbn. by destruct (Js.truthy e).
  - destruct (select_by_email_ok (toLowerCase (Js.trim e)) w) as (r & Hok).
    rewrite Hok in Hsel. discriminate.
Qed.

(** X26. [POST /api/credits/add] with the configured secret, a positive
    integer amount and an address that exactly one account has (after
    trimming and lower-casing), when the new total is below 2^53 (so
    that the sum of numbers is exact) and the column takes it, is
    answered 200 with the new total; the available balance of that
    account rises by exactly the amount, no other row changes, and the
    ledger invariants are preserved. *)
Theorem credits_add_raises_balance (toLowerCase : string → string)
    (credits_fits : Z → bool) (s e : string) (n : Z) (id : string)
    (row : UserRow) (req : AddCreditsRequest) (w : World) :
  body_secret req = Some s → Js.truthy s = true →
  body_email req = Some e → Js.truthy (Js.trim e) = true →
  body_credits req = Some n → 0 < n →
  only_account_with_email (toLowerCase (Js.trim e)) id row w →
  Js.truthy id = true →
  0 ≤ default 0 (credits row) →
  default 0 (credits row) + n < 2 ^ 53 →
  credits_fits (default 0 (credits row) + n) = true →
  ∃ w' row',
    api_credits_add toLowerCase (Some s) credits_fits req w
    = (mkAddCreditsResponse 200
         (JsonCreditsAdded (toLowerCase (Js.trim e)) n (default 0 (credits row) + n)),
       w')
    ∧ users w' !! id = Some row'
    ∧ credits row' = Some (default 0 (credits row) + n)
    ∧ available row' = available row + n
    ∧ (∀ id', id' ≠ id → users w' !! id' = users w !! id')
    ∧ (ledger_inv w → ledger_inv w').
Proof.
  intros Hs Hst He Het Hn Hpos Honly Hid Hcur Hsafe Hfits.
  rewrite (api_credits_add_run toLowerCase credits_fits s e n id row req w)
    by done.
  cbv zeta. unfold number_add.
  rewrite (to_number_safe (default 0 (credits row))) by lia.
  rewrite !(to_number_safe (default 0 (credits row) + n)) by lia.
  rewrite Hfits.
  eexists _, (patch_credits (default 0 (credits row) + n) row).
  split; [reflexivity|]. cbn [users set_users add_event].
  split; [apply lookup_insert_eq|]. split; [reflexivity|].
  split; [unfold available; cbn; lia|].
  split; [intros id' Hne; by rewrite lookup_insert_ne|].
  intros Hinv. destruct Honly as (Hrow & _).
  apply (ledger_inv_insert id (patch_credits (default 0 (credits row) + n) row) w);
    [done| |done].
  pose proof (Hinv id row Hrow) as Hr. unfold row_inv in *. cbn. lia.
Qed.

Lemma sample_only_account :
  only_account_with_email "a@example.org" Sample.uid Sample.row Sample.world.
Proof.
  split; [reflexivity|]. split; [reflexivity|].
  intros id' row' Hlook He. unfold Sample.world in Hlook. cbn [users] in Hlook.
  apply lookup_insert_Some in Hlook as [[<- _]|[_ Hlook]]; [done|].
  apply lookup_insert_Some in Hlook as [[_ <-]|[_ Hlook]]; [done|].
  apply lookup_insert_Some in Hlook as [[_ <-]|[_ Hlook]]; [done|].
  apply lookup_singleton_Some in Hlook as [_ <-]. done.
Qed.

Lemma credits_add_raises_balance_witness :
  ∃ w' row',
    api_credits_add toLowerCase_ascii (Some "s3cret")
      (fun c => c <=? 2147483647)
      (mkAddCreditsRequest (Some " A@Example.org ") (Some 7) (Some "s3cret"))
      Sample.world
    = (mkAddCreditsResponse 200 (JsonCreditsAdded "a@example.org" 7 12), w')
    ∧ users w' !! Sample.uid = Some row'
    ∧ credits row' = Some 12
    ∧ available row' = available Sample.row + 7.
Proof.
  destruct (credits_add_raises_balance toLowerCase_ascii
              (fun c => c <=? 2147483647) "s3cret"
              " A@Example.org " 7 Sample.uid Sample.row
              (mkAddCreditsRequest (Some " A@Example.org ") (Some 7) (Some "s3cret"))
              Sample.world)
    as (w' & row' & Hrun & Hrow & Hc & Hav & _);
    [reflexivity | reflexivity | reflexivity | reflexivity | reflexivity | lia
    | exact sample_only_account | reflexivity | cbn; lia | cbn; lia
    | reflexivity |].
  exists w', row'. split; [exact Hrun|]. split; [exact Hrow|].
  split; [exact Hc | exact Hav].
Defined.

(** ** Concurrent grants of the signup bonus *)

Lemma grantSignupBonus_task_run (c : option Client) (uid : string) (w : World) :
  run_alone (grantSignupBonus_task c uid) w = grantSignupBonus c uid w.
Proof.
  unfold grantSignupBonus_task, grantSignupBonus.
  destruct c as [c|]; [|reflexivity].
  destruct (Js.truthy uid); cbn [negb]; [|reflexivity].
  rewrite run_alone_bind, getUserCreditInfo_task_run.
  unfold mbind at 1, M_bind.
  destruct (getUserCreditInfo (Some c) uid w) as [[info|msg] w1]; [|reflexivity].
  destruct (signupBonusGiven info); [reflexivity|].
  cbn. msimpl. destruct (users_update _ _ uid w1) as [[[e|]|msg] w2]; reflexivity.
Qed.

Section ConcurrentGrants.

Variables (c1 c2 : Client) (uid : string) (w : World) (row : UserRow).
Hypothesis Huid : Js.truthy uid = true.
Hypothesis Hrow : users w !! uid = Some row.
Hypothesis Hflag : default false (signup_bonus_given row) = false.


Lemma grant_step_before (c : Client) (p : GrantPhase) (w1 : World) :
  users w1 = users w → p ≠ GrantDone →
  ∃ p' w2,
    step (grant_at c uid (bonus_total row) p) w1
    = (grant_at c uid (bonus_total row) p', w2)
    ∧ ((users w2 = users w ∧ p' ≠ GrantDone) ∨ users w2 = users_granted uid row w).
Proof.
  intros Hw1 Hp. destruct p; [| |done].
  - exists GrantWrite, (add_event (EvSelect uid credit_columns) w1).
    split; [|left; by split].
    cbn [grant_at]. unfold grantSignupBonus_task, getUserCreditInfo_task.
    rewrite Huid. cbn [negb]. cbn. unfold users_select_single.
    rewrite Hw1, Hrow. cbn. rewrite Hflag. reflexivity.
  - eexists GrantDone, _. split; [|right].
    + cbn. unfold users_update. rewrite Hw1, Hrow. reflexivity.
    + cbn. by rewrite Hw1.
Qed.

Lemma grant_step_after (c : Client) (p : GrantPhase) (w1 : World) :
  users w1 = users_granted uid row w →
  ∃ p' w2,
    step (grant_at c uid (bonus_total row) p) w1
    = (grant_at c uid (bonus_total row) p', w2)
    ∧ users w2 = users_granted uid row w.
Proof.
  intros Hw1.
  assert (Hlook : users w1 !! uid = Some (patch_bonus (bonus_total row) row))
    by (rewrite Hw1; apply lookup_insert_eq).
  destruct p.
  - exists GrantDone, (add_event (EvSelect uid credit_columns) w1).
    split; [|done].
    cbn [grant_at]. unfold grantSignupBonus_task, getUserCreditInfo_task.
    rewrite Huid. cbn [negb]. cbn. unfold users_select_single.
    rewrite Hlook. reflexivity.
  - eexists GrantDone, _. split.
    + cbn. unfold users_update. rewrite Hlook. reflexivity.
    + cbn. rewrite Hw1. unfold users_granted. by rewrite insert_insert_eq.
  - by exists GrantDone, w1.
Qed.

Lemma grant_run_after (c : Client) (p : GrantPhase) (w1 : World) :
  users w1 = users_granted uid row w →
  ∃ w2,
    run_alone (grant_at c uid (bonus_total row) p) w1 = (Ok tt, w2)
    ∧ users w2 = users_granted uid row w.
Proof.
  intros Hw1.
  assert (Hlook : users w1 !! uid = Some (patch_bonus (bonus_total row) row))
    by (rewrite Hw1; apply lookup_insert_eq).
  destruct p.
  - cbn [grant_at]. rewrite grantSignupBonus_task_run.
    pose proof (grantSignupBonus_run c uid w1 Huid) as Hg.
    unfold Client in *. rewrite Hg.
    eexists. split; [reflexivity|]. rewrite after_grant_users, Hlook. done.
  - eexists. split.
    + cbn. unfold users_update. rewrite Hlook. reflexivity.
    + cbn. rewrite Hw1. unfold users_granted. by rewrite insert_insert_eq.
  - by exists w1.
Qed.

Lemma grant_run_before (c : Client) (p : GrantPhase) (w1 : World) :
  users w1 = users w → p ≠ GrantDone →
  ∃ w2,
    run_alone (grant_at c uid (bonus_total row) p) w1 = (Ok tt, w2)
    ∧ users w2 = users_granted uid row w.
Proof.
  intros Hw1 Hp. destruct p; [| |done].
  - cbn [grant_at]. rewrite grantSignupBonus_task_run.
    pose proof (grantSignupBonus_run c uid w1 Huid) as Hg.
    unfold Client in *. rewrite Hg.
    eexists. split; [reflexivity|].
    by rewrite after_grant_users, Hw1, Hrow, Hflag.
  - eexists. split.
    + cbn. unfold users_update. rewrite Hw1, Hrow. reflexivity.
    + cbn. by rewrite Hw1.
Qed.

Lemma grants_interleaved (sched : list bool) (p1 p2 : GrantPhase) (w1 : World) :
  (users w1 = users w ∧ p1 ≠ GrantDone ∧ p2 ≠ GrantDone)
  ∨ users w1 = users_granted uid row w →
  ∃ w2,
    interleave sched (grant_at c1 uid (bonus_total row) p1)
      (grant_at c2 uid (bonus_total row) p2) w1
    = (Ok tt, Ok tt, w2)
    ∧ users w2 = users_granted uid row w.
Proof.
  revert p1 p2 w1. induction sched as [|b s IH]; intros p1 p2 w1 Hinv.
  - cbn [interleave]. destruct Hinv as [(Hw1 & Hp1 & Hp2)|Hw1].
    + destruct (grant_run_before c1 p1 w1 Hw1 Hp1) as (w2 & -> & Hw2).
      destruct (grant_run_after c2 p2 w2 Hw2) as (w3 & -> & Hw3).
      by exists w3.
    + destruct (grant_run_after c1 p1 w1 Hw1) as (w2 & -> & Hw2).
      destruct (grant_run_after c2 p2 w2 Hw2) as (w3 & -> & Hw3).
      by exists w3.
  - destruct b; cbn [interleave].
    + destruct Hinv as [(Hw1 & Hp1 & Hp2)|Hw1].
      * destruct (grant_step_before c1 p1 w1 Hw1 Hp1) as (p' & w2 & -> & Hw2).
        apply IH. destruct Hw2 as [(Hw2 & Hp')|Hw2]; [left|right]; done.
      * destruct (grant_step_after c1 p1 w1 Hw1) as (p' & w2 & -> & Hw2).
        apply IH. by right.
    + destruct Hinv as [(Hw1 & Hp1 & Hp2)|Hw1].
      * destruct (grant_step_before c2 p2 w1 Hw1 Hp2) as (p' & w2 & -> & Hw2).
        apply IH. destruct Hw2 as [(Hw2 & Hp')|Hw2]; [left|right]; done.
      * destruct (grant_step_after c2 p2 w1 Hw1) as (p' & w2 & -> & Hw2).
        apply IH. by right.
Qed.

End ConcurrentGrants.

(** X27. The signup bonus is granted once also when two grants run
    concurrently, as when two [GET /api/me] requests of a new account
    overlap.  For an account whose flag is not set, under every
    interleaving of the awaited statements of two calls of
    [grantSignupBonus] both calls return normally and the account ends
    with its bonus credits raised by 10, once, and the flag set: each
    call writes the total it computed from its own read, and the two
    totals are equal. *)
Theorem concurrent_grants_give_bonus_once (c1 c2 : Client) (uid : string)
    (w : World) (row : UserRow) (sched : list bool) :
  Js.truthy uid = true →
  users w !! uid = Some row →
  default false (signup_bonus_given row) = false →
  ∃ w',
    interleave sched (grantSignupBonus_task (Some c1) uid)
      (grantSignupBonus_task (Some c2) uid) w
    = (Ok tt, Ok tt, w')
    ∧ users w'
      = <[uid := patch_bonus (default 0 (credits row) + SIGNUP_BONUS) row]> (users w).
Proof.
  intros Huid Hrow Hflag.
  apply (grants_interleaved c1 c2 uid w row Huid Hrow Hflag sched
           GrantStart GrantStart w).
  left. by repeat split.
Qed.

Lemma concurrent_grants_give_bonus_once_witness :
  ∃ w',
    interleave [true; false; false; true]
      (grantSignupBonus_task (Some Sample.token) Sample.fresh_uid)
      (grantSignupBonus_task (Some Sample.token) Sample.fresh_uid) Sample.world
    = (Ok tt, Ok tt, w')
    ∧ users w' !! Sample.fresh_uid
      = Some (mkUserRow (Some "b@example.org") (Some false) (Some 10) (Some 0)
                (Some 1000) (Some true)).
Proof.
  destruct (concurrent_grants_give_bonus_once Sample.token Sample.token
              Sample.fresh_uid Sample.world Sample.fresh_row
              [true; false; false; true])
    as (w' & Hrun & Hus); [reflexivity | reflexivity | reflexivity |].
  exists w'. split; [exact Hrun|]. rewrite Hus. reflexivity.
Defined.

(** ** The output of a completed request *)

Section Strip.

Variables (w1 : ascii → bool) (w2 : ascii → ascii → bool)
          (w3 : ascii → ascii → ascii → bool).

Lemma strip_fixed (l : list ascii) :
  Js.starts_blank w1 w2 w3 l = false → Js.strip w1 w2 w3 l = l.
Proof.
  destruct l as [|c [|d [|e l']]]; cbn; try done.
  - by intros ->.
  - intros [[-> ->]%orb_false_iff _]%orb_false_iff || intros [-> ->]%orb_false_iff.
    all: reflexivity.
  - by intros [[-> ->]%orb_false_iff ->]%orb_false_iff.
Qed.

Lemma strip_not_blank_aux (n : nat) :
  ∀ l : list ascii, (length l ≤ n)%nat →
    Js.starts_blank w1 w2 w3 (Js.strip w1 w2 w3 l) = false.
Proof.
  induction n as [|n IH]; intros l Hlen.
  { destruct l; [reflexivity|cbn in Hlen; lia]. }
  destruct l as [|c r]; [reflexivity|]. cbn [Js.strip]. cbn in Hlen.
  destruct (w1 c) eqn:H1; [apply IH; lia|].
  destruct r as [|d r']; [cbn; by rewrite H1|]. cbn in Hlen.
  destruct (w2 c d) eqn:H2; [apply IH; lia|].
  destruct r' as [|e r'']; [cbn; by rewrite H1, H2|]. cbn in Hlen.
  destruct (w3 c d e) eqn:H3; [apply IH; lia|].
  cbn. by rewrite H1, H2, H3.
Qed.

Lemma strip_idem (l : list ascii) :
  Js.strip w1 w2 w3 (Js.strip w1 w2 w3 l) = Js.strip w1 w2 w3 l.
Proof. apply strip_fixed, (strip_not_blank_aux (length l)). lia. Qed.

Lemma strip_suffix_aux (n : nat) :
  ∀ l : list ascii, (length l ≤ n)%nat → ∃ p, l = p ++ Js.strip w1 w2 w3 l.
Proof.
  induction n as [|n IH]; intros l Hlen.
  { destruct l; [by exists []|cbn in Hlen; lia]. }
  destruct l as [|c r]; [by exists []|]. cbn [Js.strip]. cbn in Hlen.
  destruct (w1 c).
  { destruct (IH r) as (p & Hp); [lia|]. exists (c :: p). cbn. by rewrite <- Hp. }
  destruct r as [|d r']; [by exists []|]. cbn in Hlen.
  destruct (w2 c d).
  { destruct (IH r') as (p & Hp); [lia|]. exists (c :: d :: p). cbn.
    by rewrite <- Hp. }
  destruct r' as [|e r'']; [by exists []|]. cbn in Hlen.
  destruct (w3 c d e); [|by exists []].
  destruct (IH r'') as (p & Hp); [lia|]. exists (c :: d :: e :: p). cbn.
  by rewrite <- Hp.
Qed.

Lemma starts_blank_app (l q : list ascii) :
  Js.starts_blank w1 w2 w3 l = true → Js.starts_blank w1 w2 w3 (l ++ q) = true.
Proof.
  destruct l as [|c [|d [|e l']]]; [done| | |done].
  - destruct q as [|q1 [|q2 q']]; cbn; intros ->; reflexivity.
  - destruct q as [|q1 q']; cbn; intros ->; reflexivity.
Qed.

End Strip.

(** [trim] leaves nothing to trim. *)
Lemma trim_idem (s : string) : Js.trim (Js.trim s) = Js.trim s.
Proof.
  unfold Js.trim, Js.trimEnd, Js.trimStart.
  rewrite !list_ascii_of_string_of_list_ascii.
  set (t := Js.stripStart (list_ascii_of_string s)).
  set (u := List.rev (Js.stripEnd (List.rev t))).
  assert (Hu : Js.stripStart u = u).
  { apply strip_fixed.
    destruct (strip_suffix_aux Js.is_white_space
                (fun d c => Js.is_white_space2 c d)
                (fun e d c => Js.is_white_space3 c d e)
                (length (List.rev t)) (List.rev t)) as (p & Hp); [lia|].
    assert (Ht : t = u ++ List.rev p).
    { unfold u. fold Js.stripEnd in Hp. rewrite <- rev_app_distr, <- Hp.
      by rewrite rev_involutive. }
    destruct (Js.starts_blank _ _ _ u) eqn:Hb; [|reflexivity].
    apply (starts_blank_app _ _ _ u (List.rev p)) in Hb. rewrite <- Ht in Hb.
    unfold t, Js.stripStart in Hb.
    rewrite (strip_not_blank_aux _ _ _ (length (list_ascii_of_string s))) in Hb
      by lia.
    discriminate. }
  rewrite Hu. unfold u at 1. rewrite rev_involutive.
  unfold Js.stripEnd. by rewrite strip_idem.
Qed.

Lemma answers_respond (P : Response → Prop) {A} (Q : A → Prop) (st : Z)
    (b : Body) :
  P (mkResponse st b) → answers_with P Q (respond st b).
Proof. intros HP w. exact HP. Qed.

Lemma answers_ret (P : Response → Prop) {A} (Q : A → Prop) (a : A) :
  Q a → answers_with P Q (mret a).
Proof. intros HQ w. exact HQ. Qed.

Lemma answers_call (P : Response → Prop) {A} (m : M A) :
  answers_with P (fun _ => True) (call m).
Proof. intros w. unfold call. by destruct (m w) as [[a|msg] w']. Qed.

Lemma answers_attempt (P : Response → Prop) {A} (m : M A) :
  answers_with P (fun _ => True) (attempt m).
Proof. intros w. unfold attempt. by destruct (m w) as [r w']. Qed.

Lemma answers_bind (P : Response → Prop) {A B} (Q1 : A → Prop) (Q : B → Prop)
    (m : H A) (k : A → H B) :
  answers_with P Q1 m → (∀ a, Q1 a → answers_with P Q (k a)) →
  answers_with P Q (m ≫= k).
Proof.
  intros Hm Hk w. specialize (Hm w). unfold mbind, H_bind.
  destruct (m w) as [[a|r|msg] w1]; cbn in *; [|done|done].
  apply (Hk a Hm w1).
Qed.

Lemma run_handler_answers (P : Response → Prop) (h : H Response) (w : World) :
  answers_with P P h →
  (∀ st msg, P (deny st msg)) →
  P (fst (run_handler h w)).
Proof.
  intros Hh Hdeny. specialize (Hh w). unfold run_handler.
  destruct (h w) as [[r|r|msg] w1]; cbn in *; [done|done|].
  destruct (_ || _)%bool; apply Hdeny.
Qed.

Lemma complete_answers (env : Env) (req : Request) (mode : Mode)
    (userId : option string) (client : option Client) (isAnonymous : bool)
    (remaining : Z) :
  answers_with (success_from_completion env req mode)
    (success_from_completion env req mode)
    (complete_and_reply env req mode userId client isAnonymous remaining).
Proof.
  intros w. unfold complete_and_reply. cbv zeta.
  destruct (openai env) as [create|] eqn:Hopen; [|by intros out cr].
  rewrite H_bind_run. unfold attempt at 1, complete.
  match goal with |- context [create ?rq0] => set (rq := rq0) end.
  destruct (create rq) as [content|msg] eqn:Hcreate; [|by intros out cr].
  destruct (Js.truthy (clean_completion (default "" content))) eqn:Hout;
    cbn [negb]; [|by intros out cr].
  cbn [mret M_ret]. rewrite H_bind_run.
  assert (Hfinal : from_completion env req mode
                     (clean_completion (default "" content))).
  { exists create, rq, content. repeat split; try done.
    intros Hmode. unfold rq. by destruct mode. }
  destruct (negb isAnonymous && Js.non_null client && Js.truthy_opt userId).
  - rewrite H_bind_run. unfold attempt at 1.
    destruct (savePrompt _ _ _ _ w) as [r w1].
    cbn. by intros out cr [= <- _].
  - cbn. by intros out cr [= <- _].
Qed.

Ltac answers_step :=
  lazymatch goal with
  | |- answers_with _ _ (respond _ _) =>
      apply answers_respond; by intros out cr
  | |- answers_with _ _ (mret _) => by apply answers_ret
  | |- answers_with _ _ (call _) => apply answers_call
  | |- answers_with _ _ (attempt _) => apply answers_attempt
  | |- answers_with _ _ (complete_and_reply _ _ _ _ _ _ _) =>
      apply complete_answers
  | |- answers_with _ _ (_ ≫= _) =>
      eapply (answers_bind _ (fun _ => True)); [|intros ? _]
  | |- answers_with _ _ (if ?b then _ else _) => destruct b
  | |- answers_with _ _ (match ?x with _ => _ end) => destruct x
  end.

Lemma handler_answers (env : Env) (req : Request) (mode : Mode) (w : World) :
  success_from_completion env req mode
    (fst (handlePromptImprovement env req mode w)).
Proof.
  unfold handlePromptImprovement.
  apply run_handler_answers; [|by intros st msg out cr].
  cbv zeta. repeat answers_step.
Qed.

(** X28. The output of a completed prompt request.  Whenever a prompt
    request is answered with an output, in any mode and for any caller,
    a completion client is configured and the output is what that
    client returned for the request after the clean-up; it is not
    empty and has no white space at either end.  For improve and
    refine the text sent to the client is the trimmed
    [original_prompt] alone. *)
Theorem output_is_cleaned_completion (env : Env) (req : Request) (mode : Mode)
    (w : World) (out : string) (cr : Z) :
  body (fst (handlePromptImprovement env req mode w)) = JsonSuccess out cr →
  from_completion env req mode out
  ∧ out ≠ EmptyString
  ∧ Js.trim out = out.
Proof.
  intros Hbody.
  pose proof (handler_answers env req mode w out cr Hbody) as Hfrom.
  split; [exact Hfrom|].
  destruct Hfrom as (create & rq & content & _ & _ & -> & Ht & _).
  split; [by intros Heq; rewrite Heq in Ht|].
  unfold clean_completion. cbv zeta. apply trim_idem.
Qed.

Lemma output_is_cleaned_completion_witness :
  from_completion Sample.env (Sample.request (Some Sample.token)) improve
    "Improved: write a poem"
  ∧ "Improved: write a poem" ≠ EmptyString
  ∧ Js.trim "Improved: write a poem" = "Improved: write a poem".
Proof.
  apply (output_is_cleaned_completion Sample.env
           (Sample.request (Some Sample.token)) improve Sample.world
           "Improved: write a poem" 5).
  vm_compute. reflexivity.
Defined.
